(** * facescan.py: attendance ledger, face verifier and session controller

    A shallow embedding of [facescan.py].  The program is a Streamlit
    script; each function of the script is embedded as a computation in a
    state-and-exception monad over a [World] that holds what the script
    touches: the file system, Streamlit's session state, the notices shown
    to the operator, the calls made to DeepFace and the camera accesses.
    What the operating system decides on its own (whether a file can be
    written or removed, the order of a directory listing) is an
    [Environment], a parameter of the functions that write or remove.

    Library functions the script calls (str methods, posixpath, json,
    pandas, cv2, os) are modelled next to the place they are used, each
    with the part of its behaviour the script depends on. *)

From Stdlib Require Import ZArith Ascii String.
From stdpp Require Import base option list gmap strings.

Local Open Scope Z_scope.
#[local] Set Warnings "-register-all".

(** ** Python strings

    A [str] is a [string] whose characters are code points below 256. *)

Module Py.

(** [str.isspace] on one character: the code points below 256 that
    Python treats as whitespace (TAB..CR, FS..US, SPACE, NEL, NBSP). *)
Definition isspace (c : ascii) : bool :=
  let n := nat_of_ascii c in
  ((9 <=? n) && (n <=? 13))%nat || ((28 <=? n) && (n <=? 32))%nat
  || (n =? 133)%nat || (n =? 160)%nat.

(** [s.endswith(suf)]: some suffix of [s] is [suf]. *)
Fixpoint endswith (s suf : string) : bool :=
  if String.eqb s suf then true
  else match s with
       | EmptyString => false
       | String _ s' => endswith s' suf
       end.

(** [s.startswith(pre)] *)
Definition startswith (s pre : string) : bool := String.prefix pre s.

Fixpoint lstrip (s : string) : string :=
  match s with
  | String c s' => if isspace c then lstrip s' else s
  | EmptyString => EmptyString
  end.

Fixpoint rstrip (s : string) : string :=
  match s with
  | String c s' =>
      let r := rstrip s' in
      if isspace c && String.eqb r "" then "" else String c r
  | EmptyString => EmptyString
  end.

(** [s.strip()] *)
Definition strip (s : string) : string := rstrip (lstrip s).

(** Truth value of a [str]: [not s] holds exactly for the empty string. *)
Definition truthy (s : string) : bool := negb (String.eqb s "").

(** Truth value of an optional [str] ([None] is false). *)
Definition truthy_opt (o : option string) : bool :=
  match o with
  | Some s => truthy s
  | None => false
  end.

(** [s.rfind(c)] for a one-character [c]: the highest index, or -1. *)
Fixpoint rfind_from (c : ascii) (s : string) (i last : Z) : Z :=
  match s with
  | EmptyString => last
  | String a s' => rfind_from c s' (i + 1) (if Ascii.eqb a c then i else last)
  end.

Definition rfind (s : string) (c : ascii) : Z := rfind_from c s 0 (-1).

(** The slices [s[:i]] and [s[i:]] for [0 <= i]. *)
Definition slice_to (s : string) (i : Z) : string :=
  String.substring 0 (Z.to_nat i) s.

Definition slice_from (s : string) (i : Z) : string :=
  String.substring (Z.to_nat i) (String.length s - Z.to_nat i) s.

(** [s[i:i+1]] *)
Definition char_at (s : string) (i : Z) : string :=
  String.substring (Z.to_nat i) 1 s.

(** [s.split(c)] for a one-character separator. *)
Fixpoint split (c : ascii) (s : string) : list string :=
  match s with
  | EmptyString => [EmptyString]
  | String a s' =>
      if Ascii.eqb a c then EmptyString :: split c s'
      else match split c s' with
           | w :: ws => String a w :: ws
           | [] => [String a EmptyString]
           end
  end.

(** [s.lower()]: A..Z and the upper-case letters of Latin-1 move up by
    32; every other code point below 256 stays. *)
Definition lower_char (c : ascii) : ascii :=
  let n := nat_of_ascii c in
  if ((65 <=? n) && (n <=? 90))%nat
     || ((192 <=? n) && (n <=? 222) && negb (n =? 215))%nat
  then ascii_of_nat (n + 32) else c.

Fixpoint lower (s : string) : string :=
  match s with
  | EmptyString => EmptyString
  | String c s' => String (lower_char c) (lower s')
  end.

(** Every character of [s] is [c] (so for the empty [s]). *)
Fixpoint all_are (c : ascii) (s : string) : bool :=
  match s with
  | EmptyString => true
  | String a s' => Ascii.eqb a c && all_are c s'
  end.

(** [c in s] for a one-character [c]. *)
Fixpoint contains (s : string) (c : ascii) : bool :=
  match s with
  | EmptyString => false
  | String a s' => Ascii.eqb a c || contains s' c
  end.

End Py.

(** ** posixpath *)

Module posixpath.

Definition sep : ascii := "/"%char.
Definition extsep : ascii := "."%char.

(** [os.path.join(a, b)]: an absolute [b] replaces [a]; otherwise the
    two are joined with exactly one separator between them. *)
Definition join (a b : string) : string :=
  if Py.startswith b (String sep "") then b
  else if String.eqb a "" || Py.endswith a (String sep "") then a +:+ b
  else a +:+ String sep "" +:+ b.

(** The scan of [genericpath._splitext] over the leading dots of the last
    component: [n] bounds the number of steps left. *)
Fixpoint splitext_scan (n : nat) (p : string) (filenameIndex dotIndex : Z)
  : string * string :=
  match n with
  | O => (p, "")
  | S n' =>
      if filenameIndex <? dotIndex then
        if negb (String.eqb (Py.char_at p filenameIndex) (String extsep ""))
        then (Py.slice_to p dotIndex, Py.slice_from p dotIndex)
        else splitext_scan n' p (filenameIndex + 1) dotIndex
      else (p, "")
  end.

(** [os.path.splitext(p)]: the extension starts at the last dot of the
    last component, leading dots of that component not counting. *)
Definition splitext (p : string) : string * string :=
  let sepIndex := Py.rfind p sep in
  let dotIndex := Py.rfind p extsep in
  if sepIndex <? dotIndex
  then splitext_scan (String.length p) p (sepIndex + 1) dotIndex
  else (p, "").

End posixpath.

(** ** Exceptions and outcomes *)

(** The exception classes the script can meet.  All derive from
    [Exception] except Streamlit's script-control exception, which derives
    from [BaseException] and so passes through [except Exception]. *)
Inductive exn :=
| JSONDecodeError
| FileNotFoundError
| OSError
| UnicodeDecodeError
| KeyError (key : string)
| ValueError (msg : string)
| DeepFaceError (msg : string)
| RerunException.

Definition is_Exception (e : exn) : bool :=
  match e with
  | RerunException => false
  | _ => true
  end.

(** What a call ends in: a value, an exception, or [Unmodelled] when the
    call leaves the part of pandas that is modelled below. *)
Inductive outcome (A : Type) :=
| Return (a : A)
| Raise (e : exn)
| Unmodelled.

Arguments Return {A} a.
Arguments Raise {A} e.
Arguments Unmodelled {A}.

(** ** JSON values and pandas frames *)

(** The value [json.load] returns.  A [JObj] is a Python dict in insertion
    order; its keys are pairwise distinct.  [JNaN] is the float that
    [json] writes as the token NaN. *)
Inductive json :=
| JNull
| JBool (b : bool)
| JNum (n : Z)
| JNaN
| JStr (s : string)
| JArr (l : list json)
| JObj (kv : list (string * json)).

(** Cells of a frame: the ledger only ever holds strings, and pandas fills
    the places a record has no key for with NaN. *)
Inductive cell :=
| Str (s : string)
| NaN.

Definition pydict := list (string * cell).

Record DataFrame := {
  columns : list string;
  rows : list (list cell)
}.

(** [d.get(k)] on an insertion-ordered dict. *)
Fixpoint dict_get {A : Type} (k : string) (d : list (string * A)) : option A :=
  match d with
  | [] => None
  | (k', v) :: d' => if String.eqb k k' then Some v else dict_get k d'
  end.

Definition mem (k : string) (l : list string) : bool :=
  existsb (String.eqb k) l.

(** Union of labels in order of first appearance. *)
Definition add_label (seen : list string) (k : string) : list string :=
  if mem k seen then seen else seen ++ [k].

Definition extend_labels (seen ks : list string) : list string :=
  foldl add_label seen ks.

(** One row of a frame laid out along [cols]: absent labels give NaN. *)
Definition align (cols : list string) (d : pydict) : list cell :=
  map (fun c => default NaN (dict_get c d)) cols.

(** [pd.DataFrame(list_of_dicts)] *)
Definition from_records (ds : list pydict) : DataFrame :=
  let cols := foldl (fun seen d => extend_labels seen (d.*1)) [] ds in
  {| columns := cols; rows := map (align cols) ds |}.

(** [pd.DataFrame(columns=cols)] *)
Definition empty_frame (cols : list string) : DataFrame :=
  {| columns := cols; rows := [] |}.

(** [df.to_dict('records')] *)
Definition to_dict_records (df : DataFrame) : list pydict :=
  map (fun row => zip (columns df) row) (rows df).

(** [pd.concat([a, b], ignore_index=True)] *)
Definition pd_concat (a b : DataFrame) : DataFrame :=
  let cols := extend_labels (columns a) (columns b) in
  {| columns := cols;
     rows := map (align cols) (to_dict_records a)
             ++ map (align cols) (to_dict_records b) |}.

Definition cell_of_json (v : json) : option cell :=
  match v with
  | JStr s => Some (Str s)
  | JNaN => Some NaN
  | _ => None
  end.

Definition json_of_cell (c : cell) : json :=
  match c with
  | Str s => JStr s
  | NaN => JNaN
  end.

Definition dict_of_json (v : json) : option pydict :=
  match v with
  | JObj kv => mapM (fun p => pair (fst p) <$> cell_of_json (snd p)) kv
  | _ => None
  end.

Definition json_of_dict (d : pydict) : json :=
  JObj (map (fun p => (fst p, json_of_cell (snd p))) d).

Definition is_scalar (v : json) : bool :=
  match v with
  | JArr _ | JObj _ => false
  | _ => true
  end.

(** [pd.DataFrame(data)] for the value read from the ledger file.
    Modelled: [None] and the empty list or dict (an empty frame), a list of
    dicts whose values are strings or NaN (one row per dict), a bare scalar
    and a dict of scalars (both a ValueError).  The other shapes (nested
    lists, columns of numbers, where pandas converts types) are left to
    [Unmodelled]. *)
Definition pd_DataFrame (data : json) : outcome DataFrame :=
  match data with
  | JNull => Return (empty_frame [])
  | JBool _ | JNum _ | JNaN | JStr _ =>
      Raise (ValueError "DataFrame constructor not properly called!")
  | JArr l =>
      match mapM dict_of_json l with
      | Some ds => Return (from_records ds)
      | None => Unmodelled
      end
  | JObj [] => Return (empty_frame [])
  | JObj kv =>
      if forallb is_scalar (kv.*2)
      then Raise (ValueError "If using all scalar values, you must pass an index")
      else Unmodelled
  end.

(** ** The file system *)

(** Pixel data of a frame. *)
Definition ndarray := list N.

(** What a file holds.  Text is kept in parsed form: [json.load] and
    [json.dump] are inverse to each other on the values handled here, so a
    file holding a JSON document is the document, and any other text is
    [Garbage].  [Jpeg img] is the file [cv2.imwrite] produces for [img]. *)
Inductive content :=
| Garbage (raw : string)
| JsonDoc (v : json)
| Jpeg (img : ndarray).

(** The tree the script works in: the regular files of the working
    directory, and the directory DB_PATH with its entries in the order
    [os.listdir] reports them ([None]: no such directory).  Entries of
    DB_PATH are regular files; a file name is any string without "/".
    [read_only] names working-directory files that cannot be opened for
    writing, which is how a failing write comes about. *)
Record FileSystem := {
  cwd : gmap string content;
  faces_db : option (list (string * content));
  read_only : gset string
}.

(** What the operating system decides and the script never asks:
    whether an entry of DB_PATH can be created or replaced
    ([store_writable], by the name of the entry: the name may be longer
    than the file system takes, a file of that name may be
    write-protected), whether a file can be removed ([removable], by its
    path from the working directory: the directory may forbid it, or the
    file be protected), and in which order [os.listdir] reports DB_PATH
    once an entry has been created ([relist]: a rearrangement of the
    entries). *)
Class Environment := {
  store_writable : string → bool;
  removable : string → bool;
  relist : list (string * content) → list (string * content);
  relist_Permutation es : relist es ≡ₚ es
}.

Definition DB_PATH : string := "faces_db".
Definition JSON_FILE : string := "attendance.json".

(** Where a path leads. [Outside]: out of the tree above; [NoEntry]: a
    path that steps through a regular file. *)
Inductive location :=
| CwdDir
| DbDir
| CwdFile (name : string)
| DbFile (name : string)
| Outside
| NoEntry.

Definition walk (at_ : location) (c : string) : location :=
  match at_ with
  | CwdDir =>
      if String.eqb c "" || String.eqb c "." then CwdDir
      else if String.eqb c ".." then Outside
      else if String.eqb c DB_PATH then DbDir
      else CwdFile c
  | DbDir =>
      if String.eqb c "" || String.eqb c "." then DbDir
      else if String.eqb c ".." then CwdDir
      else DbFile c
  | CwdFile _ | DbFile _ => NoEntry
  | Outside => Outside
  | NoEntry => NoEntry
  end.

Definition resolve (p : string) : location :=
  if String.eqb p "" then NoEntry
  else foldl walk (if Py.startswith p "/" then Outside else CwdDir)
             (Py.split posixpath.sep p).

(** Replacing the content of the entry [name], where it stands. *)
Fixpoint dir_replace (name : string) (c : content) (es : list (string * content))
  : list (string * content) :=
  match es with
  | [] => []
  | (n, c') :: es' =>
      if String.eqb n name then (n, c) :: es' else (n, c') :: dir_replace name c es'
  end.

(** Writing an entry of a directory: in place when the name is there;
    otherwise the directory gains the entry, and the listing is what the
    environment makes of it. *)
Definition dir_put {OS : Environment} (name : string) (c : content)
    (es : list (string * content)) : list (string * content) :=
  if mem name (es.*1) then dir_replace name c es
  else relist (es ++ [(name, c)]).

Definition fs_exists (fs : FileSystem) (p : string) : bool :=
  match resolve p with
  | CwdDir => true
  | DbDir => bool_decide (is_Some (faces_db fs))
  | CwdFile n => bool_decide (is_Some (cwd fs !! n))
  | DbFile n =>
      match faces_db fs with
      | Some es => bool_decide (is_Some (dict_get n es))
      | None => false
      end
  | Outside | NoEntry => false
  end.

Definition fs_read (fs : FileSystem) (p : string) : option content :=
  match resolve p with
  | CwdFile n => cwd fs !! n
  | DbFile n => faces_db fs ≫= dict_get n
  | _ => None
  end.

(** Creating or replacing the file at [p]; [None] when it cannot be opened
    for writing.  A write outside the tree leaves the tree as it is. *)
Definition fs_write {OS : Environment} (fs : FileSystem) (p : string) (c : content)
  : option FileSystem :=
  match resolve p with
  | CwdFile n =>
      if bool_decide (n ∈ read_only fs) then None
      else Some {| cwd := <[n := c]> (cwd fs);
                   faces_db := faces_db fs; read_only := read_only fs |}
  | DbFile n =>
      match faces_db fs with
      | Some es =>
          if store_writable n
          then Some {| cwd := cwd fs; faces_db := Some (dir_put n c es);
                       read_only := read_only fs |}
          else None
      | None => None
      end
  | Outside => Some fs
  | CwdDir | DbDir | NoEntry => None
  end.

(** Removing the file at [p]; [None] when no file is there, [p] is a
    directory, or the file is there and the environment does not let it
    go. *)
Definition fs_remove {OS : Environment} (fs : FileSystem) (p : string)
  : option FileSystem :=
  match resolve p with
  | CwdFile n =>
      match cwd fs !! n with
      | Some _ =>
          if removable n
          then Some {| cwd := delete n (cwd fs);
                       faces_db := faces_db fs; read_only := read_only fs |}
          else None
      | None => None
      end
  | DbFile n =>
      match faces_db fs with
      | Some es =>
          if bool_decide (is_Some (dict_get n es))
             && removable (DB_PATH +:+ "/" +:+ n)
          then Some {| cwd := cwd fs;
                       faces_db :=
                         Some (List.filter (fun e => negb (String.eqb (fst e) n)) es);
                       read_only := read_only fs |}
          else None
      | None => None
      end
  | _ => None
  end.

(** [os.listdir(p)] for a directory of the tree. *)
Definition fs_listdir (fs : FileSystem) (p : string) : option (list string) :=
  match resolve p with
  | DbDir => fmap (M := option) (fun es => es.*1) (faces_db fs)
  | CwdDir =>
      Some ((map_to_list (cwd fs)).*1
            ++ (if faces_db fs is Some _ then [DB_PATH] else []))
  | _ => None
  end.

(** ** The world of one script run *)

(** The per-check-type dict the script keeps under
    [f"{check_type.lower()}_verification"]. *)
Record VerificationSession := {
  frame : option ndarray;
  verification_done : bool;
  last_capture_time : option string
}.

(** The keys of [st.session_state] that the functions below use; [None]
    for a key that is not set. *)
Record SessionState := {
  capture_face : option bool;
  face_name : option string;
  verification : gmap string VerificationSession
}.

Inductive level := success | error | warning | info.

(** The messages of the script, one constructor per call site. *)
Inductive text :=
| Error_saving_JSON (e : exn)
| Recorded (check_type name now : string)
| Failed_to_record (check_type name : string)
| Recognition_error_with (file : string) (e : exn)
| Overall_recognition_error (e : exn)
| Please_enter_a_valid_name
| Failed_to_access_webcam
| Failed_to_capture_image
| Face_registered_for (name : string)
| Image_saved_as (filename : string)
| No_registered_faces_found
| Webcam_access_problem
| Frame_captured_successfully
| Failed_to_capture_frame
| Frame_captured_at (t : string)
| Face_verified_successfully
| Welcome (name : string)
| Face_not_recognized
| Please_try_the_following
| Verification_failed (e : exn)
| Click_the_button_above (check_type : string).

Definition notice : Type := level * text.

Record World := {
  fs : FileSystem;
  session_state : SessionState;
  notices : list notice;
  verify_calls : list (string * string);
  camera_opened : nat
}.

Definition set_fs (f : FileSystem) (w : World) : World :=
  {| fs := f; session_state := session_state w; notices := notices w;
     verify_calls := verify_calls w; camera_opened := camera_opened w |}.

Definition set_session_state (s : SessionState) (w : World) : World :=
  {| fs := fs w; session_state := s; notices := notices w;
     verify_calls := verify_calls w; camera_opened := camera_opened w |}.

Definition add_notice (n : notice) (w : World) : World :=
  {| fs := fs w; session_state := session_state w; notices := notices w ++ [n];
     verify_calls := verify_calls w; camera_opened := camera_opened w |}.

Definition add_verify_call (c : string * string) (w : World) : World :=
  {| fs := fs w; session_state := session_state w; notices := notices w;
     verify_calls := verify_calls w ++ [c]; camera_opened := camera_opened w |}.

Definition add_camera_open (w : World) : World :=
  {| fs := fs w; session_state := session_state w; notices := notices w;
     verify_calls := verify_calls w; camera_opened := S (camera_opened w) |}.

(** ** The monad of the script *)

Definition M (A : Type) : Type := World → outcome A * World.

#[global] Instance M_ret : MRet M := fun A a w => (Return a, w).

#[global] Instance M_bind : MBind M := fun A B f m w =>
  match m w with
  | (Return a, w') => f a w'
  | (Raise e, w') => (Raise e, w')
  | (Unmodelled, w') => (Unmodelled, w')
  end.

Definition raise {A : Type} (e : exn) : M A := fun w => (Raise e, w).

(** [try: body / except classes as e: handler e] *)
Definition try_except {A : Type} (body : M A) (classes : exn → bool)
    (handler : exn → M A) : M A := fun w =>
  match body w with
  | (Raise e, w') => if classes e then handler e w' else (Raise e, w')
  | r => r
  end.

(** [try: body / finally: final]: [final] runs whatever [body] ends in; an
    exception of [final] replaces the outcome of [body]. *)
Definition try_finally {A : Type} (body : M A) (final : M unit) : M A := fun w =>
  match body w with
  | (Unmodelled, w') => (Unmodelled, w')
  | (r, w') =>
      match final w' with
      | (Return _, w'') => (r, w'')
      | (Raise e, w'') => (Raise e, w'')
      | (Unmodelled, w'') => (Unmodelled, w'')
      end
  end.

Definition lift {A : Type} (o : outcome A) : M A := fun w => (o, w).

Definition modify (f : World → World) : M unit := fun w => (Return tt, f w).

Definition st (l : level) (t : text) : M unit := modify (add_notice (l, t)).

Definition os_path_exists (p : string) : M bool := fun w =>
  (Return (fs_exists (fs w) p), w).

Definition os_listdir (p : string) : M (list string) := fun w =>
  match fs_listdir (fs w) p with
  | Some l => (Return l, w)
  | None => (Raise FileNotFoundError, w)
  end.

(** [os.remove(p)]: FileNotFoundError when nothing is at [p], and the
    PermissionError of a file that cannot be removed, an OSError. *)
Definition os_remove {OS : Environment} (p : string) : M unit := fun w =>
  match fs_remove (fs w) p with
  | Some f => (Return tt, set_fs f w)
  | None =>
      if fs_exists (fs w) p then (Raise OSError, w)
      else (Raise FileNotFoundError, w)
  end.

(** [with open(p, 'r') as file: json.load(file)] *)
Definition open_json_load (p : string) : M json := fun w =>
  match fs_read (fs w) p with
  | None => (Raise FileNotFoundError, w)
  | Some (JsonDoc v) => (Return v, w)
  | Some (Garbage _) => (Raise JSONDecodeError, w)
  | Some (Jpeg _) => (Raise UnicodeDecodeError, w)
  end.

(** [with open(p, 'w') as file: json.dump(data, file, indent=4)] *)
Definition open_json_dump {OS : Environment} (p : string) (data : json) : M unit := fun w =>
  match fs_write (fs w) p (JsonDoc data) with
  | Some f => (Return tt, set_fs f w)
  | None => (Raise OSError, w)
  end.

(** [cv2.imwrite(p, img)]: false, and nothing written, when the file
    cannot be created. *)
Definition cv2_imwrite {OS : Environment} (p : string) (img : ndarray) : M bool := fun w =>
  match fs_write (fs w) p (Jpeg img) with
  | Some f => (Return true, set_fs f w)
  | None => (Return false, w)
  end.

(** What the camera gives to one [cv2.VideoCapture(0)] and one [read]. *)
Inductive Camera :=
| NotOpened
| NoFrame
| Frame (img : ndarray).

Definition cv2_VideoCapture : M unit := modify add_camera_open.

(** ** The ledger *)

Definition ledger_columns : list string := ["Name"; "Type"; "Time"].

Definition load_attendance_data : M DataFrame :=
  try_except
    (present ← os_path_exists JSON_FILE;
     if (present : bool) then
       data ← open_json_load JSON_FILE;
       lift (pd_DataFrame data)
     else mret (empty_frame ledger_columns))
    (fun e => match e with
              | JSONDecodeError | FileNotFoundError => true
              | _ => false
              end)
    (fun _ => mret (empty_frame ledger_columns)).

Definition save_attendance_data {OS : Environment} (df : DataFrame) : M bool :=
  try_except
    (let data := to_dict_records df in
     open_json_dump JSON_FILE (JArr (map json_of_dict data));;
     mret true)
    is_Exception
    (fun e => st error (Error_saving_JSON e);; mret false).

(** [now] is [datetime.now().strftime('%Y-%m-%d %H:%M:%S')]. *)
Definition log_check {OS : Environment} (name check_type now : string) : M bool :=
  df ← load_attendance_data;
  let new_entry :=
    from_records [[("Name", Str name); ("Type", Str check_type); ("Time", Str now)]] in
  let df := pd_concat df new_entry in
  saved ← save_attendance_data df;
  if (saved : bool) then
    st success (Recorded check_type name now);;
    mret true
  else
    st error (Failed_to_record check_type name);;
    mret false.

(** ** The verifier *)

(** What [DeepFace.verify] answers: a dict with the key "verified", or an
    exception. *)
Inductive verdict :=
| Verified (b : bool)
| Failed (msg : string).

Definition temp_img : string := "temp_live.jpg".

Section Verifier.

(** The oracle.  It is given two paths and reads the files there. *)
Variable DeepFace : FileSystem → string → string → verdict.
Context {OS : Environment}.

(** [DeepFace.verify(img1_path, img2_path, ...)["verified"]] *)
Definition DeepFace_verify (img1_path img2_path : string) : M bool := fun w =>
  let w' := add_verify_call (img1_path, img2_path) w in
  match DeepFace (fs w) img1_path img2_path with
  | Verified b => (Return b, w')
  | Failed msg => (Raise (DeepFaceError msg), w')
  end.

(** The body of [for file in files]: [Some name] when the loop is left
    through [break] with [recognized = name], [None] when it runs out. *)
Fixpoint scan (files : list string) : M (option string) :=
  match files with
  | [] => mret None
  | file :: files' =>
      let db_img_path := posixpath.join DB_PATH file in
      found ← try_except
        (verified ← DeepFace_verify temp_img db_img_path;
         if (verified : bool)
         then mret (Some (fst (posixpath.splitext file)))
         else mret None)
        is_Exception
        (fun e => st warning (Recognition_error_with file e);; mret None);
      match found with
      | Some recognized => mret (Some recognized)
      | None => scan files'
      end
  end.

Definition recognize_face (frame : ndarray) : M (option string) :=
  present ← os_path_exists DB_PATH;
  nothing ← (if (present : bool)
             then l ← os_listdir DB_PATH; mret (bool_decide (length l = 0%nat))
             else mret true);
  if (nothing : bool) then mret None
  else
    cv2_imwrite temp_img frame;;
    l ← os_listdir DB_PATH;
    let files := List.filter (fun f => Py.endswith f ".jpg") l in
    try_finally
      (try_except (scan files) is_Exception
         (fun e => st error (Overall_recognition_error e);; mret None))
      (left_over ← os_path_exists temp_img;
       if (left_over : bool) then os_remove temp_img else mret tt).

End Verifier.

(** ** Registration *)

Definition set_capture_face (b : bool) : M unit := modify (fun w =>
  set_session_state
    {| capture_face := Some b; face_name := face_name (session_state w);
       verification := verification (session_state w) |} w).

Definition set_face_name (s : string) : M unit := modify (fun w =>
  set_session_state
    {| capture_face := capture_face (session_state w); face_name := Some s;
       verification := verification (session_state w) |} w).

Definition get_capture_face : M bool := fun w =>
  match capture_face (session_state w) with
  | Some b => (Return b, w)
  | None => (Raise (KeyError "capture_face"), w)
  end.

(** [entered] is what the text input holds, [capture_clicked] whether the
    button "Capture Face" was pressed, [cam] what the camera gives if it
    is asked. *)
Definition add_face {OS : Environment} (entered : string) (capture_clicked : bool)
    (cam : Camera) : M unit :=
  modify (fun w =>
    if capture_face (session_state w) is None
    then set_session_state
           {| capture_face := Some false; face_name := face_name (session_state w);
              verification := verification (session_state w) |} w
    else w);;
  modify (fun w =>
    if face_name (session_state w) is None
    then set_session_state
           {| capture_face := capture_face (session_state w); face_name := Some "";
              verification := verification (session_state w) |} w
    else w);;
  let name := entered in
  set_face_name name;;
  go_on ← (if capture_clicked then
             if negb (Py.truthy (Py.strip name)) then
               st error Please_enter_a_valid_name;;
               mret false
             else
               set_capture_face true;;
               mret true
           else mret true);
  if negb go_on then mret tt
  else
    capturing ← get_capture_face;
    if negb capturing then mret tt
    else
      cv2_VideoCapture;;
      match cam with
      | NotOpened =>
          st error Failed_to_access_webcam;;
          set_capture_face false
      | NoFrame =>
          st error Failed_to_capture_image;;
          set_capture_face false
      | Frame frame =>
          let filename := posixpath.join DB_PATH (Py.strip name +:+ ".jpg") in
          cv2_imwrite filename frame;;
          st success (Face_registered_for (Py.strip name));;
          st info (Image_saved_as filename);;
          set_capture_face false;;
          set_face_name ""
      end.

(** ** The session controller *)

(** The buttons of one verification page. *)
Inductive button :=
| Capture_Frame
| Verify_and
| Recapture_Frame
| Start_New.

Definition session_key (check_type : string) : string :=
  Py.lower check_type +:+ "_verification".

Definition new_session : VerificationSession :=
  {| frame := None; verification_done := false; last_capture_time := None |}.

(** [st.session_state[key]] *)
Definition get_session (key : string) : M VerificationSession := fun w =>
  match verification (session_state w) !! key with
  | Some s => (Return s, w)
  | None => (Raise (KeyError key), w)
  end.

(** [st.session_state[key] = s] *)
Definition put_session (key : string) (s : VerificationSession) : M unit :=
  modify (fun w =>
    set_session_state
      {| capture_face := capture_face (session_state w);
         face_name := face_name (session_state w);
         verification := <[key := s]> (verification (session_state w)) |} w).

(** [st.session_state[key]['frame'] = v], and likewise for the other two
    entries: the dict under [key] is changed in place. *)
Definition set_frame (key : string) (v : option ndarray) : M unit :=
  s ← get_session key;
  put_session key {| frame := v; verification_done := verification_done s;
                     last_capture_time := last_capture_time s |}.

Definition set_verification_done (key : string) (v : bool) : M unit :=
  s ← get_session key;
  put_session key {| frame := frame s; verification_done := v;
                     last_capture_time := last_capture_time s |}.

Definition set_last_capture_time (key : string) (v : option string) : M unit :=
  s ← get_session key;
  put_session key {| frame := frame s; verification_done := verification_done s;
                     last_capture_time := v |}.

(** [st.rerun()] *)
Definition st_rerun : M unit := raise RerunException.

Section Controller.

Variable DeepFace : FileSystem → string → string → verdict.
Context {OS : Environment}.

(** [clicked] is the button pressed for this run, if any; [cam] what the
    camera gives if it is asked; [now] the reading of the clock. *)
Definition webcam_verification (check_type : string) (clicked : option button)
    (cam : Camera) (now : string) : M unit :=
  present ← os_path_exists DB_PATH;
  unregistered ←
    (if (present : bool)
     then l ← os_listdir DB_PATH;
          mret (bool_decide
                  (length (List.filter (fun f => Py.endswith f ".jpg") l) = 0%nat))
     else mret true);
  if (unregistered : bool) then st warning No_registered_faces_found
  else
    let key := session_key check_type in
    known ← (fun w => (Return (bool_decide
               (is_Some (verification (session_state w) !! key))), w));
    (if (known : bool) then mret tt else put_session key new_session);;
    go_on ←
      (if clicked is Some Capture_Frame then
         cv2_VideoCapture;;
         match cam with
         | NotOpened =>
             st error Webcam_access_problem;;
             mret false
         | Frame img =>
             set_frame key (Some img);;
             set_verification_done key false;;
             set_last_capture_time key (Some now);;
             st success Frame_captured_successfully;;
             mret true
         | NoFrame =>
             st error Failed_to_capture_frame;;
             mret false
         end
       else mret true);
    if negb go_on then mret tt
    else
      s ← get_session key;
      match frame s with
      | Some img =>
          (if last_capture_time s is Some t
           then st info (Frame_captured_at t) else mret tt);;
          (if clicked is Some Verify_and then
             try_except
               (name ← recognize_face DeepFace img;
                if Py.truthy_opt name then
                  let name := default "" name in
                  st success Face_verified_successfully;;
                  st success (Welcome name);;
                  logged ← log_check name check_type now;
                  if (logged : bool)
                  then set_verification_done key true
                  else mret tt
                else
                  st error Face_not_recognized;;
                  st warning Please_try_the_following)
               is_Exception
               (fun e => st error (Verification_failed e))
           else mret tt);;
          (if clicked is Some Recapture_Frame then
             set_frame key None;;
             set_verification_done key false;;
             st_rerun
           else mret tt);;
          s' ← get_session key;
          if verification_done s' then
            if clicked is Some Start_New then
              put_session key new_session;;
              st_rerun
            else mret tt
          else mret tt
      | None => st info (Click_the_button_above check_type)
      end.

End Controller.

(** ** Well-formed ledger files

    The persisted ledger is a JSON array of objects, each with exactly the
    keys Name, Type and Time (in any order) and string values. *)

Definition is_str (v : json) : bool :=
  if v is JStr _ then true else false.

Definition is_record (v : json) : bool :=
  match v with
  | JObj kv => bool_decide (kv.*1 ≡ₚ ledger_columns) && forallb is_str (kv.*2)
  | _ => false
  end.

Definition well_formed (c : content) : bool :=
  match c with
  | JsonDoc (JArr l) => forallb is_record l
  | _ => false
  end.

(** What is at JSON_FILE. *)
Definition ledger_file (w : World) : option content :=
  cwd (fs w) !! JSON_FILE.

(** The dict [log_check] builds for one check. *)
Definition attendance_record (name check_type now : string) : pydict :=
  [("Name", Str name); ("Type", Str check_type); ("Time", Str now)].

(** The shape every frame built from dicts has. *)
Definition frame_ok (df : DataFrame) : Prop :=
  NoDup (columns df) ∧ Forall (fun r => length r = length (columns df)) (rows df).

(** ** What the oracle is shown *)

(** The file system once [recognize_face] has written the candidate
    image: unchanged if temp_img cannot be written. *)
Definition with_candidate {OS : Environment} (frame : ndarray) (fs : FileSystem)
  : FileSystem :=
  default fs (fs_write fs temp_img (Jpeg frame)).

(** The call [recognize_face] makes for the entry [file] of DB_PATH. *)
Definition call_for (file : string) : string * string :=
  (temp_img, posixpath.join DB_PATH file).

(** The entries of DB_PATH, none if there is no such directory. *)
Definition store_entries (fs : FileSystem) : list string :=
  default [] (fs_listdir fs DB_PATH).

(** The files [recognize_face] enumerates. *)
Definition jpg_files (fs : FileSystem) : list string :=
  List.filter (fun f => Py.endswith f ".jpg") (store_entries fs).

(** The verdict on the entry [file] of DB_PATH for the candidate [frame]. *)
Definition verdict_on {OS : Environment}
    (DeepFace : FileSystem → string → string → verdict)
    (frame : ndarray) (fs : FileSystem) (file : string) : verdict :=
  DeepFace (with_candidate frame fs) temp_img (posixpath.join DB_PATH file).

(** Whether a verdict is the dict with "verified" true. *)
Definition is_verified (v : verdict) : bool :=
  if v is Verified true then true else false.

(** The entries up to the first that satisfies [P], that one included. *)
Fixpoint up_to_first (P : string → bool) (files : list string) : list string :=
  match files with
  | [] => []
  | f :: files' => f :: (if P f then [] else up_to_first P files')
  end.

(** The first enumerated file the oracle verifies for the candidate, and
    the files enumerated until then. *)
Definition first_verified {OS : Environment}
    (DeepFace : FileSystem → string → string → verdict)
    (frame : ndarray) (fs : FileSystem) : option string :=
  List.find (fun f => is_verified (verdict_on DeepFace frame fs f)) (jpg_files fs).

Definition consulted {OS : Environment}
    (DeepFace : FileSystem → string → string → verdict)
    (frame : ndarray) (fs : FileSystem) : list string :=
  up_to_first (fun f => is_verified (verdict_on DeepFace frame fs f)) (jpg_files fs).

(** The identity [recognize_face] gives to a file. *)
Definition identity_of (file : string) : string :=
  fst (posixpath.splitext file).

(** The file system [recognize_face] leaves behind: no temp_img. *)
Definition without_candidate (fs : FileSystem) : FileSystem :=
  {| cwd := delete temp_img (cwd fs); faces_db := faces_db fs;
     read_only := read_only fs |}.

Section Passing.

Variable DeepFace : FileSystem → string → string → verdict.



End Passing.

(** The world after JSON_FILE was rewritten to hold [data]. *)
Definition write_ledger (data : json) (w : World) : World :=
  set_fs {| cwd := <[JSON_FILE := JsonDoc data]> (cwd (fs w));
            faces_db := faces_db (fs w); read_only := read_only (fs w) |} w.

(** ** Environments *)

(** The environment of an ordinary run: every entry of DB_PATH can be
    written, every file of the working directory removed, and a new entry
    is listed last.  A statement that names no environment is about this
    one. *)
#[global] Instance ordinary : Environment := {|
  store_writable _ := true;
  removable _ := true;
  relist es := es;
  relist_Permutation es := Permutation_refl es
|}.

(** A file system that takes no name of more than 255 bytes. *)
Definition NAME_MAX : nat := 255.

Definition short_names : Environment := {|
  store_writable n := (String.length n <=? NAME_MAX)%nat;
  removable _ := true;
  relist es := es;
  relist_Permutation es := Permutation_refl es
|}.

(** A working directory out of which temp_img cannot be removed. *)
Definition kept_candidate : Environment := {|
  store_writable _ := true;
  removable n := negb (String.eqb n temp_img);
  relist es := es;
  relist_Permutation es := Permutation_refl es
|}.

(** A directory that lists its newest entry first. *)
Definition last_first (es : list (string * content)) : list (string * content) :=
  match reverse es with
  | [] => []
  | e :: r => e :: reverse r
  end.

Definition newest_first : Environment.
Proof.
  refine {| store_writable _ := true; removable _ := true; relist := last_first |}.
  intros es. unfold last_first.
  rewrite <- (reverse_involutive es) at 2.
  destruct (reverse es) as [|e r]; [done|].
  rewrite reverse_cons. by rewrite Permutation_app_comm.
Defined.

(** ** Sample worlds *)

(** A world with an empty store whose ledger file holds [c]. *)
Definition ledger_world (c : option content) (ro : gset string) : World :=
  {| fs := {| cwd := from_option (fun c => {[JSON_FILE := c]}) ∅ c;
              faces_db := Some []; read_only := ro |};
     session_state := {| capture_face := None; face_name := None; verification := ∅ |};
     notices := []; verify_calls := []; camera_opened := 0 |}.

Definition bob_ledger : content :=
  JsonDoc (JArr [JObj [("Time", JStr "2024-01-01 09:00:00"); ("Name", JStr "Bob");
                       ("Type", JStr "Check-In")]]).

(** A ledger file holding one record that is not wrapped in an array. *)
Definition bare_record : content :=
  JsonDoc (JObj [("Name", JStr "Bob"); ("Type", JStr "Check-In");
                 ("Time", JStr "2024-01-01 09:00:00")]).

(** A world whose store holds [es] and whose working directory holds
    [files]. *)
Definition store_world (es : list (string * content)) (files : gmap string content)
  : World :=
  {| fs := {| cwd := files; faces_db := Some es; read_only := ∅ |};
     session_state := {| capture_face := None; face_name := None; verification := ∅ |};
     notices := []; verify_calls := []; camera_opened := 0 |}.

Definition three_faces : list (string * content) :=
  [("carol.jpg", Jpeg [3%N]); ("notes.txt", Garbage "todo");
   ("alice.jpg", Jpeg [1%N]); ("bob.jpg", Jpeg [2%N])].

(** An oracle that verifies alice.jpg and bob.jpg and answers false for
    anything else. *)
Definition alice_or_bob (fs : FileSystem) (img1 img2 : string) : verdict :=
  Verified (String.eqb img2 "faces_db/alice.jpg" || String.eqb img2 "faces_db/bob.jpg").

(** An oracle that fails on carol.jpg and alice.jpg and verifies bob.jpg. *)
Definition only_bob (fs : FileSystem) (img1 img2 : string) : verdict :=
  if String.eqb img2 "faces_db/bob.jpg" then Verified true
  else Failed "Face could not be detected".

(** The session keys as [add_face] leaves them before it looks at the
    button: the two keys set, the text input stored. *)
Definition entered_state (entered : string) (s : SessionState) : SessionState :=
  {| capture_face := Some (default false (capture_face s));
     face_name := Some entered;
     verification := verification s |}.

(** ** Invariants of a run *)

(** [I] holds after [m] whenever it holds before, whatever [m] ends in. *)
Definition preserved {A : Type} (I : World → Prop) (m : M A) : Prop :=
  ∀ w, I w → I (m w).2.

(** [m] leaves Streamlit's session state as it is, whatever it ends in. *)
Definition keeps_session {A : Type} (m : M A) : Prop :=
  ∀ w, session_state (m w).2 = session_state w.

(** The frame the session of one check type holds, if any. *)
Definition session_frame (check_type : string) (w : World) : option ndarray :=
  verification (session_state w) !! session_key check_type ≫= frame.

(** A frame is held only if this run captured it: the button pressed was
    "Capture Frame" and the camera gave that frame. *)
Definition frame_from_capture (check_type : string) (clicked : option button)
    (cam : Camera) (w : World) : Prop :=
  ∀ img, session_frame check_type w = Some img →
         clicked = Some Capture_Frame ∧ cam = Frame img.

(** A world whose store is [three_faces] and whose session for
    [check_type] is [s]. *)
Definition session_world (check_type : string) (s : VerificationSession)
    (ro : gset string) : World :=
  {| fs := {| cwd := ∅; faces_db := Some three_faces; read_only := ro |};
     session_state := {| capture_face := Some false; face_name := Some "";
                         verification := {[session_key check_type := s]} |};
     notices := []; verify_calls := []; camera_opened := 0 |}.

Definition captured : VerificationSession :=
  {| frame := Some [9%N]; verification_done := false;
     last_capture_time := Some "2024-01-01 09:00:00" |}.


(** ** Reading a frame as a ledger *)

Definition is_Str (c : cell) : bool :=
  if c is Str _ then true else false.

(** A dict with exactly the three ledger keys and string values. *)
Definition record_dict (d : pydict) : bool :=
  bool_decide (d.*1 ≡ₚ ledger_columns) && forallb is_Str (d.*2).

(** The three ledger items of one record, whatever the order of its keys. *)
Definition record_view (d : pydict) : option cell * option cell * option cell :=
  (dict_get "Name" d, dict_get "Type" d, dict_get "Time" d).

Definition ledger_rows (df : DataFrame) : list (option cell * option cell * option cell) :=
  map record_view (to_dict_records df).

(** One check as the operator causes it: name, check type, time. *)
Definition check : Type := string * string * string.

Definition check_view (c : check) : option cell * option cell * option cell :=
  (Some (Str c.1.1), Some (Str c.1.2), Some (Str c.2)).

(** The world after [log_check] ran for each check in turn. *)
Definition log_checks {OS : Environment} (checks : list check) (w : World) : World :=
  foldl (fun w c => (log_check c.1.1 c.1.2 c.2 w).2) w checks.

(** The columns of the frame read from a ledger of records: the keys of
    the first record, in its order; the ledger columns when it is empty and
    a record is added. *)
Definition columns_of (ds : list pydict) : list string :=
  match ds with
  | [] => ledger_columns
  | d :: _ => d.*1
  end.

(** ** The sidebar *)

(** The metric "Registered Faces": the number of .jpg entries of DB_PATH,
    a directory the script creates when it starts. *)
Definition face_count (fs : FileSystem) : nat := length (jpg_files fs).

(** The names listed under "Registered Users". *)
Definition registered_users (fs : FileSystem) : list string :=
  map (fun f => fst (posixpath.splitext f)) (jpg_files fs).

(** ** Parts of a verification run *)

(** The world once the capture time of the held frame has been shown. *)
Definition after_info (s : VerificationSession) (w : World) : World :=
  if last_capture_time s is Some t
  then add_notice (info, Frame_captured_at t) w else w.

(** What the button "Verify" runs: the [try] statement of
    [webcam_verification], for the frame [img] held under [key]. *)
Definition verify_body {OS : Environment}
    (DeepFace : FileSystem → string → string → verdict)
    (check_type now : string) (img : ndarray) (key : string) : M unit :=
  try_except
    (name ← recognize_face DeepFace img;
     if Py.truthy_opt name then
       st success Face_verified_successfully;;
       st success (Welcome (default "" name));;
       logged ← log_check (default "" name) check_type now;
       if (logged : bool)
       then set_verification_done key true
       else mret tt
     else
       st error Face_not_recognized;;
       st warning Please_try_the_following)
    is_Exception
    (fun e => st error (Verification_failed e)).

(** ** What escapes a run *)

(** Started where [I] holds, [m] ends where [I] holds, in a value or in
    Streamlit's rerun signal: in no other exception, and not outside the
    modelled part of pandas. *)
Definition quiet {A : Type} (I : World → Prop) (m : M A) : Prop :=
  ∀ w, I w →
    I (m w).2 ∧ ((∃ a, (m w).1 = Return a) ∨ (m w).1 = Raise RerunException).

(** Started where [I] holds, [m] ends where [I] holds, in a value or in
    an exception. *)
Definition modelled {A : Type} (I : World → Prop) (m : M A) : Prop :=
  ∀ w, I w → I (m w).2 ∧ (m w).1 ≠ Unmodelled.

(** The session dict of [key] exists. *)
Definition has_session (key : string) (w : World) : Prop :=
  is_Some (verification (session_state w) !! key).

(** The ledger file is one whose reading by pandas is modelled. *)
Definition ledger_modelled (w : World) : Prop :=
  (load_attendance_data w).1 ≠ Unmodelled.

(** Where the controller stands once the session dict is there. *)
Definition ready (key : string) (w : World) : Prop :=
  has_session key w ∧ ledger_modelled w.

(** ** The attendance log page *)

(** [df.empty]: no column or no row. *)
Definition df_empty (df : DataFrame) : bool :=
  match columns df, rows df with
  | [], _ | _, [] => true
  | _, _ => false
  end.

(** [df[c]], the cells of one column. *)
Definition column (c : string) (df : DataFrame) : list cell :=
  map (fun d => default NaN (dict_get c d)) (to_dict_records df).

(** The strings of a column, NaN left out. *)
Fixpoint strings_of (col : list cell) : list string :=
  match col with
  | [] => []
  | Str s :: col' => s :: strings_of col'
  | NaN :: col' => strings_of col'
  end.

(** [series.nunique()]: the number of distinct values, NaN not counted. *)
Definition nunique (col : list cell) : nat :=
  length (remove_dups (strings_of col)).

(** [len(df[series.str.startswith(today)])] for a column of strings.  With
    a NaN in the column the outcome depends on the version of pandas and
    is left to [Unmodelled]. *)
Definition startswith_count (today : string) (col : list cell) : outcome nat :=
  if forallb is_Str col
  then Return (length (List.filter (fun s => Py.startswith s today) (strings_of col)))
  else Unmodelled.

(** What [display_attendance_log] puts on the page: the info that there is
    no record, or the three metrics, the table, and the JSON offered for
    download and shown raw. *)
Inductive log_page :=
| No_attendance_records
| Attendance_log (total_records unique_people todays_records : nat)
    (table : DataFrame) (download : json).

(** [today] is [datetime.now().strftime('%Y-%m-%d')]. *)
Definition display_attendance_log (today : string) : M log_page :=
  df ← load_attendance_data;
  if negb (df_empty df) then
    let total_records := length (rows df) in
    let unique_people :=
      if mem "Name" (columns df) then nunique (column "Name" df) else 0%nat in
    today_records ←
      (if mem "Time" (columns df)
       then lift (startswith_count today (column "Time" df))
       else mret 0%nat);
    mret (Attendance_log total_records unique_people today_records df
            (JArr (map json_of_dict (to_dict_records df))))
  else mret No_attendance_records.

(** ** More sample worlds *)


(** An oracle that verifies nobody and fails on carol.jpg. *)
Definition nobody (fs : FileSystem) (img1 img2 : string) : verdict :=
  if String.eqb img2 "faces_db/carol.jpg" then Failed "Face could not be detected"
  else Verified false.

Definition one_row : DataFrame :=
  {| columns := ["Name"; "Type"; "Time"];
     rows := [[Str "Bob"; Str "Check-In"; Str "2024-01-01 09:00:00"]] |}.

(** A world whose store is [three_faces], whose session for [check_type]
    is [s] and whose ledger file holds [ledger]. *)
Definition full_world (check_type : string) (s : VerificationSession)
    (ledger : option content) (ro : gset string) : World :=
  {| fs := {| cwd := from_option (fun c => {[JSON_FILE := c]}) ∅ ledger;
              faces_db := Some three_faces; read_only := ro |};
     session_state := {| capture_face := Some false; face_name := Some "";
                         verification := {[session_key check_type := s]} |};
     notices := []; verify_calls := []; camera_opened := 0 |}.

Definition verified : VerificationSession :=
  {| frame := Some [9%N]; verification_done := true;
     last_capture_time := Some "2024-01-01 09:00:00" |}.

Definition two_checks : list check :=
  [("Ann", "Check-In", "2024-01-02 08:00:00");
   ("Ann", "Check-Out", "2024-01-02 16:00:00")].

(** * Properties *)

(** ** The library functions on sample inputs *)

Example strip_spaces : Py.strip "  a b  " = "a b" ∧ Py.strip "   " = "".
Proof. split; reflexivity. Qed.

Example endswith_jpg :
  Py.endswith "a.jpg" ".jpg" = true ∧ Py.endswith "a.jpeg" ".jpg" = false
  ∧ Py.endswith ".jpg" ".jpg" = true ∧ Py.endswith "jpg" ".jpg" = false.
Proof. repeat split; reflexivity. Qed.

Example lower_check_in : session_key "Check-In" = "check-in_verification".
Proof. reflexivity. Qed.

Example join_store : posixpath.join DB_PATH "a.jpg" = "faces_db/a.jpg".
Proof. reflexivity. Qed.

Example join_absolute : posixpath.join DB_PATH "/tmp/a.jpg" = "/tmp/a.jpg".
Proof. reflexivity. Qed.

Example splitext_samples :
  posixpath.splitext "alice.jpg" = ("alice", ".jpg")
  ∧ posixpath.splitext "a.b.jpg" = ("a.b", ".jpg")
  ∧ posixpath.splitext ".jpg" = (".jpg", "")
  ∧ posixpath.splitext "..jpg" = ("..jpg", "")
  ∧ posixpath.splitext "dir.d/name" = ("dir.d/name", "").
Proof. repeat split; reflexivity. Qed.

Example resolve_samples :
  resolve "faces_db/a.jpg" = DbFile "a.jpg"
  ∧ resolve "faces_db/a/b.jpg" = NoEntry
  ∧ resolve "faces_db/../x.jpg" = CwdFile "x.jpg"
  ∧ resolve "/x.jpg" = Outside
  ∧ resolve "../x.jpg" = Outside.
Proof. repeat split; reflexivity. Qed.

Example frame_of_two_records :
  pd_DataFrame (JArr [JObj [("Name", JStr "Bob"); ("Type", JStr "Check-In")];
                      JObj [("Type", JStr "Check-Out"); ("Time", JStr "t")]])
  = Return {| columns := ["Name"; "Type"; "Time"];
              rows := [[Str "Bob"; Str "Check-In"; NaN];
                       [NaN; Str "Check-Out"; Str "t"]] |}.
Proof. reflexivity. Qed.

(** Appending to a ledger file that holds an empty array. *)
Example append_to_empty_ledger :
  ledger_file
    (log_check "Bob" "Check-In" "2024-01-01 09:00:00"
       (ledger_world (Some (JsonDoc (JArr []))) ∅)).2
  = Some (JsonDoc (JArr [JObj [("Name", JStr "Bob"); ("Type", JStr "Check-In");
                               ("Time", JStr "2024-01-01 09:00:00")]])).
Proof. reflexivity. Qed.

(** ** Paths *)

Lemma resolve_JSON_FILE : resolve JSON_FILE = CwdFile JSON_FILE.
Proof. reflexivity. Qed.

Lemma resolve_temp_img : resolve temp_img = CwdFile temp_img.
Proof. reflexivity. Qed.

Lemma resolve_DB_PATH : resolve DB_PATH = DbDir.
Proof. reflexivity. Qed.

(** ** Extensions *)

Lemma app_string_cons x a b : String x a +:+ b = String x (a +:+ b).
Proof. reflexivity. Qed.

Lemma app_string_nil b : "" +:+ b = b.
Proof. reflexivity. Qed.

Lemma app_string_assoc a b c : (a +:+ b) +:+ c = a +:+ b +:+ c.
Proof.
  induction a as [|x a IH]; [done|]. by rewrite !app_string_cons, IH.
Qed.

Lemma string_length_app a b :
  String.length (a +:+ b) = (String.length a + String.length b)%nat.
Proof. induction a as [|x a IH]; simpl; [done|]. by rewrite IH. Qed.

Lemma substring_prefix a b : String.substring 0 (String.length a) (a +:+ b) = a.
Proof.
  induction a as [|x a IH]; simpl.
  - by destruct b.
  - by rewrite IH.
Qed.

Lemma substring_skip a b m :
  String.substring (String.length a) m (a +:+ b) = String.substring 0 m b.
Proof. induction a as [|x a IH]; simpl; [done|]. exact IH. Qed.

Lemma rfind_from_absent c s i last :
  Py.contains s c = false → Py.rfind_from c s i last = last.
Proof.
  revert i last. induction s as [|a s IH]; intros i last H; simpl in *; [done|].
  apply orb_false_iff in H as [-> Hs]. by apply IH.
Qed.

Lemma rfind_from_app c s t i last :
  Py.rfind_from c (s +:+ t) i last =
    Py.rfind_from c t (i + Z.of_nat (String.length s)) (Py.rfind_from c s i last).
Proof.
  revert i last. induction s as [|a s IH]; intros i last; simpl.
  - by rewrite Z.add_0_r.
  - rewrite IH. f_equal. lia.
Qed.

Lemma contains_string_app s t c :
  Py.contains (s +:+ t) c = Py.contains s c || Py.contains t c.
Proof.
  induction s as [|a s IH]; simpl; [done|]. by rewrite IH, orb_assoc.
Qed.

(** The scan of [splitext] stops at the first character of the last
    component that is not a dot. *)
Lemma splitext_scan_finds pre s t fuel dot :
  Py.all_are "." s = false →
  (String.length s ≤ fuel)%nat →
  Z.of_nat (String.length pre + String.length s) <= dot →
  posixpath.splitext_scan fuel (pre +:+ s +:+ t) (Z.of_nat (String.length pre)) dot
  = (Py.slice_to (pre +:+ s +:+ t) dot, Py.slice_from (pre +:+ s +:+ t) dot).
Proof.
  revert pre fuel. induction s as [|a s IH]; intros pre fuel Hs Hfuel Hdot;
    simpl in *; [done|].
  destruct fuel as [|fuel]; [lia|]. simpl.
  assert ((Z.of_nat (String.length pre) <? dot) = true) as ->
    by (apply Z.ltb_lt; lia).
  unfold Py.char_at. rewrite Nat2Z.id, substring_skip. simpl.
  assert (String.substring 0 0 (s +:+ t) = "") as -> by (by destruct (s +:+ t)).
  unfold posixpath.extsep.
  destruct (Ascii.eqb_spec a ".") as [->|Ha].
  - rewrite String.eqb_refl. simpl in *.
    specialize (IH (pre +:+ ".") fuel Hs).
    rewrite !app_string_assoc in IH. simpl in IH.
    rewrite string_length_app in IH. simpl in IH.
    replace (Z.of_nat (String.length pre) + 1)
      with (Z.of_nat (String.length pre + 1)) by lia.
    apply IH; lia.
  - reflexivity.
Qed.

(** For a stem on its own (no separator) that is not made of dots alone,
    [splitext] takes ".jpg" off again. *)
Lemma splitext_jpg stem :
  Py.contains stem "/" = false → Py.all_are "." stem = false →
  posixpath.splitext (stem +:+ ".jpg") = (stem, ".jpg").
Proof.
  intros Hsep Hdots. unfold posixpath.splitext, Py.rfind.
  rewrite (rfind_from_absent posixpath.sep)
    by (unfold posixpath.sep; rewrite contains_string_app, Hsep; reflexivity).
  rewrite rfind_from_app. simpl. rewrite Z.add_0_l.
  assert ((-1 <? Z.of_nat (String.length stem)) = true) as ->
    by (apply Z.ltb_lt; lia).
  pose proof (splitext_scan_finds "" stem ".jpg"
                (String.length (stem +:+ ".jpg"))
                (Z.of_nat (String.length stem)) Hdots) as H.
  change (Z.of_nat (String.length "")) with (-1 + 1) in H.
  rewrite !app_string_nil in H.
  change (String.length "" + String.length stem)%nat with (String.length stem) in H.
  rewrite H; [|rewrite string_length_app; lia|lia].
  unfold Py.slice_to, Py.slice_from. rewrite Nat2Z.id.
  rewrite substring_prefix, substring_skip, string_length_app. simpl.
  by replace (String.length stem + 4 - String.length stem)%nat with 4%nat by lia.
Qed.

(** A stem made of dots alone keeps its ".jpg": [splitext] sees a name
    that starts with dots and has no extension. *)
Lemma splitext_scan_dots pre s t fuel :
  Py.all_are "." s = true →
  posixpath.splitext_scan fuel (pre +:+ s +:+ t) (Z.of_nat (String.length pre))
    (Z.of_nat (String.length pre + String.length s))
  = (pre +:+ s +:+ t, "").
Proof.
  revert pre s. induction fuel as [|fuel IH]; intros pre s Hs; simpl; [done|].
  destruct s as [|a s]; simpl in *.
  - rewrite Nat.add_0_r. by rewrite Z.ltb_irrefl.
  - apply andb_true_iff in Hs as [Ha Hs]. apply Ascii.eqb_eq in Ha. subst a.
    assert ((Z.of_nat (String.length pre)
             <? Z.of_nat (String.length pre + S (String.length s))) = true) as ->
      by (apply Z.ltb_lt; lia).
    unfold Py.char_at. rewrite Nat2Z.id, substring_skip. simpl.
    assert (String.substring 0 0 (s +:+ t) = "") as -> by (by destruct (s +:+ t)).
    simpl.
    specialize (IH (pre +:+ ".") s Hs).
    rewrite !app_string_assoc in IH. simpl in IH.
    rewrite string_length_app in IH. simpl in IH.
    replace (Z.of_nat (String.length pre) + 1)
      with (Z.of_nat (String.length pre + 1)) by lia.
    replace (String.length pre + S (String.length s))%nat
      with (String.length pre + 1 + String.length s)%nat by lia.
    exact IH.
Qed.

Lemma splitext_dots_jpg stem :
  Py.all_are "." stem = true →
  posixpath.splitext (stem +:+ ".jpg") = (stem +:+ ".jpg", "").
Proof.
  intros Hdots. unfold posixpath.splitext, Py.rfind.
  assert (Py.contains stem "/" = false) as Hsep.
  { induction stem as [|a stem IH]; simpl in *; [done|].
    apply andb_true_iff in Hdots as [Ha Hs]. apply Ascii.eqb_eq in Ha. subst a.
    simpl. by apply IH. }
  rewrite (rfind_from_absent posixpath.sep)
    by (unfold posixpath.sep; rewrite contains_string_app, Hsep; reflexivity).
  rewrite rfind_from_app. simpl. rewrite Z.add_0_l.
  assert ((-1 <? Z.of_nat (String.length stem)) = true) as ->
    by (apply Z.ltb_lt; lia).
  pose proof (splitext_scan_dots "" stem ".jpg"
                (String.length (stem +:+ ".jpg")) Hdots) as H.
  change (Z.of_nat (String.length "")) with (-1 + 1) in H.
  rewrite !app_string_nil in H. exact H.
Qed.

(** A name that ends in [suf] is a stem followed by [suf]. *)
Lemma endswith_cons a s suf :
  Py.endswith (String a s) suf =
    if String.eqb (String a s) suf then true else Py.endswith s suf.
Proof. reflexivity. Qed.

Lemma endswith_stem s suf :
  Py.endswith s suf = true ↔ ∃ stem, s = stem +:+ suf.
Proof.
  split.
  - induction s as [|a s IH].
    + destruct suf; [by exists ""|done].
    + rewrite endswith_cons.
      destruct (String.eqb_spec (String a s) suf) as [<-|_].
      * by exists "".
      * intros H. destruct (IH H) as [stem ->]. by exists (String a stem).
  - intros [stem ->]. induction stem as [|a stem IH].
    + rewrite app_string_nil. destruct suf; [done|].
      by rewrite endswith_cons, String.eqb_refl.
    + rewrite app_string_cons, endswith_cons, IH. by destruct (String.eqb _ suf).
Qed.

(** ** The ledger *)

(** What [load_attendance_data] does, by what is at JSON_FILE.  It never
    changes the world. *)
Lemma load_attendance_data_eq w :
  load_attendance_data w =
    (match ledger_file w with
     | None | Some (Garbage _) => Return (empty_frame ledger_columns)
     | Some (JsonDoc v) => pd_DataFrame v
     | Some (Jpeg _) => Raise UnicodeDecodeError
     end, w).
Proof.
  unfold load_attendance_data, try_except, ledger_file.
  unfold mbind, M_bind, os_path_exists, fs_exists, open_json_load, fs_read, lift.
  rewrite resolve_JSON_FILE.
  destruct (cwd (fs w) !! JSON_FILE) as [[raw|v|img]|] eqn:E; simpl;
    rewrite ?E; simpl; try reflexivity.
  destruct (pd_DataFrame v) as [df|e|] eqn:P; try reflexivity.
  destruct v as [|b|n| |s|l|kv]; simpl in P; try discriminate; try (by inversion P).
  - destruct (mapM dict_of_json l); discriminate.
  - destruct kv; [discriminate|].
    destruct (forallb is_scalar _); inversion P; reflexivity.
Qed.

(** ** Labels, rows and frames *)

Lemma mem_elem_of k l : mem k l = true ↔ k ∈ l.
Proof.
  unfold mem. rewrite existsb_exists. split.
  - intros (x & Hx & E). apply String.eqb_eq in E. subst. by apply list_elem_of_In.
  - intros H. exists k. split; [by apply list_elem_of_In | apply String.eqb_refl].
Qed.

Lemma extend_labels_known seen ks :
  (∀ k, k ∈ ks → k ∈ seen) → extend_labels seen ks = seen.
Proof.
  unfold extend_labels. induction ks as [|k ks IH]; intros H; simpl; [done|].
  unfold add_label at 2.
  assert (mem k seen = true) as -> by (apply mem_elem_of, H; left).
  apply IH. intros k' Hk'. apply H. by right.
Qed.

Lemma extend_labels_fresh seen ks :
  NoDup (seen ++ ks) → extend_labels seen ks = seen ++ ks.
Proof.
  unfold extend_labels. revert seen.
  induction ks as [|k ks IH]; intros seen H; simpl; [by rewrite app_nil_r|].
  unfold add_label at 2.
  destruct (mem k seen) eqn:E.
  - apply mem_elem_of in E. apply NoDup_app in H as (_ & H & _).
    exfalso. apply (H k E). left.
  - rewrite IH; [by rewrite <- app_assoc|]. by rewrite <- app_assoc.
Qed.

Lemma align_zip cols (row : list cell) :
  NoDup cols → length row = length cols → align cols (zip cols row) = row.
Proof.
  unfold align. revert row.
  induction cols as [|c cs IH]; intros [|x xs] ND L; simplify_eq/=; [done|].
  rewrite String.eqb_refl. simpl. f_equal.
  apply NoDup_cons in ND as [Hc ND].
  etransitivity; [|exact (IH xs ND L)].
  apply map_ext_in. intros c' Hc'.
  destruct (String.eqb c' c) eqn:E; [|done].
  apply String.eqb_eq in E. subst. exfalso. apply Hc. by apply list_elem_of_In.
Qed.

Lemma length_align cols d : length (align cols d) = length cols.
Proof. unfold align. by rewrite length_map. Qed.

Lemma fold_labels_known cols (ds : list pydict) :
  Forall (fun d => ∀ k, k ∈ d.*1 → k ∈ cols) ds →
  foldl (fun seen d => extend_labels seen (d.*1)) cols ds = cols.
Proof.
  induction 1 as [|d ds Hd _ IH]; simpl; [done|].
  by rewrite extend_labels_known.
Qed.

(** Reading back what [to_dict('records')] gave rebuilds the frame. *)
Lemma from_records_to_dict df :
  frame_ok df → rows df ≠ [] → from_records (to_dict_records df) = df.
Proof.
  destruct df as [cols rs]. intros [ND Hlen] Hne. simpl in *.
  unfold from_records, to_dict_records. simpl.
  assert (foldl (fun seen d => extend_labels seen (d.*1)) []
                (map (fun row => zip cols row) rs) = cols) as ->.
  { destruct rs as [|r rs]; [done|]. simpl.
    apply Forall_cons in Hlen as [Hr Hrs].
    rewrite fst_zip by lia.
    rewrite (extend_labels_fresh [] cols) by done. simpl.
    apply fold_labels_known. apply Forall_fmap.
    eapply Forall_impl; [exact Hrs|]. simpl. intros r' Hr' k Hk.
    by rewrite fst_zip in Hk by lia. }
  f_equal. rewrite map_map.
  etransitivity; [|apply map_id]. apply map_ext_in.
  intros r Hr. apply align_zip; [done|].
  rewrite Forall_forall in Hlen. apply Hlen. by apply list_elem_of_In.
Qed.

(** Appending a frame whose labels the first one already has. *)
Lemma pd_concat_known a b :
  frame_ok a → (∀ c, c ∈ columns b → c ∈ columns a) →
  pd_concat a b =
    {| columns := columns a;
       rows := rows a ++ map (align (columns a)) (to_dict_records b) |}.
Proof.
  intros [ND Hlen] Hb. unfold pd_concat.
  rewrite extend_labels_known by done. f_equal. f_equal.
  unfold to_dict_records. rewrite map_map.
  etransitivity; [|apply map_id]. apply map_ext_in.
  intros r Hr. apply align_zip; [done|].
  rewrite Forall_forall in Hlen. apply Hlen. by apply list_elem_of_In.
Qed.

(** ** Reading and writing the ledger file *)

Lemma cell_of_json_of_cell c : cell_of_json (json_of_cell c) = Some c.
Proof. by destruct c. Qed.

Lemma dict_of_json_of_dict d : dict_of_json (json_of_dict d) = Some d.
Proof.
  unfold dict_of_json, json_of_dict. apply mapM_Some.
  induction d as [|[k c] d IH]; simpl; constructor; [|done].
  simpl. by rewrite cell_of_json_of_cell.
Qed.

Lemma mapM_dict_of_json_of_dict ds :
  mapM dict_of_json (map json_of_dict ds) = Some ds.
Proof.
  apply mapM_Some. induction ds as [|d ds IH]; simpl; constructor; [|done].
  apply dict_of_json_of_dict.
Qed.

Lemma is_record_dict v :
  is_record v = true → ∃ d, dict_of_json v = Some d ∧ d.*1 ≡ₚ ledger_columns.
Proof.
  destruct v as [|b|n| |s|l|kv]; simpl; try discriminate.
  intros H. apply andb_true_iff in H as [HP HS].
  apply bool_decide_eq_true in HP.
  assert (∃ d, mapM (fun p => pair (fst p) <$> cell_of_json (snd p)) kv = Some d
               ∧ d.*1 = kv.*1) as (d & Hd & Hk).
  { clear HP. induction kv as [|[k x] kv IH]; simpl in *; [by exists []|].
    apply andb_true_iff in HS as [Hx HS].
    destruct (IH HS) as (d & Hd & Hk).
    destruct x; simpl in Hx; try discriminate.
    exists ((k, Str s) :: d). split; [|simpl; by f_equal].
    change (mapM ?f ((k, JStr s) :: kv)) with
      (x ← f (k, JStr s); k' ← mapM f kv; mret (x :: k')).
    by rewrite Hd. }
  exists d. split; [done|]. by rewrite Hk.
Qed.

Lemma well_formed_dicts l :
  forallb is_record l = true →
  ∃ ds, mapM dict_of_json l = Some ds
        ∧ Forall (fun d : pydict => d.*1 ≡ₚ ledger_columns) ds.
Proof.
  induction l as [|v l IH]; simpl; [by exists []|].
  intros H. apply andb_true_iff in H as [Hv Hl].
  destruct (IH Hl) as (ds & Hds & Hk).
  destruct (is_record_dict v Hv) as (d & Hd & Hdk).
  exists (d :: ds). split; [|by constructor].
  simpl. by rewrite Hd, Hds.
Qed.

Lemma NoDup_ledger_columns : NoDup ledger_columns.
Proof. by apply (bool_decide_unpack _). Qed.

(** The frame of a well-formed ledger: labelled by the keys of the first
    record, one row per record. *)
Lemma from_records_well_formed d ds :
  Forall (fun d : pydict => d.*1 ≡ₚ ledger_columns) (d :: ds) →
  from_records (d :: ds) =
    {| columns := d.*1; rows := map (align (d.*1)) (d :: ds) |}.
Proof.
  intros H. apply Forall_cons in H as [Hd Hds].
  assert (NoDup (d.*1)) as ND by (rewrite Hd; apply NoDup_ledger_columns).
  unfold from_records.
  assert (foldl (fun seen d => extend_labels seen (d.*1)) [] (d :: ds) = d.*1) as ->; [|done].
  simpl. rewrite (extend_labels_fresh [] (d.*1)) by done. simpl.
  apply fold_labels_known. eapply Forall_impl; [exact Hds|].
  simpl. intros d' Hd' k Hk. rewrite Hd. by rewrite Hd' in Hk.
Qed.

(** A row laid out along a reordering of its own keys keeps its items. *)
Lemma zip_align_Permutation cols (d : pydict) :
  NoDup (d.*1) → cols ≡ₚ d.*1 → zip cols (align cols d) ≡ₚ d.
Proof.
  intros ND HP.
  assert (∀ l, zip l (align l d) = map (fun c => (c, default NaN (dict_get c d))) l) as ->.
  { unfold align. induction l as [|c l IH]; simpl; [done|]. by rewrite IH. }
  rewrite HP. clear HP cols.
  induction d as [|[k x] d IH]; simpl; [done|].
  apply NoDup_cons in ND as [Hk ND].
  rewrite String.eqb_refl. simpl. constructor.
  rewrite (map_ext_in _ (fun c => (c, default NaN (dict_get c d)))); [exact (IH ND)|].
  intros c Hc.
  destruct (String.eqb c k) eqn:E; [|done].
  apply String.eqb_eq in E. subst. exfalso. apply Hk. by apply list_elem_of_In.
Qed.

Lemma save_attendance_data_ok {OS : Environment} df w :
  JSON_FILE ∉ read_only (fs w) →
  save_attendance_data df w =
    (Return true, write_ledger (JArr (map json_of_dict (to_dict_records df))) w).
Proof.
  intros H. unfold save_attendance_data, try_except, mbind, M_bind.
  unfold open_json_dump, fs_write. rewrite resolve_JSON_FILE.
  by rewrite bool_decide_eq_false_2.
Qed.

Lemma save_attendance_data_fails {OS : Environment} df w :
  JSON_FILE ∈ read_only (fs w) →
  save_attendance_data df w =
    (Return false, add_notice (error, Error_saving_JSON OSError) w).
Proof.
  intros H. unfold save_attendance_data, try_except, mbind, M_bind.
  unfold open_json_dump, fs_write. rewrite resolve_JSON_FILE.
  by rewrite bool_decide_eq_true_2.
Qed.

Lemma log_check_ok {OS : Environment} name check_type now df w :
  load_attendance_data w = (Return df, w) →
  JSON_FILE ∉ read_only (fs w) →
  log_check name check_type now w =
    (Return true,
     add_notice (success, Recorded check_type name now)
       (write_ledger
          (JArr (map json_of_dict
             (to_dict_records
                (pd_concat df (from_records [attendance_record name check_type now])))))
          w)).
Proof.
  intros Hload Hw. unfold log_check.
  unfold mbind at 1. unfold M_bind at 1. rewrite Hload.
  unfold mbind at 1. unfold M_bind at 1.
  rewrite save_attendance_data_ok by done. reflexivity.
Qed.

Lemma log_check_fails {OS : Environment} name check_type now df w :
  load_attendance_data w = (Return df, w) →
  JSON_FILE ∈ read_only (fs w) →
  log_check name check_type now w =
    (Return false,
     add_notice (error, Failed_to_record check_type name)
       (add_notice (error, Error_saving_JSON OSError) w)).
Proof.
  intros Hload Hw. unfold log_check.
  unfold mbind at 1. unfold M_bind at 1. rewrite Hload.
  unfold mbind at 1. unfold M_bind at 1.
  rewrite save_attendance_data_fails by done. reflexivity.
Qed.

Lemma ledger_file_written data n w :
  ledger_file (add_notice n (write_ledger data w)) = Some (JsonDoc data).
Proof. unfold ledger_file. simpl. apply lookup_insert_eq. Qed.

Lemma load_well_formed w c :
  ledger_file w = Some c → well_formed c = true →
  ∃ ds, load_attendance_data w = (Return (from_records ds), w)
        ∧ Forall (fun d : pydict => d.*1 ≡ₚ ledger_columns) ds.
Proof.
  intros Hc Hwf. destruct c as [raw|[|b|n| |s|l|kv]|img]; try discriminate.
  simpl in Hwf. destruct (well_formed_dicts l Hwf) as (ds & Hds & Hk).
  exists ds. split; [|done].
  rewrite load_attendance_data_eq, Hc. simpl. by rewrite Hds.
Qed.

(** C1. For a well-formed ledger file that can be written, [load], then
    the append [log_check] performs for a record, then [load] again gives
    the records of the first [load], unchanged and in their order, followed
    by the new record (its three items laid out along the columns of the
    frame). *)
Theorem load_append_load w c name check_type now :
  ledger_file w = Some c → well_formed c = true →
  JSON_FILE ∉ read_only (fs w) →
  ∃ df0 w1 df1 r,
    load_attendance_data w = (Return df0, w)
    ∧ log_check name check_type now w = (Return true, w1)
    ∧ load_attendance_data w1 = (Return df1, w1)
    ∧ to_dict_records df1 = to_dict_records df0 ++ [r]
    ∧ r ≡ₚ attendance_record name check_type now.
Proof.
  intros Hc Hwf Hrw.
  destruct (load_well_formed w c Hc Hwf) as (ds & Hload & Hk).
  set (rec := attendance_record name check_type now).
  assert (from_records [rec] = {| columns := ledger_columns;
            rows := [[Str name; Str check_type; Str now]] |}) as Hnew by reflexivity.
  pose proof (log_check_ok name check_type now _ w Hload Hrw) as Hlog.
  fold rec in Hlog. 
  set (df' := pd_concat (from_records ds) (from_records [rec])) in *.
  assert (frame_ok df' ∧ rows df' ≠ [] ∧
          ∃ r, to_dict_records df' = to_dict_records (from_records ds) ++ [r]
               ∧ r ≡ₚ rec) as (Hok & Hne & r & Hr & Hperm).
  { destruct ds as [|d ds].
    - split; [|split].
      + split; [apply NoDup_ledger_columns | by repeat constructor].
      + done.
      + exists rec. by split.
    - assert (d.*1 ≡ₚ ledger_columns) as Hd by (by apply Forall_cons in Hk as [? _]).
      assert (NoDup (d.*1)) as ND by (rewrite Hd; apply NoDup_ledger_columns).
      subst df'. rewrite (from_records_well_formed d ds Hk).
      rewrite pd_concat_known; simpl.
      + split; [|split].
        * split; [done|]. simpl. constructor; [apply length_align|].
          apply Forall_app. split.
          -- apply Forall_fmap, Forall_true. intros ?. apply length_align.
          -- constructor; [apply length_align | constructor].
        * by destruct ds.
        * exists (zip (d.*1) (align (d.*1) rec)). split.
          -- unfold to_dict_records. simpl. by rewrite map_app.
          -- apply zip_align_Permutation; [apply NoDup_ledger_columns | exact Hd].
      + split; [done|]. simpl. constructor; [apply length_align|].
        apply Forall_fmap, Forall_true. intros ?. apply length_align.
      + intros k Hk'. rewrite Hd. exact Hk'. }
  eexists _, _, df', r. split; [exact Hload|]. split; [exact Hlog|].
  split; [|by split].
  rewrite load_attendance_data_eq, ledger_file_written. simpl.
  rewrite mapM_dict_of_json_of_dict. by rewrite from_records_to_dict.
Qed.

Lemma load_append_load_witness :
  ∃ df0 w1 df1 r,
    load_attendance_data (ledger_world (Some bob_ledger) ∅)
      = (Return df0, ledger_world (Some bob_ledger) ∅)
    ∧ log_check "Ann" "Check-Out" "2024-01-01 17:00:00" (ledger_world (Some bob_ledger) ∅)
      = (Return true, w1)
    ∧ load_attendance_data w1 = (Return df1, w1)
    ∧ to_dict_records df1 = to_dict_records df0 ++ [r]
    ∧ r ≡ₚ attendance_record "Ann" "Check-Out" "2024-01-01 17:00:00".
Proof.
  apply (load_append_load _ bob_ledger); [reflexivity | reflexivity |].
  apply not_elem_of_empty.
Defined.

(** C2, as amended. When the ledger file is absent, or holds text that is
    not JSON, [load] returns the frame with the three ledger columns and no
    row, raises nothing and leaves the world as it is. *)
Theorem load_absent_or_not_json w :
  ledger_file w = None ∨ (∃ raw, ledger_file w = Some (Garbage raw)) →
  load_attendance_data w = (Return (empty_frame ledger_columns), w)
  ∧ to_dict_records (empty_frame ledger_columns) = [].
Proof.
  intros H. split; [|reflexivity].
  rewrite load_attendance_data_eq.
  by destruct H as [-> | [raw ->]].
Qed.

Lemma load_absent_or_not_json_witness :
  load_attendance_data (ledger_world (Some (Garbage "{oops")) ∅)
    = (Return (empty_frame ledger_columns), ledger_world (Some (Garbage "{oops")) ∅)
  ∧ to_dict_records (empty_frame ledger_columns) = [].
Proof.
  apply load_absent_or_not_json. right. exists "{oops". reflexivity.
Defined.

(** C2 as stated fails: a ledger file that holds valid JSON of the wrong
    shape (here one record outside any array) is malformed, and [load]
    raises the ValueError of the DataFrame constructor to its caller; so
    is a ledger file that holds no text at all (here an image), and [load]
    raises the UnicodeDecodeError of reading it.  The except clause names
    neither. *)
Lemma load_malformed_raises :
  ledger_file (ledger_world (Some bare_record) ∅) = Some bare_record
  ∧ well_formed bare_record = false
  ∧ load_attendance_data (ledger_world (Some bare_record) ∅)
    = (Raise (ValueError "If using all scalar values, you must pass an index"),
       ledger_world (Some bare_record) ∅)
  ∧ well_formed (Jpeg [1%N]) = false
  ∧ load_attendance_data (ledger_world (Some (Jpeg [1%N])) ∅)
    = (Raise UnicodeDecodeError, ledger_world (Some (Jpeg [1%N])) ∅).
Proof. repeat split. Qed.

(** ** The verifier *)

(** Distinct entries of DB_PATH give distinct paths. *)
Lemma join_DB_PATH_eq f :
  posixpath.join DB_PATH f =
    match f with
    | String "/" _ => f
    | _ => "faces_db/" +:+ f
    end.
Proof.
  unfold posixpath.join, Py.startswith, posixpath.sep. simpl.
  destruct f as [|a f]; [done|]. simpl.
  destruct (Ascii.eqb_spec "/"%char a) as [<-|Hne].
  - by destruct f.
  - destruct a as [[] [] [] [] [] [] [] []]; try done.
Qed.



Section VerifierProperties.

Variable DeepFace : FileSystem → string → string → verdict.

(** One turn of the loop. *)
Lemma scan_cons file files w :
  scan DeepFace (file :: files) w =
    match DeepFace (fs w) temp_img (posixpath.join DB_PATH file) with
    | Verified true =>
        (Return (Some (fst (posixpath.splitext file))),
         add_verify_call (call_for file) w)
    | Verified false => scan DeepFace files (add_verify_call (call_for file) w)
    | Failed msg =>
        scan DeepFace files
          (add_notice (warning, Recognition_error_with file (DeepFaceError msg))
             (add_verify_call (call_for file) w))
    end.
Proof.
  simpl. unfold mbind, M_bind, try_except, DeepFace_verify, call_for.
  destruct (DeepFace (fs w) temp_img (posixpath.join DB_PATH file)) as [[|]|msg];
    reflexivity.
Qed.



(** The loop always ends in a value; it touches nothing but the call log
    and the notices, and calls the oracle for a prefix of [files]. *)
Lemma scan_total files w :
  ∃ r w' k,
    scan DeepFace files w = (Return r, w')
    ∧ fs w' = fs w ∧ session_state w' = session_state w
    ∧ camera_opened w' = camera_opened w
    ∧ verify_calls w' = verify_calls w ++ map call_for (take k files)
    ∧ (∃ extra, notices w' = notices w ++ extra)
    ∧ (∀ name, r = Some name →
         ∃ file, file ∈ files
           ∧ DeepFace (fs w) temp_img (posixpath.join DB_PATH file) = Verified true
           ∧ name = fst (posixpath.splitext file)).
Proof.
  revert w. induction files as [|f files IH]; intros w.
  - exists None, w, 0%nat. simpl. rewrite app_nil_r.
    repeat split; try done. by exists []; rewrite app_nil_r.
  - rewrite scan_cons.
    destruct (DeepFace (fs w) temp_img (posixpath.join DB_PATH f)) as [[|]|msg] eqn:E.
    + exists (Some (fst (posixpath.splitext f))), (add_verify_call (call_for f) w), 1%nat.
      simpl. repeat split; try done.
      * by exists []; rewrite app_nil_r.
      * intros name [= <-]. exists f. split; [left|done].
    + destruct (IH (add_verify_call (call_for f) w))
        as (r & w' & k & -> & Hfs & Hss & Hcam & Hcalls & [extra Hn] & Hr).
      exists r, w', (S k). simpl in *. repeat split; try done.
      * by rewrite Hcalls, <- app_assoc.
      * by exists extra.
      * intros name Hname. destruct (Hr name Hname) as (file & ? & ? & ?).
        exists file. split; [by right|done].
    + destruct (IH (add_notice (warning, Recognition_error_with f (DeepFaceError msg))
                      (add_verify_call (call_for f) w)))
        as (r & w' & k & -> & Hfs & Hss & Hcam & Hcalls & [extra Hn] & Hr).
      exists r, w', (S k). simpl in *. repeat split; try done.
      * by rewrite Hcalls, <- app_assoc.
      * eexists. rewrite Hn, <- app_assoc. done.
      * intros name Hname. destruct (Hr name Hname) as (file & ? & ? & ?).
        exists file. split; [by right|done].
Qed.

Lemma bind_Return {A B} (m : M A) (f : A → M B) w a w' :
  m w = (Return a, w') → (m ≫= f) w = f a w'.
Proof. intros H. unfold mbind, M_bind. by rewrite H. Qed.

Lemma fs_listdir_DB fs es :
  faces_db fs = Some es → fs_listdir fs DB_PATH = Some (es.*1).
Proof. intros H. unfold fs_listdir. by rewrite resolve_DB_PATH, H. Qed.

Lemma os_path_exists_DB w es :
  faces_db (fs w) = Some es → os_path_exists DB_PATH w = (Return true, w).
Proof.
  intros H. unfold os_path_exists, fs_exists. rewrite resolve_DB_PATH, H.
  by rewrite bool_decide_eq_true_2 by eauto.
Qed.

Lemma os_listdir_DB w es :
  faces_db (fs w) = Some es → os_listdir DB_PATH w = (Return (es.*1), w).
Proof. intros H. unfold os_listdir. by rewrite (fs_listdir_DB _ es H). Qed.

Lemma faces_db_with_candidate {OS : Environment} frame fs :
  faces_db (with_candidate frame fs) = faces_db fs.
Proof.
  unfold with_candidate, fs_write. rewrite resolve_temp_img.
  by destruct (bool_decide _).
Qed.

Lemma cv2_imwrite_temp {OS : Environment} frame w :
  ∃ b, cv2_imwrite temp_img frame w
       = (Return b, set_fs (with_candidate frame (fs w)) w).
Proof.
  unfold cv2_imwrite, with_candidate.
  destruct (fs_write _ _ _); simpl; [by exists true|].
  exists false. by destruct w.
Qed.

(** Where temp_img can be removed, the [finally] clause leaves no
    temp_img, whether the candidate was written or not. *)
Lemma remove_candidate {OS : Environment} frame fs0 w :
  removable temp_img = true →
  fs w = fs (set_fs (with_candidate frame fs0) w) →
  (left_over ← os_path_exists temp_img;
   if (left_over : bool) then os_remove temp_img else mret tt) w
  = (Return tt, set_fs (without_candidate fs0) w).
Proof.
  simpl. intros Hrm Hfs.
  unfold mbind, M_bind, os_path_exists, os_remove, fs_exists, fs_remove.
  rewrite resolve_temp_img.
  destruct (cwd (fs w) !! temp_img) as [c|] eqn:Ht.
  - rewrite bool_decide_eq_true_2 by eauto. rewrite Ht, Hrm.
    f_equal. unfold set_fs, without_candidate. f_equal.
    rewrite Hfs. unfold with_candidate, fs_write. rewrite resolve_temp_img.
    destruct (bool_decide _); simpl; [done|]. by rewrite delete_insert_eq.
  - rewrite bool_decide_eq_false_2 by (by intros [? ?]).
    unfold mret, M_ret. f_equal.
    rewrite Hfs in Ht. revert Ht.
    unfold with_candidate, fs_write. rewrite resolve_temp_img.
    destruct (bool_decide _) eqn:Hro; simpl.
    + intros Ht. unfold without_candidate. rewrite delete_id by done.
      destruct w as [f ? ? ? ?]. unfold set_fs. simpl in *. subst f.
      unfold with_candidate, fs_write. rewrite resolve_temp_img, Hro. simpl.
      by destruct fs0.
    + by rewrite lookup_insert_eq.
Qed.

(** [recognize_face] on a store directory that has entries, where
    temp_img can be removed: write the candidate, run the loop over the
    .jpg entries, remove the candidate. *)
Lemma recognize_face_run {OS : Environment} frame w es :
  removable temp_img = true →
  faces_db (fs w) = Some es → es ≠ [] →
  recognize_face DeepFace frame w =
    let '(r, w') := scan DeepFace (jpg_files (fs w))
                      (set_fs (with_candidate frame (fs w)) w) in
    (r, set_fs (without_candidate (fs w)) w').
Proof.
  intros Hrm Hes Hne.
  destruct (scan_total (jpg_files (fs w))
              (set_fs (with_candidate frame (fs w)) w))
    as (r & w' & k & Hscan & Hfs & _).
  rewrite Hscan.
  assert (faces_db (with_candidate frame (fs w)) = Some es) as Hes'
    by (by rewrite faces_db_with_candidate).
  destruct (cv2_imwrite_temp frame w) as [b Hwr].
  unfold recognize_face.
  rewrite (bind_Return _ _ _ _ _ (os_path_exists_DB w es Hes)).
  cbv beta iota.
  rewrite (bind_Return _ _ _ _ _
             (bind_Return _ _ _ _ _ (os_listdir_DB w es Hes))).
  rewrite bool_decide_eq_false_2 by (by destruct es).
  rewrite (bind_Return _ _ _ _ _ Hwr).
  rewrite (bind_Return _ _ _ _ _
             (os_listdir_DB (set_fs (with_candidate frame (fs w)) w) es Hes')).
  cbv zeta. unfold try_finally, try_except.
  unfold jpg_files, store_entries in Hscan.
  rewrite (fs_listdir_DB _ es Hes) in Hscan.
  simpl default in Hscan. rewrite Hscan.
  by rewrite (remove_candidate frame (fs w) w' Hrm Hfs).
Qed.

(** The [finally] clause in any environment: a temp_img that is there and
    cannot be removed stays, and the exception of [os.remove] comes out. *)
Lemma finally_clause {OS : Environment} w :
  (left_over ← os_path_exists temp_img;
   if (left_over : bool) then os_remove temp_img else mret tt) w
  = match cwd (fs w) !! temp_img with
    | Some _ =>
        if removable temp_img
        then (Return tt, set_fs {| cwd := delete temp_img (cwd (fs w));
                                   faces_db := faces_db (fs w);
                                   read_only := read_only (fs w) |} w)
        else (Raise OSError, w)
    | None => (Return tt, w)
    end.
Proof.
  unfold mbind, M_bind, os_path_exists, os_remove, fs_exists, fs_remove.
  rewrite resolve_temp_img.
  destruct (cwd (fs w) !! temp_img) as [c|] eqn:Ht.
  - rewrite bool_decide_eq_true_2 by eauto. rewrite Ht.
    destruct (removable temp_img); [done|].
    by rewrite bool_decide_eq_true_2 by eauto.
  - by rewrite bool_decide_eq_false_2 by (by intros [? ?]).
Qed.

(** [recognize_face] on a store directory that has entries, in any
    environment: the loop ends in a value, and either that value is
    returned, or temp_img could not be removed and OSError is raised. *)
Lemma recognize_face_ends {OS : Environment} frame w es :
  faces_db (fs w) = Some es → es ≠ [] →
  ∃ r w1 w',
    scan DeepFace (jpg_files (fs w)) (set_fs (with_candidate frame (fs w)) w)
      = (Return r, w1)
    ∧ (recognize_face DeepFace frame w = (Return r, w')
       ∨ recognize_face DeepFace frame w = (Raise OSError, w')
         ∧ removable temp_img = false)
    ∧ session_state w' = session_state w
    ∧ camera_opened w' = camera_opened w
    ∧ faces_db (fs w') = faces_db (fs w)
    ∧ read_only (fs w') = read_only (fs w)
    ∧ ∀ n, n ≠ temp_img → cwd (fs w') !! n = cwd (fs w) !! n.
Proof.
  intros Hes Hne.
  destruct (scan_total (jpg_files (fs w))
              (set_fs (with_candidate frame (fs w)) w))
    as (r & w1 & k & Hscan & Hfs & Hss & Hcam & _).
  assert (faces_db (with_candidate frame (fs w)) = Some es) as Hes'
    by (by rewrite faces_db_with_candidate).
  destruct (cv2_imwrite_temp frame w) as [b Hwr].
  assert (∀ n, n ≠ temp_img →
            cwd (with_candidate frame (fs w)) !! n = cwd (fs w) !! n) as Hcwd.
  { intros n Hn. unfold with_candidate, fs_write. rewrite resolve_temp_img.
    destruct (bool_decide _); simpl; [done|]. by rewrite lookup_insert_ne. }
  assert (read_only (with_candidate frame (fs w)) = read_only (fs w)) as Hro.
  { unfold with_candidate, fs_write. rewrite resolve_temp_img.
    by destruct (bool_decide _). }
  unfold recognize_face.
  rewrite (bind_Return _ _ _ _ _ (os_path_exists_DB w es Hes)).
  cbv beta iota.
  rewrite (bind_Return _ _ _ _ _
             (bind_Return _ _ _ _ _ (os_listdir_DB w es Hes))).
  rewrite bool_decide_eq_false_2 by (by destruct es).
  rewrite (bind_Return _ _ _ _ _ Hwr).
  rewrite (bind_Return _ _ _ _ _
             (os_listdir_DB (set_fs (with_candidate frame (fs w)) w) es Hes')).
  cbv zeta. unfold try_finally, try_except.
  pose proof Hscan as Hscan'.
  unfold jpg_files, store_entries in Hscan'.
  rewrite (fs_listdir_DB _ es Hes) in Hscan'.
  simpl default in Hscan'. rewrite Hscan'.
  rewrite finally_clause. simpl in Hfs, Hss, Hcam.
  exists r, w1.
  destruct (cwd (fs w1) !! temp_img) as [c|] eqn:Ht;
    [destruct (removable temp_img) eqn:Hrm|].
  - eexists. split; [done|]. split; [by left|]. simpl. rewrite Hfs.
    split; [done|]. split; [done|]. split; [by rewrite Hes', Hes|].
    split; [done|]. intros n Hn. rewrite lookup_delete_ne by done. by apply Hcwd.
  - exists w1. split; [done|]. split; [by right|]. rewrite Hfs.
    split; [done|]. split; [done|]. split; [by rewrite Hes', Hes|]. by split.
  - exists w1. split; [done|]. split; [by left|]. rewrite Hfs.
    split; [done|]. split; [done|]. split; [by rewrite Hes', Hes|]. by split.
Qed.

Lemma recognize_face_eq frame w es :
  faces_db (fs w) = Some es → es ≠ [] →
  recognize_face DeepFace frame w =
    let '(r, w') := scan DeepFace (jpg_files (fs w))
                      (set_fs (with_candidate frame (fs w)) w) in
    (r, set_fs (without_candidate (fs w)) w').
Proof. by apply recognize_face_run. Qed.

Lemma store_entries_nonempty fs :
  store_entries fs ≠ [] → ∃ es, faces_db fs = Some es ∧ es ≠ [] ∧ store_entries fs = es.*1.
Proof.
  unfold store_entries, fs_listdir. rewrite resolve_DB_PATH.
  destruct (faces_db fs) as [es|]; simpl; [|done].
  intros H. exists es. split; [done|]. split; [|done]. by intros ->.
Qed.

Lemma recognize_face_nothing {OS : Environment} frame w :
  store_entries (fs w) = [] → recognize_face DeepFace frame w = (Return None, w).
Proof.
  unfold store_entries, fs_listdir. rewrite resolve_DB_PATH. intros H.
  unfold recognize_face.
  destruct (faces_db (fs w)) as [es|] eqn:Hes; simpl in H.
  - rewrite (bind_Return _ _ _ _ _ (os_path_exists_DB w es Hes)).
    cbv beta iota.
    rewrite (bind_Return _ _ _ _ _
               (bind_Return _ _ _ _ _ (os_listdir_DB w es Hes))).
    rewrite H. reflexivity.
  - unfold mbind, M_bind, os_path_exists, fs_exists.
    rewrite resolve_DB_PATH, Hes. reflexivity.
Qed.

(** C3. With an empty Reference Store (no directory DB_PATH, or no entry
    in it) [recognize_face] returns None for every candidate and leaves
    the world as it is: the log of oracle calls gains nothing. *)
Theorem recognize_face_empty_store frame w :
  store_entries (fs w) = [] →
  recognize_face DeepFace frame w = (Return None, w)
  ∧ verify_calls (recognize_face DeepFace frame w).2 = verify_calls w.
Proof.
  intros H. rewrite (recognize_face_nothing frame w H). by split.
Qed.

Lemma jpg_files_store fs : jpg_files fs ≠ [] → store_entries fs ≠ [].
Proof. unfold jpg_files. intros H E. apply H. by rewrite E. Qed.




(** C6, as amended. Over a store directory that has entries, where
    temp_img can be removed, [recognize_face] always returns (with a match,
    with none, with oracle failures on the way), and when it has returned
    there is no file temp_img. *)
Theorem recognize_face_removes_candidate {OS : Environment} frame w :
  removable temp_img = true →
  store_entries (fs w) ≠ [] →
  ∃ r w',
    recognize_face DeepFace frame w = (Return r, w')
    ∧ fs_exists (fs w') temp_img = false.
Proof.
  intros Hrm H. destruct (store_entries_nonempty _ H) as (es & Hes & Hne & _).
  rewrite (recognize_face_run frame w es Hrm Hes Hne).
  destruct (scan_total (jpg_files (fs w)) (set_fs (with_candidate frame (fs w)) w))
    as (r & w' & k & -> & _).
  exists r, (set_fs (without_candidate (fs w)) w'). split; [done|].
  unfold fs_exists. rewrite resolve_temp_img. simpl.
  rewrite lookup_delete_eq. apply bool_decide_eq_false_2. by intros [? ?].
Qed.

Lemma elem_of_jpg_files f fs :
  f ∈ jpg_files fs ↔ f ∈ store_entries fs ∧ Py.endswith f ".jpg" = true.
Proof.
  unfold jpg_files. rewrite !list_elem_of_In.
  apply (filter_In (fun g => Py.endswith g ".jpg")).
Qed.

(** The loop returns the identity of the first file the oracle verifies,
    having called the oracle for the files up to that one and no other. *)
Lemma scan_find files w :
  ∃ w',
    scan DeepFace files w
      = (Return (identity_of
                   <$> List.find (fun f => is_verified
                          (DeepFace (fs w) temp_img (posixpath.join DB_PATH f))) files),
         w')
    ∧ fs w' = fs w
    ∧ verify_calls w'
      = verify_calls w
        ++ map call_for
             (up_to_first (fun f => is_verified
                (DeepFace (fs w) temp_img (posixpath.join DB_PATH f))) files).
Proof.
  revert w. induction files as [|f files IH]; intros w.
  - exists w. simpl. by rewrite app_nil_r.
  - rewrite scan_cons. simpl List.find. simpl up_to_first.
    destruct (DeepFace (fs w) temp_img (posixpath.join DB_PATH f)) as [[|]|msg] eqn:E;
      simpl.
    + eexists. split; [reflexivity|]. by split.
    + destruct (IH (add_verify_call (call_for f) w)) as (w' & -> & Hfs & Hcalls).
      exists w'. split; [done|]. split; [done|].
      rewrite Hcalls. simpl. by rewrite <- app_assoc.
    + destruct (IH (add_notice (warning, Recognition_error_with f (DeepFaceError msg))
                      (add_verify_call (call_for f) w)))
        as (w' & -> & Hfs & Hcalls).
      exists w'. split; [done|]. split; [done|].
      rewrite Hcalls. simpl. by rewrite <- app_assoc.
Qed.

Lemma up_to_first_subseteq P files f : f ∈ up_to_first P files → f ∈ files.
Proof.
  induction files as [|g files IH]; simpl; [done|].
  intros H. apply elem_of_cons in H as [->|H]; [left|].
  right. destruct (P g); [by apply elem_of_nil in H | by apply IH].
Qed.

Lemma find_up_to_first P files f :
  List.find P files = Some f → f ∈ up_to_first P files ∧ P f = true.
Proof.
  induction files as [|g files IH]; simpl; [done|].
  destruct (P g) eqn:E.
  - intros [= <-]. split; [left|done].
  - intros H. destruct (IH H). split; [by right|done].
Qed.

(** C10, as amended. Where temp_img can be removed, [recognize_face]
    returns the identity of the first entry of DB_PATH ending in .jpg that
    the oracle verifies, None if there is none, and has called the oracle
    for the .jpg entries up to that one, in the order of the listing, and
    for nothing else.  The identity of a file is [os.path.splitext(file)[0]]:
    the name without its ".jpg" when what is left is not made of dots
    alone, the whole name otherwise.  When no entry ends in .jpg, be the
    directory empty or not, the answer is None and the oracle is not
    called. *)
Theorem recognize_face_jpg_only {OS : Environment} frame w :
  removable temp_img = true →
  ∃ w',
    recognize_face DeepFace frame w
      = (Return (identity_of <$> first_verified DeepFace frame (fs w)), w')
    ∧ verify_calls w'
      = verify_calls w ++ map call_for (consulted DeepFace frame (fs w))
    ∧ (∀ f, f ∈ consulted DeepFace frame (fs w) →
         f ∈ store_entries (fs w) ∧ Py.endswith f ".jpg" = true)
    ∧ (∀ f, first_verified DeepFace frame (fs w) = Some f →
         f ∈ consulted DeepFace frame (fs w)
         ∧ verdict_on DeepFace frame (fs w) f = Verified true
         ∧ ∀ stem, f = stem +:+ ".jpg" → Py.contains stem "/" = false →
             (Py.all_are "." stem = false → identity_of f = stem)
             ∧ (Py.all_are "." stem = true → identity_of f = f))
    ∧ (Forall (fun f => Py.endswith f ".jpg" = false) (store_entries (fs w)) →
       first_verified DeepFace frame (fs w) = None
       ∧ consulted DeepFace frame (fs w) = []).
Proof.
  intros Hrm.
  assert (∃ w', recognize_face DeepFace frame w
                = (Return (identity_of <$> first_verified DeepFace frame (fs w)), w')
              ∧ verify_calls w'
                = verify_calls w ++ map call_for (consulted DeepFace frame (fs w)))
    as (w' & Hrun & Hcalls).
  { destruct (decide (store_entries (fs w) = [])) as [Hnil|Hne].
    - exists w. rewrite (recognize_face_nothing frame w Hnil).
      unfold first_verified, consulted, jpg_files. rewrite Hnil. simpl.
      by rewrite app_nil_r.
    - destruct (store_entries_nonempty _ Hne) as (es & Hes & Hne' & _).
      rewrite (recognize_face_run frame w es Hrm Hes Hne').
      destruct (scan_find (jpg_files (fs w)) (set_fs (with_candidate frame (fs w)) w))
        as (w1 & -> & _ & Hcalls).
      eexists. split; [reflexivity|]. exact Hcalls. }
  exists w'. split; [exact Hrun|]. split; [exact Hcalls|]. split; [|split].
  - intros f Hf. apply elem_of_jpg_files. by apply up_to_first_subseteq in Hf.
  - intros f Hf. apply find_up_to_first in Hf as [Hin Hv].
    split; [exact Hin|]. split.
    { unfold is_verified in Hv.
      by destruct (verdict_on DeepFace frame (fs w) f) as [[|]|]. }
    intros stem -> Hsep. unfold identity_of. split; intros Hdots.
    + by rewrite splitext_jpg.
    + by rewrite splitext_dots_jpg.
  - intros Hnone.
    assert (jpg_files (fs w) = []) as Hfiles.
    { unfold jpg_files. revert Hnone. generalize (store_entries (fs w)).
      induction 1 as [|f l Hf _ IH]; [done|]. simpl. by rewrite Hf. }
    unfold first_verified, consulted. by rewrite Hfiles.
Qed.

End VerifierProperties.

Lemma recognize_face_empty_store_witness :
  recognize_face alice_or_bob [7%N] (store_world [] ∅)
    = (Return None, store_world [] ∅)
  ∧ verify_calls (recognize_face alice_or_bob [7%N] (store_world [] ∅)).2
    = verify_calls (store_world [] ∅).
Proof. apply recognize_face_empty_store. reflexivity. Defined.



Lemma recognize_face_removes_candidate_witness :
  ∃ r w',
    recognize_face only_bob [7%N] (store_world three_faces {[temp_img := Garbage "old"]})
      = (Return r, w')
    ∧ fs_exists (fs w') temp_img = false.
Proof.
  apply recognize_face_removes_candidate; [reflexivity|]. vm_compute. discriminate.
Defined.

(** C6 as stated fails where temp_img cannot be removed: in a working
    directory that holds a temp_img and does not let it go, the candidate
    is written over it, the oracle verifies bob.jpg, and then [os.remove]
    raises in the [finally] clause: [recognize_face] is left through that
    exception and temp_img is still there. *)
Lemma recognize_face_candidate_stays :
  store_entries (fs (store_world three_faces {[temp_img := Garbage "old"]})) ≠ []
  ∧ ∃ w',
      recognize_face (OS := kept_candidate) only_bob [7%N]
        (store_world three_faces {[temp_img := Garbage "old"]})
      = (Raise OSError, w')
      ∧ fs_exists (fs w') temp_img = true
      ∧ fs_read (fs w') temp_img = Some (Jpeg [7%N]).
Proof.
  split; [vm_compute; discriminate|].
  eexists. split; [vm_compute; reflexivity|]. split; reflexivity.
Qed.

(** A match under C10: carol.jpg is passed over, alice.jpg is the first
    file verified and gives the identity alice, bob.jpg is not looked
    at. *)
Lemma recognize_face_jpg_only_witness :
  ∃ w',
    recognize_face alice_or_bob [7%N] (store_world three_faces ∅)
      = (Return (Some "alice"), w')
    ∧ verify_calls w'
      = verify_calls (store_world three_faces ∅)
        ++ map call_for ["carol.jpg"; "alice.jpg"]
    ∧ (∀ f, f ∈ ["carol.jpg"; "alice.jpg"] →
         f ∈ store_entries (fs (store_world three_faces ∅))
         ∧ Py.endswith f ".jpg" = true)
    ∧ (∀ f, Some "alice.jpg" = Some f →
         f ∈ ["carol.jpg"; "alice.jpg"]
         ∧ verdict_on alice_or_bob [7%N] (fs (store_world three_faces ∅)) f
           = Verified true
         ∧ ∀ stem, f = stem +:+ ".jpg" → Py.contains stem "/" = false →
             (Py.all_are "." stem = false → identity_of f = stem)
             ∧ (Py.all_are "." stem = true → identity_of f = f))
    ∧ (Forall (fun f => Py.endswith f ".jpg" = false)
         (store_entries (fs (store_world three_faces ∅))) →
       Some "alice.jpg" = None ∧ ["carol.jpg"; "alice.jpg"] = []).
Proof.
  exact (recognize_face_jpg_only alice_or_bob [7%N] (store_world three_faces ∅)
           eq_refl).
Defined.

(** C10 as stated fails for a file whose name is dots before ".jpg": the
    file "..jpg" ends in .jpg and is enumerated; when the oracle verifies
    it, the identity returned is "..jpg", not "." as the name without its
    extension would be. *)
Lemma recognize_face_dots_keep_jpg :
  jpg_files (fs (store_world [("..jpg", Jpeg [1%N])] ∅)) = ["..jpg"]
  ∧ "..jpg" = "." +:+ ".jpg"
  ∧ (recognize_face (fun _ _ _ => Verified true) [7%N]
       (store_world [("..jpg", Jpeg [1%N])] ∅)).1
    = Return (Some "..jpg")
  ∧ "..jpg" ≠ ".".
Proof. split; [|split; [|split]]; [reflexivity..|discriminate]. Qed.

(** ** Registration *)

Lemma split_no_sep c s : Py.contains s c = false → Py.split c s = [s].
Proof.
  induction s as [|a s IH]; simpl; [done|].
  intros H. apply orb_false_iff in H as [Ha Hs].
  rewrite Ha, (IH Hs). done.
Qed.

(** A name without separator, with ".jpg" put after it and joined to
    DB_PATH, is the path of an entry of DB_PATH. *)
Lemma resolve_store_entry name :
  Py.contains name "/" = false →
  resolve (posixpath.join DB_PATH (name +:+ ".jpg")) = DbFile (name +:+ ".jpg").
Proof.
  intros Hname.
  assert (Py.contains (name +:+ ".jpg") "/" = false) as Hn
    by (rewrite contains_string_app, Hname; reflexivity).
  assert (2 < String.length (name +:+ ".jpg"))%nat as Hlen
    by (rewrite string_length_app; simpl; lia).
  revert Hn Hlen. generalize (name +:+ ".jpg"). clear. intros n Hn Hlen.
  rewrite join_DB_PATH_eq.
  assert (match n with
          | String "/" _ => n
          | _ => "faces_db/" +:+ n
          end = "faces_db/" +:+ n) as ->.
  { destruct n as [|a n]; [done|]. simpl in Hn.
    apply orb_false_iff in Hn as [Ha _].
    destruct a as [[] [] [] [] [] [] [] []]; done. }
  unfold resolve. simpl. change ("" +:+ n) with n.
  unfold posixpath.sep. rewrite (split_no_sep _ _ Hn). simpl.
  destruct n as [|a [|b [|c n]]]; simpl in Hlen; try lia.
  unfold walk. simpl.
  destruct (Ascii.eqb a "."), (Ascii.eqb b "."); simpl; reflexivity.
Qed.

Lemma add_face_rejected {OS : Environment} entered cam w :
  Py.strip entered = "" →
  add_face entered true cam w =
    (Return tt,
     add_notice (error, Please_enter_a_valid_name)
       (set_session_state (entered_state entered (session_state w)) w)).
Proof.
  intros H. unfold add_face, mbind, M_bind, modify, set_face_name, st. simpl.
  rewrite H. simpl. unfold mret, M_ret. f_equal.
  unfold add_notice, set_session_state, entered_state. simpl.
  destruct (capture_face (session_state w)) eqn:E1,
    (face_name (session_state w)) eqn:E2; simpl; rewrite ?E1, ?E2; reflexivity.
Qed.

(** With a name that is not empty after trimming and a frame from the
    camera, [add_face] goes the same way whether [cv2.imwrite] wrote the
    image or not: what [cv2.imwrite] returns is not looked at. *)
Lemma add_face_captured {OS : Environment} entered img w :
  Py.strip entered ≠ "" →
  add_face entered true (Frame img) w =
    (Return tt,
     {| fs := default (fs w)
                (fs_write (fs w)
                   (posixpath.join DB_PATH (Py.strip entered +:+ ".jpg")) (Jpeg img));
        session_state := {| capture_face := Some false; face_name := Some "";
                            verification := verification (session_state w) |};
        notices := notices w ++
          [(success, Face_registered_for (Py.strip entered));
           (info, Image_saved_as
                    (posixpath.join DB_PATH (Py.strip entered +:+ ".jpg")))];
        verify_calls := verify_calls w;
        camera_opened := S (camera_opened w) |}).
Proof.
  intros Hne.
  unfold add_face, mbind, M_bind, modify, set_face_name, set_capture_face, st,
    get_capture_face, cv2_VideoCapture, cv2_imwrite, modify.
  simpl. unfold Py.truthy. apply String.eqb_neq in Hne. rewrite Hne. simpl.
  destruct (capture_face (session_state w)) eqn:E1,
    (face_name (session_state w)) eqn:E2; simpl;
    destruct (fs_write (fs w) _ _); simpl;
    unfold mret, M_ret, add_notice; simpl; rewrite <- app_assoc; reflexivity.
Qed.

(** The write of [add_face] where the entry can be written. *)
Lemma fs_write_store {OS : Environment} fs name c es :
  Py.contains name "/" = false →
  faces_db fs = Some es →
  fs_write fs (posixpath.join DB_PATH (name +:+ ".jpg")) c
  = if store_writable (name +:+ ".jpg")
    then Some {| cwd := cwd fs;
                 faces_db := Some (dir_put (name +:+ ".jpg") c es);
                 read_only := read_only fs |}
    else None.
Proof.
  intros Hsep Hes. unfold fs_write. by rewrite (resolve_store_entry _ Hsep), Hes.
Qed.

Lemma add_face_stores {OS : Environment} entered img w es :
  Py.strip entered ≠ "" →
  Py.contains (Py.strip entered) "/" = false →
  faces_db (fs w) = Some es →
  store_writable (Py.strip entered +:+ ".jpg") = true →
  add_face entered true (Frame img) w =
    (Return tt,
     {| fs := {| cwd := cwd (fs w);
                 faces_db := Some (dir_put (Py.strip entered +:+ ".jpg") (Jpeg img) es);
                 read_only := read_only (fs w) |};
        session_state := {| capture_face := Some false; face_name := Some "";
                            verification := verification (session_state w) |};
        notices := notices w ++
          [(success, Face_registered_for (Py.strip entered));
           (info, Image_saved_as
                    (posixpath.join DB_PATH (Py.strip entered +:+ ".jpg")))];
        verify_calls := verify_calls w;
        camera_opened := S (camera_opened w) |}).
Proof.
  intros Hne Hsep Hes Hw.
  rewrite (add_face_captured entered img w Hne).
  by rewrite (fs_write_store (fs w) _ (Jpeg img) es Hsep Hes), Hw.
Qed.


(** The entries of a directory after a write: the entry written is
    there, and the other names hold what they held. *)
Lemma dir_replace_names name c es : (dir_replace name c es).*1 = es.*1.
Proof.
  induction es as [|[n c'] es IH]; simpl; [done|].
  destruct (String.eqb n name); simpl; [done | f_equal; exact IH].
Qed.

Lemma dir_replace_elem name c es :
  name ∈ es.*1 → (name, c) ∈ dir_replace name c es.
Proof.
  induction es as [|[n c'] es IH]; simpl; [by intros ?%elem_of_nil|].
  intros H. destruct (String.eqb_spec n name) as [->|Hne]; [left|].
  right. apply IH. apply elem_of_cons in H as [H|H]; [by subst|done].
Qed.

Lemma dir_replace_other name c es other c' :
  other ≠ name → (other, c') ∈ dir_replace name c es ↔ (other, c') ∈ es.
Proof.
  intros Hne. induction es as [|[n c0] es IH]; simpl; [done|].
  destruct (String.eqb_spec n name) as [->|Hn].
  - rewrite !elem_of_cons. split; (intros [[= ? ?]|?]; [congruence | by right]).
  - rewrite !elem_of_cons, IH. done.
Qed.

Lemma dir_put_old {OS : Environment} name c es :
  name ∈ es.*1 → dir_put name c es = dir_replace name c es.
Proof.
  intros H. unfold dir_put. by apply mem_elem_of in H as ->.
Qed.

Lemma dir_put_new {OS : Environment} name c es :
  name ∉ es.*1 → dir_put name c es ≡ₚ es ++ [(name, c)].
Proof.
  intros H. unfold dir_put.
  destruct (mem name es.*1) eqn:E; [by apply mem_elem_of in E|].
  apply relist_Permutation.
Qed.

Lemma dir_put_elem {OS : Environment} name c es : (name, c) ∈ dir_put name c es.
Proof.
  destruct (decide (name ∈ es.*1)) as [Hin|Hout].
  - rewrite dir_put_old by done. by apply dir_replace_elem.
  - rewrite (dir_put_new name c es Hout). apply elem_of_app. right. left.
Qed.

Lemma dir_put_other {OS : Environment} name c es other c' :
  other ≠ name → (other, c') ∈ dir_put name c es ↔ (other, c') ∈ es.
Proof.
  intros Hne. destruct (decide (name ∈ es.*1)) as [Hin|Hout].
  - rewrite dir_put_old by done. by apply dir_replace_other.
  - rewrite (dir_put_new name c es Hout), elem_of_app, list_elem_of_singleton.
    split; [intros [?|[= ? ?]]; [done|congruence] | by left].
Qed.

(** What [add_face] does as the claim C7 has it.  A registration attempt
    whose entered name is empty or all whitespace is rejected with an
    error: the camera is not touched and the file system stays as it is.
    For a name that is not empty after trimming and has no path separator
    in it, a camera that gives a frame, and an entry that can be written,
    the frame is stored in the store directory under the trimmed name
    followed by ".jpg", whatever was stored under that name before; the
    other entries stay. *)
Lemma add_face_registration {OS : Environment} entered cam w :
  (Py.strip entered = "" →
     ∃ w', add_face entered true cam w = (Return tt, w')
       ∧ camera_opened w' = camera_opened w
       ∧ fs w' = fs w
       ∧ (error, Please_enter_a_valid_name) ∈ notices w')
  ∧ (∀ img es,
       Py.strip entered ≠ "" → Py.contains (Py.strip entered) "/" = false →
       cam = Frame img → faces_db (fs w) = Some es →
       store_writable (Py.strip entered +:+ ".jpg") = true →
       ∃ w' es', add_face entered true cam w = (Return tt, w')
         ∧ faces_db (fs w') = Some es'
         ∧ (Py.strip entered +:+ ".jpg", Jpeg img) ∈ es'
         ∧ (∀ other c, other ≠ Py.strip entered +:+ ".jpg" →
              (other, c) ∈ es' ↔ (other, c) ∈ es)).
Proof.
  split.
  - intros H. eexists. split; [by apply add_face_rejected|]. simpl.
    split; [done|]. split; [done|]. apply elem_of_app. right. left.
  - intros img es Hne Hsep -> Hes Hw.
    eexists _, _. split; [by apply (add_face_stores entered img w es)|]. simpl.
    split; [done|]. split; [apply dir_put_elem|].
    intros other c Hother. by apply dir_put_other.
Qed.

(** C7: the defect. [add_face] does not look at what [cv2.imwrite]
    returns.  When the image cannot be written (the name has a path
    separator in it and leads through something that is no directory, the
    name is too long for the file system, a file of that name is
    write-protected), nothing is stored, and all the same the success
    "Face successfully registered" and the info "Image saved as" are shown,
    and no error: the attempt ends like one that stored the image. *)
Theorem add_face_success_unwritten {OS : Environment} entered img w :
  Py.strip entered ≠ "" →
  fs_write (fs w) (posixpath.join DB_PATH (Py.strip entered +:+ ".jpg")) (Jpeg img)
    = None →
  ∃ w',
    add_face entered true (Frame img) w = (Return tt, w')
    ∧ fs w' = fs w
    ∧ notices w' = notices w ++
        [(success, Face_registered_for (Py.strip entered));
         (info, Image_saved_as
                  (posixpath.join DB_PATH (Py.strip entered +:+ ".jpg")))]
    ∧ capture_face (session_state w') = Some false
    ∧ face_name (session_state w') = Some "".
Proof.
  intros Hne Hw. eexists. split; [by apply add_face_captured|].
  simpl. by rewrite Hw.
Qed.

(** The defect at the name "a/b": "faces_db/a/b.jpg" steps through
    "faces_db/a", which is no directory. *)
Lemma add_face_success_unwritten_witness :
  ∃ w',
    add_face "a/b" true (Frame [5%N]) (store_world three_faces ∅) = (Return tt, w')
    ∧ fs w' = fs (store_world three_faces ∅)
    ∧ notices w' = notices (store_world three_faces ∅) ++
        [(success, Face_registered_for (Py.strip "a/b"));
         (info, Image_saved_as
                  (posixpath.join DB_PATH (Py.strip "a/b" +:+ ".jpg")))]
    ∧ capture_face (session_state w') = Some false
    ∧ face_name (session_state w') = Some "".
Proof.
  apply add_face_success_unwritten; [vm_compute; discriminate | reflexivity].
Defined.

(** The defect at a name of 252 letters on a file system that takes no
    name of more than 255 bytes, and what the sibling path does when the
    camera gives no frame: an error, and no success. *)
Example add_face_long_name :
  let name := string_of_list_ascii (replicate 252 "a"%char) in
  let w := store_world three_faces ∅ in
  fs (add_face (OS := short_names) name true (Frame [5%N]) w).2 = fs w
  ∧ notices (add_face (OS := short_names) name true (Frame [5%N]) w).2
    = [(success, Face_registered_for name);
       (info, Image_saved_as (posixpath.join DB_PATH (name +:+ ".jpg")))]
  ∧ notices (add_face (OS := short_names) name true NoFrame w).2
    = [(error, Failed_to_capture_image)].
Proof. vm_compute. split; [|split]; reflexivity. Qed.

(** ** What a call depends on *)

(** The loop looks at nothing but the file system. *)
Lemma scan_local DeepFace files w1 w2 :
  fs w1 = fs w2 →
  (scan DeepFace files w1).1 = (scan DeepFace files w2).1.
Proof.
  revert w1 w2. induction files as [|f files IH]; intros w1 w2 Hfs; [done|].
  rewrite !scan_cons, Hfs.
  destruct (DeepFace (fs w2) temp_img (posixpath.join DB_PATH f)) as [[|]|msg];
    [done| |]; by apply IH.
Qed.

Lemma recognize_face_local DeepFace frame w1 w2 :
  fs w1 = fs w2 →
  (recognize_face DeepFace frame w1).1 = (recognize_face DeepFace frame w2).1
  ∧ fs (recognize_face DeepFace frame w1).2 = fs (recognize_face DeepFace frame w2).2.
Proof.
  intros Hfs.
  destruct (decide (store_entries (fs w2) = [])) as [Hnil|Hne].
  - rewrite (recognize_face_nothing DeepFace frame w2 Hnil).
    rewrite <- Hfs in Hnil.
    by rewrite (recognize_face_nothing DeepFace frame w1 Hnil).
  - destruct (store_entries_nonempty _ Hne) as (es & Hes & Hne' & _).
    rewrite (recognize_face_eq DeepFace frame w2 es Hes Hne').
    rewrite <- Hfs in Hes.
    rewrite (recognize_face_eq DeepFace frame w1 es Hes Hne').
    pose proof (scan_local DeepFace (jpg_files (fs w1))
                  (set_fs (with_candidate frame (fs w1)) w1)
                  (set_fs (with_candidate frame (fs w2)) w2)) as Hl.
    rewrite Hfs in *.
    destruct (scan DeepFace _ (set_fs _ w1)) as [r1 w1'].
    destruct (scan DeepFace _ (set_fs _ w2)) as [r2 w2'].
    simpl in *. split; [by apply Hl | done].
Qed.

(** A match comes from a .jpg entry of the store. *)
Lemma recognize_face_Some DeepFace frame w name :
  (recognize_face DeepFace frame w).1 = Return (Some name) → jpg_files (fs w) ≠ [].
Proof.
  intros H Hnil.
  destruct (decide (store_entries (fs w) = [])) as [Hempty|Hne].
  - by rewrite (recognize_face_nothing DeepFace frame w Hempty) in H.
  - destruct (store_entries_nonempty _ Hne) as (es & Hes & Hne' & _).
    rewrite (recognize_face_eq DeepFace frame w es Hes Hne') in H.
    destruct (scan_total DeepFace (jpg_files (fs w))
                (set_fs (with_candidate frame (fs w)) w))
      as (r & w' & k & E & _ & _ & _ & _ & _ & Hr).
    rewrite E in H. simpl in H. injection H as ->.
    destruct (Hr name eq_refl) as (f & Hf & _).
    rewrite Hnil in Hf. by apply elem_of_nil in Hf.
Qed.

(** What [log_check] ends in, by what [load] ends in and whether the
    ledger file can be written. *)
Lemma log_check_outcome {OS : Environment} name check_type now w :
  (log_check name check_type now w).1 =
    match (load_attendance_data w).1 with
    | Return _ => Return (bool_decide (JSON_FILE ∉ read_only (fs w)))
    | Raise e => Raise e
    | Unmodelled => Unmodelled
    end.
Proof.
  pose proof (load_attendance_data_eq w) as Hload.
  destruct (load_attendance_data w) as [[df|e|] w0] eqn:E; simpl;
    injection Hload as Ho ->.
  - destruct (decide (JSON_FILE ∈ read_only (fs w))) as [Hro|Hrw].
    + rewrite (log_check_fails name check_type now df w E Hro). simpl.
      by rewrite bool_decide_eq_false_2 by (by intros ?).
    + rewrite (log_check_ok name check_type now df w E Hrw). simpl.
      by rewrite bool_decide_eq_true_2.
  - unfold log_check, mbind, M_bind. by rewrite E.
  - unfold log_check, mbind, M_bind. by rewrite E.
Qed.

Lemma log_check_local {OS : Environment} name check_type now w1 w2 :
  fs w1 = fs w2 →
  (log_check name check_type now w1).1 = (log_check name check_type now w2).1.
Proof.
  intros Hfs. rewrite !log_check_outcome, !load_attendance_data_eq.
  unfold ledger_file. by rewrite Hfs.
Qed.

(** When [log_check] returns False the failure has been shown. *)
Lemma log_check_False {OS : Environment} name check_type now w :
  (log_check name check_type now w).1 = Return false →
  (error, Failed_to_record check_type name)
    ∈ notices (log_check name check_type now w).2.
Proof.
  intros H. pose proof (log_check_outcome name check_type now w) as Ho.
  rewrite H in Ho.
  pose proof (load_attendance_data_eq w) as Hload.
  destruct (load_attendance_data w) as [[df|e|] w0] eqn:E; simpl in Ho; try done.
  injection Hload as _ ->. injection Ho as Ho. symmetry in Ho.
  apply bool_decide_eq_false in Ho.
  assert (JSON_FILE ∈ read_only (fs w)) as Hro
    by (destruct (decide (JSON_FILE ∈ read_only (fs w))); done).
  rewrite (log_check_fails name check_type now df w E Hro). simpl.
  apply elem_of_app. right. left.
Qed.

(** ** Invariants of a run *)

Lemma preserved_ret {A} I (a : A) : preserved I (mret a).
Proof. by intros w H. Qed.

Lemma preserved_raise {A} I e : preserved I (raise (A := A) e).
Proof. by intros w H. Qed.

Lemma preserved_bind {A B} I (m : M A) (f : A → M B) :
  preserved I m → (∀ a, preserved I (f a)) → preserved I (m ≫= f).
Proof.
  intros Hm Hf w H. unfold mbind, M_bind.
  specialize (Hm w H). destruct (m w) as [[a|e|] w']; simpl in *; try done.
  by apply Hf.
Qed.

Lemma preserved_try_except {A} I (body : M A) classes handler :
  preserved I body → (∀ e, preserved I (handler e)) →
  preserved I (try_except body classes handler).
Proof.
  intros Hb Hh w H. unfold try_except.
  specialize (Hb w H). destruct (body w) as [[a|e|] w']; simpl in *; try done.
  destruct (classes e); [by apply Hh | done].
Qed.

Lemma keeps_session_preserved {A} (I : World → Prop) (m : M A) :
  keeps_session m →
  (∀ w w', session_state w' = session_state w → I w → I w') →
  preserved I m.
Proof. intros Hm HI w H. by apply (HI w). Qed.

Lemma keeps_session_ret {A} (a : A) : keeps_session (mret a).
Proof. by intros w. Qed.

Lemma keeps_session_bind {A B} (m : M A) (f : A → M B) :
  keeps_session m → (∀ a, keeps_session (f a)) → keeps_session (m ≫= f).
Proof.
  intros Hm Hf w. unfold mbind, M_bind.
  specialize (Hm w). destruct (m w) as [[a|e|] w']; simpl in *; try done.
  by rewrite Hf.
Qed.

Lemma keeps_session_try_except {A} (body : M A) classes handler :
  keeps_session body → (∀ e, keeps_session (handler e)) →
  keeps_session (try_except body classes handler).
Proof.
  intros Hb Hh w. unfold try_except.
  specialize (Hb w). destruct (body w) as [[a|e|] w']; simpl in *; try done.
  destruct (classes e); [by rewrite Hh | done].
Qed.

Lemma keeps_session_try_finally {A} (body : M A) final :
  keeps_session body → keeps_session final →
  keeps_session (try_finally body final).
Proof.
  intros Hb Hf w. unfold try_finally.
  specialize (Hb w). destruct (body w) as [[a|e|] w']; simpl in *; try done;
    specialize (Hf w'); destruct (final w') as [[[]|e'|] w'']; simpl in *; congruence.
Qed.

Lemma keeps_session_st l t : keeps_session (st l t).
Proof. by intros w. Qed.

Lemma keeps_session_os_path_exists p : keeps_session (os_path_exists p).
Proof. by intros w. Qed.

Lemma keeps_session_os_listdir p : keeps_session (os_listdir p).
Proof. intros w. unfold os_listdir. by destruct (fs_listdir _ _). Qed.

Lemma keeps_session_os_remove {OS : Environment} p : keeps_session (os_remove p).
Proof.
  intros w. unfold os_remove.
  destruct (fs_remove _ _); [done|]. by destruct (fs_exists _ _).
Qed.

Lemma keeps_session_cv2_imwrite {OS : Environment} p img :
  keeps_session (cv2_imwrite p img).
Proof. intros w. unfold cv2_imwrite. by destruct (fs_write _ _ _). Qed.

Lemma keeps_session_open_json_load p : keeps_session (open_json_load p).
Proof. intros w. unfold open_json_load. by destruct (fs_read _ _) as [[]|]. Qed.

Lemma keeps_session_open_json_dump {OS : Environment} p data :
  keeps_session (open_json_dump p data).
Proof. intros w. unfold open_json_dump. by destruct (fs_write _ _ _). Qed.

Lemma keeps_session_lift {A} (o : outcome A) : keeps_session (lift o).
Proof. by intros w. Qed.

Lemma keeps_session_cv2_VideoCapture : keeps_session cv2_VideoCapture.
Proof. by intros w. Qed.

Lemma keeps_session_get_session key : keeps_session (get_session key).
Proof. intros w. unfold get_session. by destruct (_ !! _). Qed.

Create HintDb keeps discriminated.

#[local] Hint Resolve keeps_session_ret keeps_session_st keeps_session_os_path_exists
  keeps_session_os_listdir keeps_session_os_remove keeps_session_cv2_imwrite
  keeps_session_open_json_load keeps_session_open_json_dump keeps_session_lift
  keeps_session_cv2_VideoCapture keeps_session_get_session : keeps.

(** One step through a computation that is to keep the session state. *)
Ltac keeps_step :=
  first
    [ apply keeps_session_bind; [|intros ?]
    | apply keeps_session_try_except; [|intros ?]
    | apply keeps_session_try_finally
    | solve [auto with keeps]
    | match goal with
      | |- keeps_session (if ?b then _ else _) => destruct b
      | |- keeps_session (match ?x with _ => _ end) => destruct x
      end ].

Lemma keeps_session_load : keeps_session load_attendance_data.
Proof. unfold load_attendance_data. repeat keeps_step. Qed.

Lemma keeps_session_save {OS : Environment} df :
  keeps_session (save_attendance_data df).
Proof. unfold save_attendance_data. repeat keeps_step. Qed.

Lemma keeps_session_log_check {OS : Environment} name check_type now :
  keeps_session (log_check name check_type now).
Proof.
  unfold log_check. pose proof keeps_session_load. pose proof keeps_session_save.
  repeat keeps_step.
Qed.

Lemma keeps_session_recognize_face {OS : Environment} DeepFace frame :
  keeps_session (recognize_face DeepFace frame).
Proof.
  assert (∀ files, keeps_session (scan DeepFace files)) as Hscan.
  { intros files w.
    destruct (scan_total DeepFace files w) as (r & w' & k & E & _ & Hss & _).
    rewrite E. exact Hss. }
  unfold recognize_face. repeat keeps_step.
Qed.

(** ** The session controller *)

Section ControllerProperties.

Variable DeepFace : FileSystem → string → string → verdict.

Lemma try_except_Return {A} (body : M A) classes handler w a w' :
  body w = (Return a, w') → try_except body classes handler w = (Return a, w').
Proof. intros H. unfold try_except. by rewrite H. Qed.

(** The check at the head of [webcam_verification], when faces are
    registered. *)
Lemma registered_faces w :
  jpg_files (fs w) ≠ [] →
  ∃ es, faces_db (fs w) = Some es
        ∧ List.filter (fun f => Py.endswith f ".jpg") (es.*1) ≠ [].
Proof.
  intros H.
  destruct (store_entries_nonempty (fs w) (jpg_files_store _ H)) as (es & Hes & _ & E).
  exists es. split; [done|]. unfold jpg_files in H. by rewrite E in H.
Qed.

Lemma webcam_recapture check_type cam now w s img :
  verification (session_state w) !! session_key check_type = Some s →
  frame s = Some img → jpg_files (fs w) ≠ [] →
  ∃ w',
    webcam_verification DeepFace check_type (Some Recapture_Frame) cam now w
      = (Raise RerunException, w')
    ∧ verification (session_state w') !! session_key check_type
      = Some {| frame := None; verification_done := false;
                last_capture_time := last_capture_time s |}
    ∧ camera_opened w' = camera_opened w ∧ fs w' = fs w.
Proof.
  intros Hs Hframe Hreg. destruct (registered_faces w Hreg) as (es & Hes & Hjpg).
  unfold webcam_verification.
  rewrite (bind_Return _ _ _ _ _ (os_path_exists_DB w es Hes)).
  cbv beta iota.
  rewrite (bind_Return _ _ _ _ _
             (bind_Return _ _ _ _ _ (os_listdir_DB w es Hes))).
  rewrite bool_decide_eq_false_2
    by (by destruct (List.filter _ (es.*1))).
  unfold mbind, M_bind, get_session, set_frame, set_verification_done,
    put_session, st_rerun, raise, st, modify, mbind, M_bind, get_session.
  simpl. rewrite Hs. rewrite bool_decide_eq_true_2 by eauto. simpl.
  rewrite Hs, Hframe. simpl.
  destruct (last_capture_time s) as [t|] eqn:Ht; simpl;
    rewrite Hs; simpl; rewrite lookup_insert_eq; simpl;
    (eexists; split; [reflexivity|]); simpl;
    rewrite lookup_insert_eq, ?Ht; done.
Qed.

Lemma frame_from_capture_session check_type clicked cam w w' :
  session_state w' = session_state w →
  frame_from_capture check_type clicked cam w →
  frame_from_capture check_type clicked cam w'.
Proof.
  unfold frame_from_capture, session_frame. by intros ->.
Qed.

Lemma session_frame_put check_type s w :
  session_frame check_type (put_session (session_key check_type) s w).2 = frame s.
Proof. unfold session_frame. simpl. by rewrite lookup_insert_eq. Qed.

Lemma preserved_put_session check_type clicked cam s :
  (∀ img, frame s = Some img → clicked = Some Capture_Frame ∧ cam = Frame img) →
  preserved (frame_from_capture check_type clicked cam)
    (put_session (session_key check_type) s).
Proof.
  intros Hs w _ img. rewrite session_frame_put. apply Hs.
Qed.

Lemma preserved_set_frame check_type clicked cam v :
  (∀ img, v = Some img → clicked = Some Capture_Frame ∧ cam = Frame img) →
  preserved (frame_from_capture check_type clicked cam)
    (set_frame (session_key check_type) v).
Proof.
  intros Hv w H. unfold set_frame, mbind, M_bind, get_session.
  destruct (_ !! _) as [s|]; [|done].
  by apply (preserved_put_session check_type clicked cam).
Qed.

Lemma preserved_set_verification_done check_type clicked cam v :
  preserved (frame_from_capture check_type clicked cam)
    (set_verification_done (session_key check_type) v).
Proof.
  intros w H. unfold set_verification_done, mbind, M_bind, get_session.
  destruct (_ !! _) as [s|] eqn:Hs; [|done].
  intros img. rewrite session_frame_put. simpl. intros Himg. apply H.
  unfold session_frame. by rewrite Hs.
Qed.

Lemma preserved_set_last_capture_time check_type clicked cam v :
  preserved (frame_from_capture check_type clicked cam)
    (set_last_capture_time (session_key check_type) v).
Proof.
  intros w H. unfold set_last_capture_time, mbind, M_bind, get_session.
  destruct (_ !! _) as [s|] eqn:Hs; [|done].
  intros img. rewrite session_frame_put. simpl. intros Himg. apply H.
  unfold session_frame. by rewrite Hs.
Qed.

(** One step through a computation that is to keep [frame_from_capture]. *)
Ltac frame_step :=
  first
    [ apply preserved_set_verification_done
    | apply preserved_set_last_capture_time
    | apply preserved_set_frame; solve [done | by intros ? [= ->]]
    | apply preserved_put_session; solve [done]
    | apply keeps_session_preserved;
        [ solve [auto using keeps_session_recognize_face,
                   keeps_session_log_check with keeps]
        | apply frame_from_capture_session ]
    | apply preserved_ret
    | apply preserved_raise
    | apply preserved_try_except; [|intros ?]
    | apply preserved_bind; [|intros ?]
    | match goal with
      | |- preserved _ (if ?b then _ else _) => destruct b
      | |- preserved _ (match ?x with _ => _ end) => destruct x
      end ].

(** No run of [webcam_verification] puts a frame into the session other
    than by a capture for which the camera gave that frame. *)
Lemma webcam_frame_from_capture check_type clicked cam now :
  preserved (frame_from_capture check_type clicked cam)
    (webcam_verification DeepFace check_type clicked cam now).
Proof.
  unfold webcam_verification, st_rerun.
  destruct clicked as [[]|], cam; repeat frame_step.
  all: try by intros w H.
Qed.

(** C8, as amended. In a session that holds a frame, "Recapture Frame"
    clears the frame and the verification-done flag and reruns the
    script without touching the camera; the capture timestamp stays in
    the session.  From there a run leaves a frame in the session only if
    it is a capture for which the camera gave that frame. *)
Theorem recapture_discards_frame check_type cam now w s img :
  verification (session_state w) !! session_key check_type = Some s →
  frame s = Some img → jpg_files (fs w) ≠ [] →
  ∃ w',
    webcam_verification DeepFace check_type (Some Recapture_Frame) cam now w
      = (Raise RerunException, w')
    ∧ verification (session_state w') !! session_key check_type
      = Some {| frame := None; verification_done := false;
                last_capture_time := last_capture_time s |}
    ∧ camera_opened w' = camera_opened w
    ∧ ∀ clicked cam' now' img',
        session_frame check_type
          (webcam_verification DeepFace check_type clicked cam' now' w').2
          = Some img' →
        clicked = Some Capture_Frame ∧ cam' = Frame img'.
Proof.
  intros Hs Hframe Hreg.
  destruct (webcam_recapture check_type cam now w s img Hs Hframe Hreg)
    as (w' & Hrun & Hs' & Hcam & _).
  exists w'. split; [done|]. split; [done|]. split; [done|].
  intros clicked cam' now' img'.
  apply (webcam_frame_from_capture check_type clicked cam' now' w').
  intros img0. unfold session_frame. rewrite Hs'. done.
Qed.

(** The run of "Verify" up to the end of its [try], in a world where the
    verifier names somebody and the append then fails. *)
Lemma verify_append_fails_body check_type now w0 w img name key :
  fs w = fs w0 →
  (recognize_face DeepFace img w0).1 = Return (Some name) →
  Py.truthy name = true →
  (log_check name check_type now (recognize_face DeepFace img w0).2).1
    = Return false →
  ∃ w',
    try_except
      (name ← recognize_face DeepFace img;
       if Py.truthy_opt name then
         st success Face_verified_successfully;;
         st success (Welcome (default "" name));;
         logged ← log_check (default "" name) check_type now;
         if (logged : bool)
         then set_verification_done key true
         else mret tt
       else
         st error Face_not_recognized;;
         st warning Please_try_the_following)
      is_Exception
      (fun e => st error (Verification_failed e)) w
    = (Return tt, w')
    ∧ session_state w' = session_state w
    ∧ (error, Failed_to_record check_type name) ∈ notices w'.
Proof.
  intros Hfs Hrec Hname Hlog.
  destruct (recognize_face_local DeepFace img w w0 Hfs) as [Hr Hfs1].
  rewrite Hrec in Hr.
  pose proof (keeps_session_recognize_face DeepFace img w) as Hss1.
  destruct (recognize_face DeepFace img w) as [r1 w1] eqn:E1.
  simpl in Hr, Hfs1, Hss1. subst r1.
  set (w2 := add_notice (success, Welcome name)
               (add_notice (success, Face_verified_successfully) w1)).
  assert ((log_check name check_type now w2).1 = Return false) as Hlog2.
  { rewrite <- Hlog. apply log_check_local. exact Hfs1. }
  pose proof (log_check_False name check_type now w2 Hlog2) as Hnote.
  pose proof (keeps_session_log_check name check_type now w2) as Hss2.
  destruct (log_check name check_type now w2) as [r3 w3] eqn:E3.
  simpl in Hlog2, Hnote, Hss2. subst r3.
  exists w3. split; [|split; [by rewrite Hss2, <- Hss1 | done]].
  apply try_except_Return.
  rewrite (bind_Return _ _ _ _ _ E1). simpl. rewrite Hname.
  unfold mbind, M_bind, st, modify. fold w2. by rewrite E3.
Qed.

(** C9. In a session that holds a frame not yet verified, when "Verify"
    is pressed, the verifier names somebody and [log_check] returns
    False, the run ends with the session as it was (the frame held,
    verification-done still False) and the failure to record shown as an
    error. *)
Theorem verify_append_fails check_type cam now w s img name :
  verification (session_state w) !! session_key check_type = Some s →
  frame s = Some img → verification_done s = false →
  (recognize_face DeepFace img w).1 = Return (Some name) →
  Py.truthy name = true →
  (log_check name check_type now (recognize_face DeepFace img w).2).1
    = Return false →
  ∃ w',
    webcam_verification DeepFace check_type (Some Verify_and) cam now w
      = (Return tt, w')
    ∧ verification (session_state w') !! session_key check_type = Some s
    ∧ (error, Failed_to_record check_type name) ∈ notices w'.
Proof.
  intros Hs Hframe Hdone Hrec Hname Hlog.
  destruct (registered_faces w (recognize_face_Some _ _ _ _ Hrec))
    as (es & Hes & Hjpg).
  set (wa := if last_capture_time s is Some t
             then add_notice (info, Frame_captured_at t) w else w).
  assert (fs wa = fs w ∧ session_state wa = session_state w) as [Hfsa Hssa]
    by (subst wa; by destruct (last_capture_time s)).
  destruct (verify_append_fails_body check_type now w wa img name
              (session_key check_type) Hfsa Hrec Hname Hlog)
    as (w' & Hbody & Hss & Hnote).
  exists w'. split; [|split; [by rewrite Hss, Hssa | done]].
  unfold webcam_verification.
  rewrite (bind_Return _ _ _ _ _ (os_path_exists_DB w es Hes)).
  cbv beta iota.
  rewrite (bind_Return _ _ _ _ _
             (bind_Return _ _ _ _ _ (os_listdir_DB w es Hes))).
  rewrite bool_decide_eq_false_2
    by (by destruct (List.filter _ (es.*1))).
  cbv beta iota zeta.
  unfold mbind at 1. unfold M_bind at 1.
  rewrite bool_decide_eq_true_2 by (rewrite Hs; eauto).
  unfold mbind at 1. unfold M_bind at 1. unfold mret at 1. unfold M_ret at 1.
  unfold mbind at 1. unfold M_bind at 1. unfold mret at 1. unfold M_ret at 1.
  cbv beta iota delta [negb].
  assert (get_session (session_key check_type) w = (Return s, w)) as Hget
    by (unfold get_session; by rewrite Hs).
  rewrite (bind_Return _ _ _ _ _ Hget). rewrite Hframe.
  assert ((if last_capture_time s is Some t
           then st info (Frame_captured_at t) else mret tt) w = (Return tt, wa))
    as Hinfo by (subst wa; by destruct (last_capture_time s)).
  rewrite (bind_Return _ _ _ _ _ Hinfo).
  rewrite (bind_Return _ _ _ _ _ Hbody).
  unfold mbind at 1. unfold M_bind at 1. unfold mret at 1. unfold M_ret at 1.
  assert (get_session (session_key check_type) w' = (Return s, w')) as Hget'
    by (unfold get_session; by rewrite Hss, Hssa, Hs).
  rewrite (bind_Return _ _ _ _ _ Hget'). by rewrite Hdone.
Qed.

End ControllerProperties.

Lemma recapture_discards_frame_witness :
  ∃ w',
    webcam_verification alice_or_bob "Check-In" (Some Recapture_Frame) NotOpened
      "2024-01-01 09:05:00" (session_world "Check-In" captured ∅)
      = (Raise RerunException, w')
    ∧ verification (session_state w') !! session_key "Check-In"
      = Some {| frame := None; verification_done := false;
                last_capture_time := last_capture_time captured |}
    ∧ camera_opened w' = camera_opened (session_world "Check-In" captured ∅)
    ∧ ∀ clicked cam' now' img',
        session_frame "Check-In"
          (webcam_verification alice_or_bob "Check-In" clicked cam' now' w').2
          = Some img' →
        clicked = Some Capture_Frame ∧ cam' = Frame img'.
Proof.
  apply (recapture_discards_frame alice_or_bob "Check-In" NotOpened
           "2024-01-01 09:05:00" (session_world "Check-In" captured ∅)
           captured [9%N]).
  - reflexivity.
  - reflexivity.
  - vm_compute. discriminate.
Defined.

(** C8 as stated fails for the timestamp: after "Recapture Frame" the
    session still holds the time of the capture that was discarded. *)
Lemma recapture_keeps_timestamp :
  last_capture_time captured = Some "2024-01-01 09:00:00"
  ∧ ∃ w',
      webcam_verification alice_or_bob "Check-In" (Some Recapture_Frame) NotOpened
        "2024-01-01 09:05:00" (session_world "Check-In" captured ∅)
        = (Raise RerunException, w')
      ∧ session_frame "Check-In" w' = None
      ∧ verification (session_state w') !! session_key "Check-In"
          ≫= last_capture_time
        = Some "2024-01-01 09:00:00".
Proof.
  split; [reflexivity|].
  exists (webcam_verification alice_or_bob "Check-In" (Some Recapture_Frame) NotOpened
            "2024-01-01 09:05:00" (session_world "Check-In" captured ∅)).2.
  split; [reflexivity|]. split; reflexivity.
Qed.

Lemma verify_append_fails_witness :
  ∃ w',
    webcam_verification alice_or_bob "Check-In" (Some Verify_and) NotOpened
      "2024-01-01 09:05:00" (session_world "Check-In" captured {[JSON_FILE]})
      = (Return tt, w')
    ∧ verification (session_state w') !! session_key "Check-In" = Some captured
    ∧ (error, Failed_to_record "Check-In" "alice") ∈ notices w'.
Proof.
  apply (verify_append_fails alice_or_bob "Check-In" NotOpened "2024-01-01 09:05:00"
           (session_world "Check-In" captured {[JSON_FILE]}) captured [9%N] "alice").
  - reflexivity.
  - reflexivity.
  - reflexivity.
  - reflexivity.
  - reflexivity.
  - reflexivity.
Defined.

(** * Further properties *)

(** ** The ledger file across writes *)

(** Whatever frame [save_attendance_data] writes, with distinct columns, rows
    of the width of the columns and at least one row, [load_attendance_data]
    reads back. *)
Theorem save_load_round_trip df w :
  frame_ok df → rows df ≠ [] → JSON_FILE ∉ read_only (fs w) →
  ∃ w', save_attendance_data df w = (Return true, w')
        ∧ load_attendance_data w' = (Return df, w').
Proof.
  intros Hok Hne Hrw. eexists. split; [by apply save_attendance_data_ok|].
  rewrite load_attendance_data_eq. unfold ledger_file, write_ledger. simpl.
  rewrite lookup_insert_eq. simpl.
  rewrite mapM_dict_of_json_of_dict. by rewrite from_records_to_dict.
Qed.

(** A frame without rows is written as an empty array, so its columns are
    not read back. *)
Theorem save_load_no_rows df w :
  rows df = [] → JSON_FILE ∉ read_only (fs w) →
  ∃ w', save_attendance_data df w = (Return true, w')
        ∧ load_attendance_data w' = (Return (empty_frame []), w').
Proof.
  intros Hrows Hrw. eexists. split; [by apply save_attendance_data_ok|].
  rewrite load_attendance_data_eq. unfold ledger_file, write_ledger. simpl.
  rewrite lookup_insert_eq. unfold to_dict_records. by rewrite Hrows.
Qed.

Lemma dict_get_elem {A} c (d : list (string * A)) :
  c ∈ d.*1 → ∃ v, dict_get c d = Some v ∧ v ∈ d.*2.
Proof.
  induction d as [|[k v] d IH]; simpl; intros H; [by apply elem_of_nil in H|].
  destruct (String.eqb_spec c k) as [->|Hne].
  - exists v. split; [done|left].
  - apply elem_of_cons in H as [H|H]; [done|].
    destruct (IH H) as (v' & Hv & Hin). exists v'. split; [done|by right].
Qed.

Lemma dict_get_zip_align cols c (d : pydict) :
  c ∈ cols → dict_get c (zip cols (align cols d)) = Some (default NaN (dict_get c d)).
Proof.
  unfold align. induction cols as [|c0 cols IH]; simpl; intros H;
    [by apply elem_of_nil in H|].
  destruct (String.eqb_spec c c0) as [->|Hne]; [done|].
  apply elem_of_cons in H as [H|H]; [done|]. by apply IH.
Qed.

Lemma record_dict_spec d :
  record_dict d = true ↔
    d.*1 ≡ₚ ledger_columns ∧ Forall (fun c => is_Str c = true) (d.*2).
Proof.
  unfold record_dict. rewrite andb_true_iff, bool_decide_eq_true.
  rewrite forallb_forall, Forall_forall.
  split; intros [HP H]; (split; [done|]); intros c Hc; apply H;
    by apply list_elem_of_In.
Qed.

Lemma is_record_json_of_dict d : is_record (json_of_dict d) = record_dict d.
Proof.
  unfold json_of_dict, record_dict. simpl.
  assert ((map (fun p : string * cell => (p.1, json_of_cell p.2)) d).*1 = d.*1) as ->.
  { induction d as [|[k c] d IH]; simpl; [done|]. f_equal. exact IH. }
  f_equal. induction d as [|[k c] d IH]; simpl; [done|].
  destruct c; simpl; [exact IH | done].
Qed.

Lemma dict_of_json_inv v d : dict_of_json v = Some d → v = json_of_dict d.
Proof.
  destruct v as [|b|n| |s|l|kv]; simpl; try done.
  intros H. apply mapM_Some in H. unfold json_of_dict. f_equal.
  induction H as [|[k x] [k' c] kv d Hx _ IH]; simpl in *; [done|].
  f_equal; [|exact IH].
  destruct x; simpl in Hx; try done; by injection Hx as <- <-.
Qed.

Lemma well_formed_record_dicts l :
  forallb is_record l = true →
  ∃ ds, mapM dict_of_json l = Some ds
        ∧ Forall (fun d => record_dict d = true) ds.
Proof.
  intros H. destruct (well_formed_dicts l H) as (ds & Hds & _).
  exists ds. split; [done|].
  apply mapM_Some in Hds. rewrite forallb_forall in H.
  induction Hds as [|v d l ds Hv _ IH]; constructor.
  - apply dict_of_json_inv in Hv. subst v. rewrite <- is_record_json_of_dict.
    apply H. by left.
  - apply IH. intros x Hx. apply H. by right.
Qed.

Lemma record_dict_keys d : record_dict d = true → d.*1 ≡ₚ ledger_columns.
Proof. intros H. by apply record_dict_spec in H as [? _]. Qed.

(** Laying a record out along a reordering of the ledger columns gives a
    record again, with the same three items. *)
Lemma record_dict_align cols d :
  record_dict d = true → cols ≡ₚ ledger_columns →
  record_dict (zip cols (align cols d)) = true
  ∧ record_view (zip cols (align cols d)) = record_view d.
Proof.
  intros Hd Hcols. apply record_dict_spec in Hd as [Hk Hv].
  assert (∀ c, c ∈ cols → ∃ s, dict_get c d = Some (Str s)) as Hget.
  { intros c Hc. rewrite Hcols, <- Hk in Hc.
    destruct (dict_get_elem c d Hc) as (v & Hv' & Hin).
    rewrite Forall_forall in Hv. specialize (Hv v Hin).
    destruct v as [s|]; [by exists s|done]. }
  split.
  - apply record_dict_spec.
    rewrite fst_zip, snd_zip by (rewrite length_align; lia).
    split; [done|]. unfold align. apply Forall_fmap, Forall_forall.
    intros c Hc. simpl. by destruct (Hget c Hc) as [s ->].
  - unfold record_view.
    assert (∀ c, c ∈ cols →
              dict_get c (zip cols (align cols d)) = dict_get c d) as Hsame.
    { intros c Hc. rewrite dict_get_zip_align by done.
      by destruct (Hget c Hc) as [s ->]. }
    rewrite !Hsame; [done| | |]; rewrite Hcols; unfold ledger_columns;
      set_solver.
Qed.

Lemma columns_of_ledger ds :
  Forall (fun d => record_dict d = true) ds → columns_of ds ≡ₚ ledger_columns.
Proof.
  destruct ds as [|d ds]; [done|]. intros H. apply Forall_cons in H as [H _].
  by apply record_dict_keys.
Qed.

Lemma from_records_of_records ds :
  Forall (fun d => record_dict d = true) ds →
  from_records ds =
    {| columns := match ds with [] => [] | _ => columns_of ds end;
       rows := map (align (columns_of ds)) ds |}.
Proof.
  intros H. destruct ds as [|d ds]; [done|].
  apply from_records_well_formed. eapply Forall_impl; [exact H|].
  intros d'. apply record_dict_keys.
Qed.

(** The frame [log_check] writes for a ledger of records. *)
Lemma appended_frame ds name check_type now :
  Forall (fun d => record_dict d = true) ds →
  pd_concat (from_records ds)
    (from_records [attendance_record name check_type now])
  = {| columns := columns_of ds;
       rows := map (align (columns_of ds))
                 (ds ++ [attendance_record name check_type now]) |}.
Proof.
  intros H. destruct ds as [|d ds]; [reflexivity|].
  pose proof (columns_of_ledger _ H) as Hcols.
  rewrite (from_records_of_records _ H). simpl columns_of in *.
  rewrite pd_concat_known.
  - simpl. f_equal. by rewrite map_app.
  - split; simpl.
    + rewrite Hcols. apply NoDup_ledger_columns.
    + constructor; [apply length_align|].
      apply Forall_fmap, Forall_true. intros ?. apply length_align.
  - simpl. intros c Hc. by rewrite Hcols.
Qed.

Lemma load_records w ds :
  ledger_file w = Some (JsonDoc (JArr (map json_of_dict ds))) →
  load_attendance_data w = (Return (from_records ds), w).
Proof.
  intros H. rewrite load_attendance_data_eq, H. simpl.
  by rewrite mapM_dict_of_json_of_dict.
Qed.

Lemma ledger_rows_from_records ds :
  Forall (fun d => record_dict d = true) ds →
  ledger_rows (from_records ds) = map record_view ds.
Proof.
  intros H. rewrite (from_records_of_records _ H).
  unfold ledger_rows, to_dict_records. simpl. rewrite !map_map.
  pose proof (columns_of_ledger _ H) as Hcols.
  destruct ds as [|d0 ds0]; [done|]. set (ds := d0 :: ds0) in *.
  apply map_ext_in. intros d Hd. simpl.
  apply record_dict_align; [|done].
  rewrite Forall_forall in H. apply H. by apply list_elem_of_In.
Qed.

(** One append to a well-formed ledger, in terms of the dicts in the file
    before and after. *)
Lemma log_check_step w c name check_type now :
  ledger_file w = Some c → well_formed c = true →
  JSON_FILE ∉ read_only (fs w) →
  ∃ ds ds' w1,
    Forall (fun d => record_dict d = true) ds
    ∧ Forall (fun d => record_dict d = true) ds'
    ∧ load_attendance_data w = (Return (from_records ds), w)
    ∧ log_check name check_type now w = (Return true, w1)
    ∧ ledger_file w1 = Some (JsonDoc (JArr (map json_of_dict ds')))
    ∧ read_only (fs w1) = read_only (fs w)
    ∧ faces_db (fs w1) = faces_db (fs w)
    ∧ map record_view ds'
      = map record_view ds ++ [check_view (name, check_type, now)].
Proof.
  intros Hc Hwf Hrw.
  destruct c as [raw|[|b|n| |s|l|kv]|img]; try discriminate. simpl in Hwf.
  destruct (well_formed_record_dicts l Hwf) as (ds & Hds & Hrec).
  assert (load_attendance_data w = (Return (from_records ds), w)) as Hload.
  { rewrite load_attendance_data_eq, Hc. simpl. by rewrite Hds. }
  set (rec := attendance_record name check_type now).
  assert (record_dict rec = true) as Hnew by reflexivity.
  pose proof (columns_of_ledger _ Hrec) as Hcols.
  set (cols := columns_of ds) in *.
  set (ds' := map (fun d => zip cols (align cols d)) (ds ++ [rec])).
  exists ds, ds'. eexists. split; [done|].
  assert (Forall (fun d => record_dict d = true) (ds ++ [rec])) as Hall
    by (apply Forall_app; split; [done | by constructor]).
  split.
  { subst ds'. apply Forall_fmap. eapply Forall_impl; [exact Hall|].
    intros d Hd. simpl. by apply record_dict_align. }
  split; [exact Hload|]. split.
  { rewrite (log_check_ok name check_type now _ w Hload Hrw).
    rewrite (appended_frame ds name check_type now Hrec). reflexivity. }
  split.
  { unfold ledger_file, write_ledger, to_dict_records. simpl.
    rewrite lookup_insert_eq. subst ds' cols rec.
    by rewrite (map_map (align _)). }
  split; [done|]. split; [done|].
  subst ds'. rewrite map_map.
  rewrite (map_ext_in _ record_view).
  - by rewrite map_app.
  - intros d Hd. simpl. apply record_dict_align; [|done].
    rewrite Forall_forall in Hall. apply Hall. by apply list_elem_of_In.
Qed.

(** [log_check] keeps the ledger file well-formed: after an append to a
    well-formed, writable ledger file the file is well-formed again, as
    writable as before, and the store directory is as it was. *)
Theorem log_check_keeps_well_formed w c name check_type now :
  ledger_file w = Some c → well_formed c = true →
  JSON_FILE ∉ read_only (fs w) →
  ∃ c',
    ledger_file (log_check name check_type now w).2 = Some c'
    ∧ well_formed c' = true
    ∧ read_only (fs (log_check name check_type now w).2) = read_only (fs w)
    ∧ faces_db (fs (log_check name check_type now w).2) = faces_db (fs w).
Proof.
  intros Hc Hwf Hrw.
  destruct (log_check_step w c name check_type now Hc Hwf Hrw)
    as (ds & ds' & w1 & _ & Hrec' & _ & -> & Hfile & Hro & Hdb & _).
  eexists. split; [exact Hfile|]. split; [|by split].
  simpl. rewrite forallb_forall. intros v Hv.
  apply in_map_iff in Hv as (d & <- & Hd). rewrite is_record_json_of_dict.
  rewrite Forall_forall in Hrec'. apply Hrec'. by apply list_elem_of_In.
Qed.

(** Appends compose: after any number of checks logged one after the
    other into a well-formed, writable ledger file, [load] gives the rows
    it gave before followed by one row per check, in the order of the
    checks. *)
Theorem log_checks_append checks w c :
  ledger_file w = Some c → well_formed c = true →
  JSON_FILE ∉ read_only (fs w) →
  ∃ df0 df1,
    load_attendance_data w = (Return df0, w)
    ∧ load_attendance_data (log_checks checks w)
      = (Return df1, log_checks checks w)
    ∧ ledger_rows df1 = ledger_rows df0 ++ map check_view checks.
Proof.
  intros Hc Hwf Hrw.
  assert (∃ ds, Forall (fun d => record_dict d = true) ds
                ∧ ledger_file w = Some (JsonDoc (JArr (map json_of_dict ds))))
    as (ds & Hrec & Hfile).
  { destruct c as [raw|[|b|n| |s|l|kv]|img]; try discriminate. simpl in Hwf.
    destruct (well_formed_record_dicts l Hwf) as (ds & Hds & Hrec).
    exists ds. split; [done|]. rewrite Hc. do 3 f_equal.
    apply mapM_Some in Hds. clear -Hds.
    induction Hds as [|v d l ds Hv _ IH]; simpl; [done|].
    f_equal; [by apply dict_of_json_inv | exact IH]. }
  clear c Hc Hwf.
  exists (from_records ds). 
  revert w ds Hrw Hrec Hfile.
  induction checks as [|[[name check_type] now] checks IH]; intros w ds Hrw Hrec Hfile.
  - exists (from_records ds). simpl. rewrite app_nil_r.
    split; [by apply load_records|]. split; [by apply load_records|done].
  - assert (well_formed (JsonDoc (JArr (map json_of_dict ds))) = true) as Hwf.
    { simpl. rewrite forallb_forall. intros v Hv.
      apply in_map_iff in Hv as (d & <- & Hd). rewrite is_record_json_of_dict.
      rewrite Forall_forall in Hrec. apply Hrec. by apply list_elem_of_In. }
    destruct (log_check_step w _ name check_type now Hfile Hwf Hrw)
      as (ds0 & ds' & w1 & Hrec0 & Hrec' & Hload0 & Hlog & Hfile' & Hro & _ & Hview).
    rewrite (load_records w ds Hfile) in Hload0.
    assert (from_records ds0 = from_records ds) as Hds0 by congruence.
    assert (map record_view ds0 = map record_view ds) as Hsame.
    { by rewrite <- !ledger_rows_from_records, Hds0. }
    rewrite Hsame in Hview. clear Hload0 Hrec0 Hds0 Hsame.
    rewrite <- Hro in Hrw.
    destruct (IH w1 ds' Hrw Hrec' Hfile') as (df1 & _ & Hload1 & Hrows).
    exists df1. split; [by apply load_records|].
    unfold log_checks in *. simpl. rewrite Hlog. simpl.
    split; [exact Hload1|].
    rewrite Hrows, !ledger_rows_from_records, Hview by done.
    by rewrite <- app_assoc.
Qed.

(** When the ledger file cannot be written, [log_check] returns False,
    leaves the file system as it is and shows the two errors. *)
Theorem log_check_write_fails name check_type now df w :
  (load_attendance_data w).1 = Return df →
  JSON_FILE ∈ read_only (fs w) →
  ∃ w',
    log_check name check_type now w = (Return false, w')
    ∧ fs w' = fs w
    ∧ notices w' = notices w ++
        [(error, Error_saving_JSON OSError);
         (error, Failed_to_record check_type name)].
Proof.
  intros Hload Hro.
  assert (load_attendance_data w = (Return df, w)) as Hl.
  { rewrite load_attendance_data_eq in *. simpl in Hload. by rewrite Hload. }
  rewrite (log_check_fails name check_type now df w Hl Hro).
  eexists. split; [done|]. simpl. split; [done|]. by rewrite <- app_assoc.
Qed.

(** With no ledger file, or one that holds text that is not JSON,
    [log_check] starts the ledger afresh: afterwards the file holds an
    array with the new record alone, its keys in the order Name, Type,
    Time.  What the file held before is gone. *)
Theorem log_check_starts_ledger name check_type now w :
  ledger_file w = None ∨ (∃ raw, ledger_file w = Some (Garbage raw)) →
  JSON_FILE ∉ read_only (fs w) →
  ∃ w',
    log_check name check_type now w = (Return true, w')
    ∧ ledger_file w'
      = Some (JsonDoc (JArr [JObj [("Name", JStr name); ("Type", JStr check_type);
                                   ("Time", JStr now)]])).
Proof.
  intros Hfile Hrw.
  assert (load_attendance_data w = (Return (empty_frame ledger_columns), w)) as Hl.
  { rewrite load_attendance_data_eq. by destruct Hfile as [-> | [raw ->]]. }
  rewrite (log_check_ok name check_type now _ w Hl Hrw).
  eexists. split; [done|]. unfold ledger_file. simpl. by rewrite lookup_insert_eq.
Qed.

(** An exception of [load] passes through [log_check] before anything is
    written or shown. *)
Lemma log_check_raises name check_type now e w :
  (load_attendance_data w).1 = Raise e →
  log_check name check_type now w = (Raise e, w).
Proof.
  intros H. pose proof (load_attendance_data_eq w) as Hl.
  unfold log_check, mbind, M_bind.
  destruct (load_attendance_data w) as [o w0]. simpl in H. subst o.
  by injection Hl as _ ->.
Qed.

(** ** More on the verifier *)


(** [recognize_face] touches nothing but temp_img: the store directory,
    the files of the working directory other than temp_img (the ledger
    among them), the session state and the camera are as before. *)
Theorem recognize_face_footprint DeepFace frame w :
  faces_db (fs (recognize_face DeepFace frame w).2) = faces_db (fs w)
  ∧ read_only (fs (recognize_face DeepFace frame w).2) = read_only (fs w)
  ∧ (∀ n, n ≠ temp_img →
       cwd (fs (recognize_face DeepFace frame w).2) !! n = cwd (fs w) !! n)
  ∧ session_state (recognize_face DeepFace frame w).2 = session_state w
  ∧ camera_opened (recognize_face DeepFace frame w).2 = camera_opened w.
Proof.
  destruct (decide (store_entries (fs w) = [])) as [Hnil|Hne].
  - by rewrite (recognize_face_nothing DeepFace frame w Hnil).
  - destruct (store_entries_nonempty _ Hne) as (es & Hes & Hne' & _).
    rewrite (recognize_face_eq DeepFace frame w es Hes Hne').
    destruct (scan_total DeepFace (jpg_files (fs w))
                (set_fs (with_candidate frame (fs w)) w))
      as (r & w' & k & -> & _ & Hss & Hcam & _).
    simpl. split; [done|]. split; [done|]. split; [|by split].
    intros n Hn. by rewrite lookup_delete_ne.
Qed.

Lemma rfind_from_lower c s i last :
  -1 <= last → 0 <= i → -1 <= Py.rfind_from c s i last.
Proof.
  revert i last. induction s as [|a s IH]; intros i last Hl Hi; simpl; [done|].
  apply IH; [|lia]. destruct (Ascii.eqb a c); lia.
Qed.

Lemma splitext_scan_cases n p i dot :
  0 <= i →
  posixpath.splitext_scan n p i dot = (p, "")
  ∨ (0 < dot
     ∧ posixpath.splitext_scan n p i dot = (Py.slice_to p dot, Py.slice_from p dot)).
Proof.
  revert i. induction n as [|n IH]; intros i Hi; simpl; [by left|].
  destruct (Z.ltb_spec i dot) as [Hlt|_]; [|by left].
  destruct (negb _).
  - right. split; [lia|done].
  - apply IH. lia.
Qed.

(** The root [splitext] gives for a name is never empty. *)
Lemma splitext_root_nonempty p : p ≠ "" → fst (posixpath.splitext p) ≠ "".
Proof.
  intros Hp. unfold posixpath.splitext.
  destruct (Z.ltb_spec (Py.rfind p posixpath.sep) (Py.rfind p posixpath.extsep));
    [|done].
  destruct (splitext_scan_cases (String.length p) p
              (Py.rfind p posixpath.sep + 1) (Py.rfind p posixpath.extsep))
    as [-> | [Hdot ->]]; [|done|].
  { pose proof (rfind_from_lower posixpath.sep p 0 (-1)). unfold Py.rfind. lia. }
  simpl. unfold Py.slice_to.
  destruct (Z.to_nat (Py.rfind p posixpath.extsep)) as [|k] eqn:E; [lia|].
  by destruct p.
Qed.

Lemma recognized_name_truthy DeepFace frame w name :
  (recognize_face DeepFace frame w).1 = Return (Some name) →
  Py.truthy_opt (Some name) = true.
Proof.
  intros H.
  destruct (decide (store_entries (fs w) = [])) as [Hempty|Hne].
  { by rewrite (recognize_face_nothing DeepFace frame w Hempty) in H. }
  destruct (store_entries_nonempty _ Hne) as (es & Hes & Hne' & _).
  rewrite (recognize_face_eq DeepFace frame w es Hes Hne') in H.
  destruct (scan_total DeepFace (jpg_files (fs w))
              (set_fs (with_candidate frame (fs w)) w))
    as (r & w' & k & E & _ & _ & _ & _ & _ & Hr).
  rewrite E in H. simpl in H. injection H as ->.
  destruct (Hr name eq_refl) as (f & Hf & _ & ->).
  apply elem_of_jpg_files in Hf as [_ Hjpg].
  simpl. unfold Py.truthy. apply negb_true_iff, String.eqb_neq.
  apply splitext_root_nonempty. by intros ->.
Qed.

(** A name [recognize_face] returns is never the empty string, so a match
    always passes the test [if name:] of its caller. *)
Theorem recognize_face_name_truthy DeepFace frame w name :
  (recognize_face DeepFace frame w).1 = Return (Some name) →
  Py.truthy_opt (Some name) = true.
Proof. apply recognized_name_truthy. Qed.





(** ** More on registration *)

(** When the camera cannot be opened or gives no frame, a registration
    attempt with a valid name stores nothing: the file system is as before,
    an error is shown, the camera was asked once and the capture flag is
    down again. *)
Theorem add_face_camera_fails entered cam w :
  Py.strip entered ≠ "" → cam = NotOpened ∨ cam = NoFrame →
  ∃ w' t,
    add_face entered true cam w = (Return tt, w')
    ∧ fs w' = fs w
    ∧ camera_opened w' = S (camera_opened w)
    ∧ capture_face (session_state w') = Some false
    ∧ notices w' = notices w ++ [(error, t)].
Proof.
  intros Hne Hcam. apply String.eqb_neq in Hne.
  unfold add_face, mbind, M_bind, modify, set_face_name, set_capture_face, st,
    get_capture_face, cv2_VideoCapture, modify.
  simpl. unfold Py.truthy. rewrite Hne. simpl.
  destruct Hcam as [-> | ->];
    destruct (capture_face (session_state w)) eqn:E1,
      (face_name (session_state w)) eqn:E2; simpl;
    eexists _, _; (split; [reflexivity|]); simpl; done.
Qed.

(** Whatever is entered, pressed and seen by the camera, a run of
    [add_face] that does not start with the capture flag up returns
    normally and ends with the flag down. *)
Theorem add_face_resets_capture entered clicked cam w :
  capture_face (session_state w) ≠ Some true →
  ∃ w',
    add_face entered clicked cam w = (Return tt, w')
    ∧ capture_face (session_state w') = Some false.
Proof.
  intros Hflag.
  unfold add_face, mbind, M_bind, modify, set_face_name, set_capture_face, st,
    get_capture_face, cv2_VideoCapture, cv2_imwrite, modify.
  simpl.
  destruct (capture_face (session_state w)) as [[]|] eqn:E1; [done| |];
    destruct (face_name (session_state w)) eqn:E2; simpl;
    destruct clicked; simpl; rewrite ?E1; simpl;
    try (eexists; split; reflexivity);
    destruct (Py.truthy (Py.strip entered)); simpl; rewrite ?E1; simpl;
    try (eexists; split; reflexivity);
    destruct cam; simpl;
    try (eexists; split; reflexivity);
    destruct (fs_write _ _ _); simpl; eexists; split; reflexivity.
Qed.

(** Without the button pressed (and the capture flag down) [add_face] only
    keeps the text entered: no camera access, no file written, no notice. *)
Lemma add_face_idle entered cam w :
  capture_face (session_state w) ≠ Some true →
  add_face entered false cam w
  = (Return tt, set_session_state (entered_state entered (session_state w)) w).
Proof.
  intros Hflag.
  unfold add_face, mbind, M_bind, modify, set_face_name, get_capture_face.
  simpl.
  destruct (capture_face (session_state w)) as [[]|] eqn:E1; [done| |];
    destruct (face_name (session_state w)) eqn:E2; simpl; rewrite ?E1; simpl;
    unfold set_session_state, entered_state; simpl; rewrite ?E1; reflexivity.
Qed.

Lemma filter_Permutation {A} (P : A → bool) (l k : list A) :
  l ≡ₚ k → List.filter P l ≡ₚ List.filter P k.
Proof.
  induction 1 as [|x l k _ IH|x y l|l k m _ IH1 _ IH2]; simpl.
  - done.
  - destruct (P x); [by constructor | done].
  - destruct (P x), (P y); try done. apply perm_swap.
  - by etransitivity.
Qed.

(** The .jpg entries after a registration that could be written: as
    before when the name was there, with the name added otherwise, at the
    place the listing gives it. *)
Lemma jpg_files_registered {OS : Environment} entered img w es :
  Py.strip entered ≠ "" → Py.contains (Py.strip entered) "/" = false →
  faces_db (fs w) = Some es →
  store_writable (Py.strip entered +:+ ".jpg") = true →
  (Py.strip entered +:+ ".jpg" ∈ es.*1 →
     jpg_files (fs (add_face entered true (Frame img) w).2) = jpg_files (fs w))
  ∧ (Py.strip entered +:+ ".jpg" ∉ es.*1 →
     jpg_files (fs (add_face entered true (Frame img) w).2)
     ≡ₚ jpg_files (fs w) ++ [Py.strip entered +:+ ".jpg"]).
Proof.
  intros Hne Hsep Hes Hw.
  rewrite (add_face_stores entered img w es Hne Hsep Hes Hw).
  unfold jpg_files, store_entries, fs_listdir. rewrite resolve_DB_PATH, Hes. simpl.
  split; intros Hin.
  - rewrite dir_put_old by done. by rewrite dir_replace_names.
  - etransitivity.
    { apply filter_Permutation, fmap_Permutation.
      apply (dir_put_new _ (Jpeg img) es Hin). }
    rewrite fmap_app, List.filter_app. simpl.
    assert (Py.endswith (Py.strip entered +:+ ".jpg") ".jpg" = true) as ->; [|done].
    apply endswith_stem. by eexists.
Qed.

(** What the sidebar shows after a registration under a name without
    separator that is not made of dots alone, where the image can be
    written: a name already registered leaves the count and the list of
    users as they were; a new name adds one to the count, and the list of
    users is the list before with the name added, at the place the listing
    of the directory gives the new file. *)
Theorem registration_counts {OS : Environment} entered img w es :
  Py.contains (Py.strip entered) "/" = false →
  Py.all_are "." (Py.strip entered) = false →
  faces_db (fs w) = Some es →
  store_writable (Py.strip entered +:+ ".jpg") = true →
  (Py.strip entered +:+ ".jpg" ∈ es.*1 →
     face_count (fs (add_face entered true (Frame img) w).2) = face_count (fs w)
     ∧ registered_users (fs (add_face entered true (Frame img) w).2)
       = registered_users (fs w))
  ∧ (Py.strip entered +:+ ".jpg" ∉ es.*1 →
     face_count (fs (add_face entered true (Frame img) w).2) = S (face_count (fs w))
     ∧ registered_users (fs (add_face entered true (Frame img) w).2)
       ≡ₚ registered_users (fs w) ++ [Py.strip entered]).
Proof.
  intros Hsep Hdots Hes Hw.
  assert (Py.strip entered ≠ "") as Hne by (intros E; by rewrite E in Hdots).
  destruct (jpg_files_registered entered img w es Hne Hsep Hes Hw) as [Hold Hnew].
  unfold face_count, registered_users.
  split; intros Hin.
  - by rewrite (Hold Hin).
  - split.
    + rewrite (Permutation_length (Hnew Hin)), length_app. simpl. lia.
    + etransitivity; [apply Permutation_map, (Hnew Hin)|].
      rewrite map_app. simpl. by rewrite splitext_jpg.
Qed.

(** ** More on the session controller *)

(** Past the check for registered faces. *)
Ltac pass_guard w es Hes :=
  unfold webcam_verification;
  rewrite (bind_Return _ _ _ _ _ (os_path_exists_DB w es Hes));
  cbv beta iota;
  rewrite (bind_Return _ _ _ _ _
             (bind_Return _ _ _ _ _ (os_listdir_DB w es Hes)));
  rewrite bool_decide_eq_false_2 by (by destruct (List.filter _ (es.*1))).

(** Stepping through the session dict. *)
Ltac run_session :=
  unfold mbind, M_bind, get_session, set_frame, set_verification_done,
    set_last_capture_time, put_session, st_rerun, raise, st, modify,
    cv2_VideoCapture, mbind, M_bind, get_session;
  repeat (simpl; rewrite ?lookup_insert_eq).

(** Without a registered face [webcam_verification] shows a warning and
    does nothing else, whatever button was pressed: no camera access, no
    session created or changed, nothing written. *)
Theorem webcam_no_registered_faces DeepFace check_type clicked cam now w :
  jpg_files (fs w) = [] →
  webcam_verification DeepFace check_type clicked cam now w
  = (Return tt, add_notice (warning, No_registered_faces_found) w).
Proof.
  intros Hnone. unfold jpg_files, store_entries, fs_listdir in Hnone.
  rewrite resolve_DB_PATH in Hnone. unfold webcam_verification.
  destruct (faces_db (fs w)) as [es|] eqn:Hes; simpl in Hnone.
  - rewrite (bind_Return _ _ _ _ _ (os_path_exists_DB w es Hes)).
    cbv beta iota.
    rewrite (bind_Return _ _ _ _ _
               (bind_Return _ _ _ _ _ (os_listdir_DB w es Hes))).
    by rewrite Hnone.
  - unfold mbind, M_bind, os_path_exists, fs_exists.
    rewrite resolve_DB_PATH, Hes. reflexivity.
Qed.

(** A capture for which the camera gives a frame puts the session into
    the state "frame captured": the frame held, verification-done False,
    the capture time set; whatever the session was before.  The camera was
    asked once and no file was touched. *)
Theorem webcam_capture DeepFace check_type img now w :
  jpg_files (fs w) ≠ [] →
  ∃ w',
    webcam_verification DeepFace check_type (Some Capture_Frame) (Frame img) now w
      = (Return tt, w')
    ∧ verification (session_state w') !! session_key check_type
      = Some {| frame := Some img; verification_done := false;
                last_capture_time := Some now |}
    ∧ camera_opened w' = S (camera_opened w)
    ∧ fs w' = fs w.
Proof.
  intros Hreg. destruct (registered_faces w Hreg) as (es & Hes & Hjpg).
  pass_guard w es Hes. run_session.
  destruct (verification (session_state w) !! session_key check_type) as [s|] eqn:Hs;
    run_session; rewrite ?Hs; run_session;
    (eexists; split; [reflexivity|]); run_session; done.
Qed.

(** A capture for which the camera fails leaves the session as it was (a
    fresh one if there was none): no frame is gained or lost.  The camera
    was asked once and an error is shown. *)
Theorem webcam_capture_fails DeepFace check_type cam now w :
  jpg_files (fs w) ≠ [] → cam = NotOpened ∨ cam = NoFrame →
  ∃ w' t,
    webcam_verification DeepFace check_type (Some Capture_Frame) cam now w
      = (Return tt, w')
    ∧ verification (session_state w') !! session_key check_type
      = Some (default new_session
                (verification (session_state w) !! session_key check_type))
    ∧ camera_opened w' = S (camera_opened w)
    ∧ fs w' = fs w
    ∧ notices w' = notices w ++ [(error, t)].
Proof.
  intros Hreg Hcam. destruct (registered_faces w Hreg) as (es & Hes & Hjpg).
  pass_guard w es Hes. run_session.
  destruct Hcam as [-> | ->];
    destruct (verification (session_state w) !! session_key check_type) as [s|] eqn:Hs;
    run_session; rewrite ?Hs; run_session;
    (eexists _, _; split; [reflexivity|]); run_session; rewrite ?Hs; done.
Qed.

(** "Start New" in a session whose verification is done clears the
    session (frame, flag and capture time) and reruns the script. *)
Theorem webcam_start_new DeepFace check_type cam now w s img :
  verification (session_state w) !! session_key check_type = Some s →
  frame s = Some img → verification_done s = true →
  jpg_files (fs w) ≠ [] →
  ∃ w',
    webcam_verification DeepFace check_type (Some Start_New) cam now w
      = (Raise RerunException, w')
    ∧ verification (session_state w') !! session_key check_type = Some new_session
    ∧ camera_opened w' = camera_opened w
    ∧ fs w' = fs w.
Proof.
  intros Hs Hframe Hdone Hreg. destruct (registered_faces w Hreg) as (es & Hes & Hjpg).
  pass_guard w es Hes. run_session. rewrite Hs. run_session.
  rewrite Hs, Hframe. run_session.
  destruct (last_capture_time s) as [t|] eqn:Ht; run_session;
    rewrite Hs, Hdone; run_session;
    (eexists; split; [reflexivity|]); run_session; done.
Qed.

(** "Start New" does nothing to a session that holds no frame or whose
    verification is not done (the button is not on the page then). *)
Theorem webcam_start_new_ignored DeepFace check_type cam now w s :
  verification (session_state w) !! session_key check_type = Some s →
  frame s = None ∨ verification_done s = false →
  jpg_files (fs w) ≠ [] →
  ∃ w',
    webcam_verification DeepFace check_type (Some Start_New) cam now w
      = (Return tt, w')
    ∧ session_state w' = session_state w
    ∧ camera_opened w' = camera_opened w
    ∧ fs w' = fs w.
Proof.
  intros Hs Hcase Hreg. destruct (registered_faces w Hreg) as (es & Hes & Hjpg).
  pass_guard w es Hes. run_session. rewrite Hs. run_session. rewrite Hs.
  destruct (frame s) as [img|] eqn:Hframe; run_session.
  - destruct Hcase as [|Hdone]; [done|].
    destruct (last_capture_time s) as [t|] eqn:Ht; run_session;
      rewrite Hs, Hdone; run_session;
      (eexists; split; [reflexivity|]); done.
  - eexists; split; [reflexivity|]; done.
Qed.

(** A run of "Verify" on a held frame, by what its [try] statement ends
    in. *)
Lemma webcam_verify_run DeepFace check_type cam now w s img w' s' :
  verification (session_state w) !! session_key check_type = Some s →
  frame s = Some img → jpg_files (fs w) ≠ [] →
  verify_body DeepFace check_type now img (session_key check_type) (after_info s w)
    = (Return tt, w') →
  verification (session_state w') !! session_key check_type = Some s' →
  webcam_verification DeepFace check_type (Some Verify_and) cam now w = (Return tt, w').
Proof.
  intros Hs Hframe Hreg Hbody Hs'.
  destruct (registered_faces w Hreg) as (es & Hes & Hjpg).
  pass_guard w es Hes.
  cbv beta iota zeta.
  unfold mbind at 1. unfold M_bind at 1.
  rewrite bool_decide_eq_true_2 by (rewrite Hs; eauto).
  unfold mbind at 1. unfold M_bind at 1. unfold mret at 1. unfold M_ret at 1.
  unfold mbind at 1. unfold M_bind at 1. unfold mret at 1. unfold M_ret at 1.
  cbv beta iota delta [negb].
  assert (get_session (session_key check_type) w = (Return s, w)) as Hget
    by (unfold get_session; by rewrite Hs).
  rewrite (bind_Return _ _ _ _ _ Hget). rewrite Hframe.
  assert ((if last_capture_time s is Some t
           then st info (Frame_captured_at t) else mret tt) w
          = (Return tt, after_info s w)) as Hinfo
    by (unfold after_info; by destruct (last_capture_time s)).
  rewrite (bind_Return _ _ _ _ _ Hinfo).
  unfold verify_body in Hbody.
  rewrite (bind_Return _ _ _ _ _ Hbody).
  unfold mbind at 1. unfold M_bind at 1. unfold mret at 1. unfold M_ret at 1.
  assert (get_session (session_key check_type) w' = (Return s', w')) as Hget'
    by (unfold get_session; by rewrite Hs').
  rewrite (bind_Return _ _ _ _ _ Hget'). by destruct (verification_done s').
Qed.

Lemma after_info_fs s w : fs (after_info s w) = fs w.
Proof. unfold after_info. by destruct (last_capture_time s). Qed.

Lemma after_info_session s w : session_state (after_info s w) = session_state w.
Proof. unfold after_info. by destruct (last_capture_time s). Qed.

(** [recognize_face] leaves the ledger file and the write permissions as
    they are. *)
Lemma recognize_face_files DeepFace frame w :
  ledger_file (recognize_face DeepFace frame w).2 = ledger_file w
  ∧ read_only (fs (recognize_face DeepFace frame w).2) = read_only (fs w).
Proof.
  destruct (decide (store_entries (fs w) = [])) as [Hnil|Hne].
  - by rewrite (recognize_face_nothing DeepFace frame w Hnil).
  - destruct (store_entries_nonempty _ Hne) as (es & Hes & Hne' & _).
    rewrite (recognize_face_eq DeepFace frame w es Hes Hne').
    destruct (scan_total DeepFace (jpg_files (fs w))
                (set_fs (with_candidate frame (fs w)) w))
      as (r & w' & k & -> & _).
    unfold ledger_file. simpl. split; [|done]. by rewrite lookup_delete_ne.
Qed.

(** The verifier as "Verify" runs it, in terms of the world at the start
    of the run. *)
Lemma verify_recognize DeepFace img s w :
  ∃ w1,
    recognize_face DeepFace img (after_info s w)
      = ((recognize_face DeepFace img w).1, w1)
    ∧ session_state w1 = session_state w
    ∧ ledger_file w1 = ledger_file w
    ∧ read_only (fs w1) = read_only (fs w)
    ∧ camera_opened w1 = camera_opened w.
Proof.
  destruct (recognize_face_local DeepFace img (after_info s w) w (after_info_fs s w))
    as [Hr _].
  pose proof (keeps_session_recognize_face DeepFace img (after_info s w)) as Hss.
  destruct (recognize_face_files DeepFace img (after_info s w)) as [Hfile Hro].
  assert (camera_opened (recognize_face DeepFace img (after_info s w)).2
          = camera_opened w) as Hcam.
  { destruct (decide (store_entries (fs (after_info s w)) = [])) as [Hnil|Hne].
    - rewrite (recognize_face_nothing DeepFace img _ Hnil).
      unfold after_info. by destruct (last_capture_time s).
    - destruct (store_entries_nonempty _ Hne) as (es & Hes & Hne' & _).
      rewrite (recognize_face_eq DeepFace img _ es Hes Hne').
      destruct (scan_total DeepFace (jpg_files (fs (after_info s w)))
                  (set_fs (with_candidate img (fs (after_info s w))) (after_info s w)))
        as (r & w' & k & -> & _ & _ & Hcam & _).
      simpl in *. rewrite Hcam. unfold after_info. by destruct (last_capture_time s). }
  destruct (recognize_face DeepFace img (after_info s w)) as [r1 w1].
  simpl in *. exists w1. rewrite Hr, Hss, after_info_session, Hfile, Hro, after_info_fs.
  unfold ledger_file. by rewrite after_info_fs.
Qed.

(** "Verify" on a frame nobody is recognised in: the failure is shown;
    the session (frame, flag, capture time) and the ledger file are as
    before, so the operator can verify again or recapture. *)
Theorem webcam_verify_no_match DeepFace check_type cam now w s img :
  verification (session_state w) !! session_key check_type = Some s →
  frame s = Some img → jpg_files (fs w) ≠ [] →
  (recognize_face DeepFace img w).1 = Return None →
  ∃ w',
    webcam_verification DeepFace check_type (Some Verify_and) cam now w
      = (Return tt, w')
    ∧ session_state w' = session_state w
    ∧ ledger_file w' = ledger_file w
    ∧ camera_opened w' = camera_opened w
    ∧ (error, Face_not_recognized) ∈ notices w'.
Proof.
  intros Hs Hframe Hreg Hnone.
  destruct (verify_recognize DeepFace img s w) as (w1 & Hrec & Hss & Hfile & _ & Hcam).
  rewrite Hnone in Hrec.
  set (w' := add_notice (warning, Please_try_the_following)
               (add_notice (error, Face_not_recognized) w1)).
  exists w'. split.
  - apply (webcam_verify_run DeepFace check_type cam now w s img w' s Hs Hframe Hreg).
    + unfold verify_body. apply try_except_Return.
      by rewrite (bind_Return _ _ _ _ _ Hrec).
    + simpl. by rewrite Hss.
  - simpl. split; [done|]. split; [done|]. split; [done|].
    rewrite !elem_of_app. left. right. left.
Qed.

Lemma load_by_ledger_file w1 w2 :
  ledger_file w1 = ledger_file w2 →
  (load_attendance_data w1).1 = (load_attendance_data w2).1.
Proof. intros H. by rewrite !load_attendance_data_eq, H. Qed.

(** "Verify" on a recognised face, with a well-formed ledger file that can
    be written: the session is marked done, keeping its frame and capture
    time, and the ledger gains one row, the name recognised with the check
    type and the time of the run, after the rows it had. *)
Theorem webcam_verify_logs DeepFace check_type cam now w s img name c :
  verification (session_state w) !! session_key check_type = Some s →
  frame s = Some img →
  (recognize_face DeepFace img w).1 = Return (Some name) →
  ledger_file w = Some c → well_formed c = true →
  JSON_FILE ∉ read_only (fs w) →
  ∃ w' df0 df1,
    webcam_verification DeepFace check_type (Some Verify_and) cam now w
      = (Return tt, w')
    ∧ verification (session_state w') !! session_key check_type
      = Some {| frame := Some img; verification_done := true;
                last_capture_time := last_capture_time s |}
    ∧ load_attendance_data w = (Return df0, w)
    ∧ load_attendance_data w' = (Return df1, w')
    ∧ ledger_rows df1 = ledger_rows df0 ++ [check_view (name, check_type, now)].
Proof.
  intros Hs Hframe Hname Hc Hwf Hrw.
  pose proof (recognize_face_Some _ _ _ _ Hname) as Hreg.
  pose proof (recognized_name_truthy _ _ _ _ Hname) as Htruthy.
  destruct (verify_recognize DeepFace img s w) as (w1 & Hrec & Hss & Hfile & Hro & _).
  rewrite Hname in Hrec.
  set (w2 := add_notice (success, Welcome name)
               (add_notice (success, Face_verified_successfully) w1)).
  assert (ledger_file w2 = Some c) as Hc2 by (by rewrite <- Hc, <- Hfile).
  assert (JSON_FILE ∉ read_only (fs w2)) as Hrw2 by (simpl; by rewrite Hro).
  destruct (log_check_step w2 c name check_type now Hc2 Hwf Hrw2)
    as (ds & ds' & w3 & Hds & Hds' & Hload2 & Hlog & Hfile3 & _ & _ & Hview).
  pose proof (keeps_session_log_check name check_type now w2) as Hss3.
  rewrite Hlog in Hss3. simpl in Hss3.
  assert (verification (session_state w3) !! session_key check_type = Some s) as Hs3
    by (by rewrite Hss3, Hss).
  set (s' := {| frame := frame s; verification_done := true;
                last_capture_time := last_capture_time s |}).
  set (w' := (put_session (session_key check_type) s' w3).2).
  assert (ledger_file w' = ledger_file w3) as Hfile' by done.
  exists w', (from_records ds), (from_records ds').
  split; [|split; [|split; [|split]]].
  - apply (webcam_verify_run DeepFace check_type cam now w s img w' s' Hs Hframe Hreg).
    + unfold verify_body. apply try_except_Return.
      rewrite (bind_Return _ _ _ _ _ Hrec). simpl in Htruthy. simpl.
      rewrite Htruthy. unfold mbind, M_bind, st, modify. fold w2. rewrite Hlog.
      unfold set_verification_done, mbind, M_bind, get_session. by rewrite Hs3.
    + subst w'. simpl. by rewrite lookup_insert_eq.
  - subst w' s'. simpl. by rewrite lookup_insert_eq, Hframe.
  - pose proof (load_by_ledger_file w w2) as Hl. rewrite Hload2 in Hl.
    rewrite load_attendance_data_eq in *. simpl in Hl. rewrite Hl; [done|].
    by rewrite Hc, Hc2.
  - apply load_records. by rewrite Hfile'.
  - by rewrite !ledger_rows_from_records.
Qed.

Lemma load_raises_Exception w e :
  (load_attendance_data w).1 = Raise e → is_Exception e = true.
Proof.
  rewrite load_attendance_data_eq. simpl.
  destruct (ledger_file w) as [[raw|v|img]|]; try done; [|by intros [= <-]].
  destruct v as [|b|n| |s|l|kv]; simpl; try done; try (by intros [= <-]).
  - by destruct (mapM dict_of_json l).
  - destruct kv; [done|]. destruct (forallb is_scalar _); [|done]. by intros [= <-].
Qed.

(** "Verify" on a recognised face when reading the ledger raises (a file
    of valid JSON that is no table of records): the exception is caught,
    shown as a failed verification, and the run returns; the session is not
    marked done and the ledger file is as it was. *)
Theorem webcam_verify_ledger_unreadable DeepFace check_type cam now w s img name e :
  verification (session_state w) !! session_key check_type = Some s →
  frame s = Some img →
  (recognize_face DeepFace img w).1 = Return (Some name) →
  (load_attendance_data w).1 = Raise e →
  ∃ w',
    webcam_verification DeepFace check_type (Some Verify_and) cam now w
      = (Return tt, w')
    ∧ session_state w' = session_state w
    ∧ ledger_file w' = ledger_file w
    ∧ (error, Verification_failed e) ∈ notices w'.
Proof.
  intros Hs Hframe Hname Hload.
  pose proof (recognize_face_Some _ _ _ _ Hname) as Hreg.
  pose proof (recognized_name_truthy _ _ _ _ Hname) as Htruthy.
  pose proof (load_raises_Exception w e Hload) as Hexn.
  destruct (verify_recognize DeepFace img s w) as (w1 & Hrec & Hss & Hfile & _).
  rewrite Hname in Hrec.
  set (w2 := add_notice (success, Welcome name)
               (add_notice (success, Face_verified_successfully) w1)).
  assert ((load_attendance_data w2).1 = Raise e) as Hload2.
  { rewrite <- Hload. apply load_by_ledger_file. by rewrite <- Hfile. }
  set (w' := add_notice (error, Verification_failed e) w2).
  exists w'. split.
  - apply (webcam_verify_run DeepFace check_type cam now w s img w' s Hs Hframe Hreg).
    + unfold verify_body, try_except.
      rewrite (bind_Return _ _ _ _ _ Hrec). simpl in Htruthy. simpl.
      rewrite Htruthy. unfold mbind, M_bind, st, modify. fold w2.
      rewrite (log_check_raises name check_type now e w2 Hload2).
      by rewrite Hexn.
    + simpl. by rewrite Hss.
  - simpl. split; [done|]. split; [done|]. apply elem_of_app. right. left.
Qed.

(** ** Sessions side by side *)

Lemma preserved_other_put key key' v s :
  key' ≠ key →
  preserved (fun w => verification (session_state w) !! key' = v) (put_session key s).
Proof. intros Hne w H. simpl. by rewrite lookup_insert_ne. Qed.

Lemma preserved_other_set_frame key key' v x :
  key' ≠ key →
  preserved (fun w => verification (session_state w) !! key' = v) (set_frame key x).
Proof.
  intros Hne w H. unfold set_frame, mbind, M_bind, get_session.
  destruct (_ !! key); [|done]. simpl. by rewrite lookup_insert_ne.
Qed.

Lemma preserved_other_set_done key key' v x :
  key' ≠ key →
  preserved (fun w => verification (session_state w) !! key' = v)
    (set_verification_done key x).
Proof.
  intros Hne w H. unfold set_verification_done, mbind, M_bind, get_session.
  destruct (_ !! key); [|done]. simpl. by rewrite lookup_insert_ne.
Qed.

Lemma preserved_other_set_time key key' v x :
  key' ≠ key →
  preserved (fun w => verification (session_state w) !! key' = v)
    (set_last_capture_time key x).
Proof.
  intros Hne w H. unfold set_last_capture_time, mbind, M_bind, get_session.
  destruct (_ !! key); [|done]. simpl. by rewrite lookup_insert_ne.
Qed.

(** One step through a computation that is to keep the session of
    another key. *)
Ltac other_step Hne :=
  first
    [ apply preserved_other_set_done; exact Hne
    | apply preserved_other_set_time; exact Hne
    | apply preserved_other_set_frame; exact Hne
    | apply preserved_other_put; exact Hne
    | apply keeps_session_preserved;
        [ solve [auto using keeps_session_recognize_face,
                   keeps_session_log_check with keeps]
        | by intros ?? -> ]
    | apply preserved_ret
    | apply preserved_raise
    | apply preserved_try_except; [|intros ?]
    | apply preserved_bind; [|intros ?]
    | match goal with
      | |- preserved _ (if ?b then _ else _) => destruct b
      | |- preserved _ (match ?x with _ => _ end) => destruct x
      end ].

(** The sessions of the check types are independent: a run of
    [webcam_verification] for one check type leaves the session under any
    other key as it is. *)
Theorem webcam_sessions_independent DeepFace check_type other clicked cam now w :
  session_key other ≠ session_key check_type →
  verification
    (session_state (webcam_verification DeepFace check_type clicked cam now w).2)
    !! session_key other
  = verification (session_state w) !! session_key other.
Proof.
  intros Hne.
  assert (preserved
            (fun w' => verification (session_state w') !! session_key other
                       = verification (session_state w) !! session_key other)
            (webcam_verification DeepFace check_type clicked cam now)) as H.
  { unfold webcam_verification, st_rerun.
    destruct clicked as [[]|], cam; repeat other_step Hne.
    all: try by intros w' H. }
  by apply H.
Qed.

(** ** What escapes a run *)

Lemma quiet_ret {A} I (a : A) : quiet I (mret a).
Proof. intros w H. split; [done|]. left. by exists a. Qed.

Lemma quiet_bind {A B} I (m : M A) (f : A → M B) :
  quiet I m → (∀ a, quiet I (f a)) → quiet I (m ≫= f).
Proof.
  intros Hm Hf w H. unfold mbind, M_bind.
  destruct (Hm w H) as [HI [[a Ha]|He]]; destruct (m w) as [o w']; simpl in *; subst.
  - by apply Hf.
  - split; [done|]. by right.
Qed.

Lemma quiet_modelled {A} I (m : M A) : quiet I m → modelled I m.
Proof.
  intros Hm w H. destruct (Hm w H) as [HI [[a Ha]|He]]; split; try done.
  - by rewrite Ha.
  - by rewrite He.
Qed.

Lemma modelled_ret {A} I (a : A) : modelled I (mret a).
Proof. by intros w H. Qed.

Lemma modelled_bind {A B} I (m : M A) (f : A → M B) :
  modelled I m → (∀ a, modelled I (f a)) → modelled I (m ≫= f).
Proof.
  intros Hm Hf w H. unfold mbind, M_bind.
  destruct (Hm w H) as [HI Ho]. destruct (m w) as [[a|e|] w']; simpl in *.
  - by apply Hf.
  - by split.
  - done.
Qed.

(** [try: body / except Exception] lets nothing out but the rerun signal,
    as long as [body] stays within what is modelled. *)
Lemma quiet_try_except {A} I (body : M A) handler :
  modelled I body → (∀ e, quiet I (handler e)) →
  quiet I (try_except body is_Exception handler).
Proof.
  intros Hb Hh w H. unfold try_except.
  destruct (Hb w H) as [HI Ho]. destruct (body w) as [[a|e|] w']; simpl in *.
  - split; [done|]. left. by exists a.
  - destruct e; simpl; try (by apply Hh). split; [done|]. by right.
  - done.
Qed.

Lemma ledger_modelled_fs w w' :
  fs w' = fs w → ledger_modelled w → ledger_modelled w'.
Proof.
  unfold ledger_modelled. intros Hfs H.
  by rewrite (load_by_ledger_file w' w) by (unfold ledger_file; by rewrite Hfs).
Qed.

Lemma has_session_state key w w' :
  session_state w' = session_state w → has_session key w → has_session key w'.
Proof. unfold has_session. by intros ->. Qed.

Lemma ready_notice key n w : ready key w → ready key (add_notice n w).
Proof. intros [Hs Hl]. split; [done | by apply (ledger_modelled_fs w)]. Qed.

Lemma quiet_st key l t : quiet (ready key) (st l t).
Proof.
  intros w H. split; [by apply ready_notice|]. left. by exists tt.
Qed.

Lemma quiet_rerun I : quiet (A := unit) I st_rerun.
Proof. intros w H. split; [done|]. by right. Qed.

Lemma quiet_get_session key : quiet (ready key) (get_session key).
Proof.
  intros w [[s Hs] Hl]. unfold get_session. rewrite Hs.
  split; [split; [by exists s | done]|]. left. by exists s.
Qed.

Lemma quiet_put_session key s : quiet (ready key) (put_session key s).
Proof.
  intros w [Hs Hl]. split; [|left; by exists tt]. split.
  - unfold has_session. simpl. rewrite lookup_insert_eq. by eexists.
  - by apply (ledger_modelled_fs w).
Qed.

Lemma quiet_set_frame key v : quiet (ready key) (set_frame key v).
Proof.
  unfold set_frame. apply quiet_bind; [apply quiet_get_session|].
  intros s. apply quiet_put_session.
Qed.

Lemma quiet_set_done key v : quiet (ready key) (set_verification_done key v).
Proof.
  unfold set_verification_done. apply quiet_bind; [apply quiet_get_session|].
  intros s. apply quiet_put_session.
Qed.

Lemma quiet_set_time key v : quiet (ready key) (set_last_capture_time key v).
Proof.
  unfold set_last_capture_time. apply quiet_bind; [apply quiet_get_session|].
  intros s. apply quiet_put_session.
Qed.

Lemma quiet_VideoCapture key : quiet (ready key) cv2_VideoCapture.
Proof.
  intros w [Hs Hl]. split; [|left; by exists tt].
  split; [done | by apply (ledger_modelled_fs w)].
Qed.

(** [recognize_face] ends in a value or in the OSError of [os.remove], and
    leaves the session dicts and the ledger file as they are, in any
    environment. *)
Lemma modelled_recognize_face {OS : Environment} DeepFace frame key :
  modelled (ready key) (recognize_face DeepFace frame).
Proof.
  intros w [Hs Hl].
  destruct (decide (store_entries (fs w) = [])) as [Hnil|Hne].
  { rewrite (recognize_face_nothing DeepFace frame w Hnil). by split. }
  destruct (store_entries_nonempty _ Hne) as (es & Hes & Hne' & _).
  destruct (recognize_face_ends DeepFace frame w es Hes Hne')
    as (r & w1 & w' & _ & Hrun & Hss & _ & _ & _ & Hcwd).
  assert (ready key w') as Hready.
  { split; [by apply (has_session_state key w)|].
    unfold ledger_modelled.
    rewrite (load_by_ledger_file w' w); [done|].
    unfold ledger_file. by apply Hcwd. }
  destruct Hrun as [-> | [-> _]]; by split.
Qed.

(** [log_check] stays within what is modelled when the ledger file is,
    and leaves a ledger file that is. *)
Lemma modelled_log_check {OS : Environment} name check_type now key :
  modelled (ready key) (log_check name check_type now).
Proof.
  intros w [Hs Hl]. split; [split|].
  - apply (has_session_state key w); [|done]. apply keeps_session_log_check.
  - unfold ledger_modelled in *.
    pose proof (load_attendance_data_eq w) as Hload.
    destruct (load_attendance_data w) as [[df|e|] w0] eqn:E; simpl in Hl; [| |done];
      injection Hload as Ho ->.
    + destruct (decide (JSON_FILE ∈ read_only (fs w))) as [Hro|Hrw].
      * rewrite (log_check_fails name check_type now df w E Hro). simpl snd.
        rewrite (load_by_ledger_file _ w) by done. by rewrite E.
      * rewrite (log_check_ok name check_type now df w E Hrw). simpl snd.
        rewrite load_attendance_data_eq, ledger_file_written. simpl.
        by rewrite mapM_dict_of_json_of_dict.
    + unfold log_check, mbind, M_bind. rewrite E. simpl. by rewrite E.
  - rewrite log_check_outcome. unfold ledger_modelled in Hl.
    by destruct (load_attendance_data w).1.
Qed.

(** The [try] statement of "Verify" stays within what is modelled. *)
Lemma modelled_verify_body {OS : Environment} DeepFace check_type now img key :
  modelled (ready key)
    (name ← recognize_face DeepFace img;
     if Py.truthy_opt name then
       st success Face_verified_successfully;;
       st success (Welcome (default "" name));;
       logged ← log_check (default "" name) check_type now;
       if (logged : bool)
       then set_verification_done key true
       else mret tt
     else
       st error Face_not_recognized;;
       st warning Please_try_the_following).
Proof.
  repeat first
    [ apply modelled_recognize_face
    | apply modelled_log_check
    | apply quiet_modelled, quiet_set_done
    | apply quiet_modelled, quiet_st
    | apply modelled_ret
    | apply modelled_bind; [|intros ?]
    | match goal with
      | |- modelled _ (if ?b then _ else _) => destruct b
      end ].
Qed.

(** One step through a computation that is to be quiet. *)
Ltac quiet_step :=
  first
    [ apply quiet_set_done
    | apply quiet_set_time
    | apply quiet_set_frame
    | apply quiet_put_session
    | apply quiet_get_session
    | apply quiet_VideoCapture
    | apply quiet_rerun
    | apply quiet_st
    | apply quiet_ret
    | apply quiet_try_except;
        [ apply modelled_verify_body | intros ? ]
    | apply quiet_bind; [|intros ?]
    | match goal with
      | |- quiet _ (if ?b then _ else _) => destruct b
      | |- quiet _ (match ?x with _ => _ end) => destruct x
      end ].

(** Nothing escapes [webcam_verification] but the rerun signal.  In any
    environment, whatever the button, the camera, the oracle and the
    session state, and with a ledger file whose reading is modelled, the
    run either returns or raises Streamlit's rerun: no KeyError of the
    session dict, no exception of the oracle, of the ledger or of
    [os.remove] reaches the script. *)
Theorem webcam_raises_only_rerun {OS : Environment} DeepFace check_type clicked
    cam now w :
  (load_attendance_data w).1 ≠ Unmodelled →
  (webcam_verification DeepFace check_type clicked cam now w).1 = Return tt
  ∨ (webcam_verification DeepFace check_type clicked cam now w).1
    = Raise RerunException.
Proof.
  intros Hl.
  cut (∃ o, (webcam_verification DeepFace check_type clicked cam now w).1 = o
            ∧ (o = Return tt ∨ o = Raise RerunException)).
  { intros (o & -> & H). exact H. }
  unfold webcam_verification.
  destruct (faces_db (fs w)) as [es|] eqn:Hes.
  - rewrite (bind_Return _ _ _ _ _ (os_path_exists_DB w es Hes)).
    cbv beta iota.
    rewrite (bind_Return _ _ _ _ _
               (bind_Return _ _ _ _ _ (os_listdir_DB w es Hes))).
    destruct (bool_decide _); [eexists; split; [reflexivity | by left]|].
    cbv zeta. unfold mbind at 1. unfold M_bind at 1.
    set (key := session_key check_type).
    match goal with
    | |- ∃ o, ((?init ≫= ?rest) w).1 = o ∧ _ =>
        assert (quiet (ready key) (rest tt)) as Hrest;
        [ | assert (∃ w0, init w = (Return tt, w0) ∧ ready key w0)
              as (w0 & Hinit & Hkey) ]
    end.
    + destruct clicked as [[]|], cam; cbv beta; repeat quiet_step.
    + unfold ready, has_session.
      destruct (verification (session_state w) !! key) as [s|] eqn:Hs.
      * rewrite bool_decide_eq_true_2 by eauto. exists w. split; [done|].
        rewrite Hs. eauto.
      * rewrite bool_decide_eq_false_2 by (by intros [? ?]).
        eexists. split; [reflexivity|]. simpl. rewrite lookup_insert_eq.
        split; [eauto|]. by apply (ledger_modelled_fs w).
    + rewrite (bind_Return _ _ _ _ _ Hinit).
      eexists. split; [reflexivity|].
      destruct (proj2 (Hrest w0 Hkey)) as [[[] Ha]|He];
        [left; exact Ha | right; exact He].
  - unfold mbind, M_bind, os_path_exists, fs_exists.
    rewrite resolve_DB_PATH, Hes. simpl. eexists. split; [reflexivity | by left].
Qed.

(** ** The attendance log page *)

Example log_page_of_two :
  (display_attendance_log "2024-01-02"
     (ledger_world
        (Some (JsonDoc (JArr
           [JObj [("Name", JStr "Bob"); ("Type", JStr "Check-In");
                  ("Time", JStr "2024-01-01 09:00:00")];
            JObj [("Name", JStr "Bob"); ("Type", JStr "Check-Out");
                  ("Time", JStr "2024-01-02 17:00:00")]]))) ∅)).1
  = Return (Attendance_log 2 1 1
      {| columns := ["Name"; "Type"; "Time"];
         rows := [[Str "Bob"; Str "Check-In"; Str "2024-01-01 09:00:00"];
                  [Str "Bob"; Str "Check-Out"; Str "2024-01-02 17:00:00"]] |}
      (JArr
         [JObj [("Name", JStr "Bob"); ("Type", JStr "Check-In");
                ("Time", JStr "2024-01-01 09:00:00")];
          JObj [("Name", JStr "Bob"); ("Type", JStr "Check-Out");
                ("Time", JStr "2024-01-02 17:00:00")]])).
Proof. reflexivity. Qed.

(** With no ledger file, with one that is not JSON, or with an empty
    array in it, the page says that there are no records, and the world is
    as before. *)
Theorem display_no_records today w :
  ledger_file w = None ∨ (∃ raw, ledger_file w = Some (Garbage raw))
  ∨ ledger_file w = Some (JsonDoc (JArr [])) →
  display_attendance_log today w = (Return No_attendance_records, w).
Proof.
  intros H. unfold display_attendance_log, mbind, M_bind.
  rewrite load_attendance_data_eq.
  by destruct H as [-> | [[raw ->] | ->]].
Qed.

Lemma length_remove_dups_le (l : list string) :
  (length (remove_dups l) ≤ length l)%nat.
Proof.
  induction l as [|x l IH]; simpl; [done|].
  destruct (decide_rel elem_of x l); simpl; lia.
Qed.

Lemma length_strings_of col : (length (strings_of col) ≤ length col)%nat.
Proof.
  induction col as [|[s|] col IH]; simpl; lia.
Qed.

Lemma length_column c df : length (column c df) = length (rows df).
Proof. unfold column, to_dict_records. by rewrite !length_map. Qed.

(** Whenever the page shows metrics, there is at least one record, and
    neither the number of people nor the number of today's records exceeds
    the total; the table is what [load] returned, and the world is as
    before. *)
Theorem display_metrics_bounded today w total people todays table download w' :
  display_attendance_log today w
    = (Return (Attendance_log total people todays table download), w') →
  w' = w
  ∧ load_attendance_data w = (Return table, w)
  ∧ (0 < total ∧ people ≤ total ∧ todays ≤ total)%nat
  ∧ download = JArr (map json_of_dict (to_dict_records table)).
Proof.
  unfold display_attendance_log, mbind, M_bind.
  pose proof (load_attendance_data_eq w) as Hload.
  destruct (load_attendance_data w) as [[df|e|] w0] eqn:E; [|done|done].
  injection Hload as Ho ->.
  destruct (df_empty df) eqn:Hempty; simpl; [done|].
  assert (0 < length (rows df))%nat as Hpos.
  { unfold df_empty in Hempty. destruct (columns df), (rows df); simpl; try done; lia. }
  assert ((if mem "Name" (columns df) then nunique (column "Name" df) else 0)
          ≤ length (rows df))%nat as Hpeople.
  { destruct (mem "Name" (columns df)); [|lia]. unfold nunique.
    etransitivity; [apply length_remove_dups_le|].
    etransitivity; [apply length_strings_of|]. by rewrite length_column. }
  destruct (mem "Time" (columns df)); simpl.
  - unfold lift, startswith_count.
    destruct (forallb is_Str (column "Time" df)); [|done].
    intros [= <- <- <- <- <- <-]. repeat split; try done.
    etransitivity; [apply List.filter_length_le|].
    etransitivity; [apply length_strings_of|]. by rewrite length_column.
  - intros [= <- <- <- <- <- <-]. repeat split; try done. lia.
Qed.

Lemma column_Time df :
  column "Time" df = map (fun v => default NaN v.2) (ledger_rows df).
Proof. unfold column, ledger_rows. by rewrite map_map. Qed.

Lemma strings_of_app a b : strings_of (a ++ b) = strings_of a ++ strings_of b.
Proof.
  induction a as [|[s|] a IH]; simpl; [done| |done]. by rewrite IH.
Qed.

Lemma record_view_Str d :
  record_dict d = true →
  ∃ a b c, record_view d = (Some (Str a), Some (Str b), Some (Str c)).
Proof.
  intros Hd. apply record_dict_spec in Hd as [Hk Hv].
  assert (∀ c, c ∈ ledger_columns → ∃ s, dict_get c d = Some (Str s)) as Hget.
  { intros c Hc. rewrite <- Hk in Hc.
    destruct (dict_get_elem c d Hc) as (v & Hv' & Hin).
    rewrite Forall_forall in Hv. specialize (Hv v Hin).
    destruct v as [s|]; [by exists s|done]. }
  unfold record_view.
  destruct (Hget "Name") as [a ->]; [unfold ledger_columns; set_solver|].
  destruct (Hget "Type") as [b ->]; [unfold ledger_columns; set_solver|].
  destruct (Hget "Time") as [c ->]; [unfold ledger_columns; set_solver|].
  by exists a, b, c.
Qed.

Lemma length_rows_from_records ds : length (rows (from_records ds)) = length ds.
Proof. simpl. by rewrite length_map. Qed.

(** The page after a check: in a well-formed ledger file that can be
    written, one logged check raises "Total Records" by one, and "Today's
    Records" by one if the time of the check starts with today's date (by
    none otherwise). *)
Theorem display_after_check today name check_type now w c :
  ledger_file w = Some c → well_formed c = true →
  JSON_FILE ∉ read_only (fs w) →
  ∃ df0 people table download,
    load_attendance_data w = (Return df0, w)
    ∧ display_attendance_log today (log_check name check_type now w).2
      = (Return
           (Attendance_log
              (S (length (rows df0)))
              people
              (length (List.filter (fun s => Py.startswith s today)
                         (strings_of (column "Time" df0)))
               + (if Py.startswith now today then 1 else 0))%nat
              table download),
         (log_check name check_type now w).2).
Proof.
  intros Hc Hwf Hrw.
  destruct (log_check_step w c name check_type now Hc Hwf Hrw)
    as (ds & ds' & w1 & Hds & Hds' & Hload & Hlog & Hfile & _ & _ & Hview).
  rewrite Hlog. simpl.
  exists (from_records ds). do 3 eexists. split; [exact Hload|].
  unfold display_attendance_log.
  rewrite (bind_Return _ _ _ _ _ (load_records w1 ds' Hfile)).
  assert (ds' ≠ []) as Hne.
  { intros ->. simpl in Hview. by destruct (map record_view ds). }
  pose proof (columns_of_ledger _ Hds') as Hcols.
  assert (columns (from_records ds') = columns_of ds') as Hcolumns.
  { rewrite (from_records_of_records _ Hds'). by destruct ds'. }
  assert (df_empty (from_records ds') = false) as ->.
  { unfold df_empty. rewrite Hcolumns. simpl rows.
    destruct (columns_of ds') eqn:E.
    - apply Permutation_nil_l in Hcols. discriminate.
    - by destruct ds'. }
  simpl negb. cbv iota. rewrite Hcolumns.
  assert (mem "Time" (columns_of ds') = true) as ->
    by (apply mem_elem_of; rewrite Hcols; unfold ledger_columns; set_solver).
  assert (column "Time" (from_records ds')
          = column "Time" (from_records ds) ++ [Str now]) as Htime.
  { rewrite !column_Time, !ledger_rows_from_records, Hview by done.
    by rewrite map_app. }
  assert (forallb is_Str (column "Time" (from_records ds')) = true) as Hstr.
  { rewrite column_Time, ledger_rows_from_records by done.
    apply forallb_forall. intros x Hx.
    apply in_map_iff in Hx as (v & <- & Hv).
    apply in_map_iff in Hv as (d & <- & Hd).
    rewrite Forall_forall in Hds'.
    destruct (record_view_Str d) as (a & b & t & ->); [|done].
    apply Hds'. by apply list_elem_of_In. }
  assert (length (rows (from_records ds'))
          = S (length (rows (from_records ds)))) as Hlen.
  { rewrite !length_rows_from_records.
    assert (length ds' = length (map record_view ds')) as -> by (by rewrite length_map).
    rewrite Hview, length_app, length_map. simpl. lia. }
  assert (length (List.filter (fun s => Py.startswith s today)
                    (strings_of (column "Time" (from_records ds'))))
          = (length (List.filter (fun s => Py.startswith s today)
                       (strings_of (column "Time" (from_records ds))))
             + (if Py.startswith now today then 1 else 0))%nat) as Hcount.
  { rewrite Htime, strings_of_app, List.filter_app, length_app. simpl.
    by destruct (Py.startswith now today). }
  unfold lift, startswith_count. rewrite Hstr.
  unfold mbind, M_bind, mret, M_ret. rewrite Hlen, Hcount. reflexivity.
Qed.

(** ** The further properties on sample worlds *)

Lemma save_load_round_trip_witness :
  ∃ w', save_attendance_data one_row (ledger_world None ∅) = (Return true, w')
        ∧ load_attendance_data w' = (Return one_row, w').
Proof.
  apply save_load_round_trip.
  - split; [apply NoDup_ledger_columns | by repeat constructor].
  - discriminate.
  - apply not_elem_of_empty.
Defined.

Lemma save_load_no_rows_witness :
  ∃ w', save_attendance_data (empty_frame ledger_columns) (ledger_world None ∅)
          = (Return true, w')
        ∧ load_attendance_data w' = (Return (empty_frame []), w').
Proof.
  apply save_load_no_rows; [reflexivity | apply not_elem_of_empty].
Defined.

Lemma log_check_keeps_well_formed_witness :
  ∃ c',
    ledger_file (log_check "Ann" "Check-Out" "2024-01-01 17:00:00"
                   (ledger_world (Some bob_ledger) ∅)).2 = Some c'
    ∧ well_formed c' = true
    ∧ read_only (fs (log_check "Ann" "Check-Out" "2024-01-01 17:00:00"
                       (ledger_world (Some bob_ledger) ∅)).2)
      = read_only (fs (ledger_world (Some bob_ledger) ∅))
    ∧ faces_db (fs (log_check "Ann" "Check-Out" "2024-01-01 17:00:00"
                      (ledger_world (Some bob_ledger) ∅)).2)
      = faces_db (fs (ledger_world (Some bob_ledger) ∅)).
Proof.
  apply (log_check_keeps_well_formed _ bob_ledger); [reflexivity | reflexivity |].
  apply not_elem_of_empty.
Defined.

Lemma log_checks_append_witness :
  ∃ df0 df1,
    load_attendance_data (ledger_world (Some bob_ledger) ∅)
      = (Return df0, ledger_world (Some bob_ledger) ∅)
    ∧ load_attendance_data (log_checks two_checks (ledger_world (Some bob_ledger) ∅))
      = (Return df1, log_checks two_checks (ledger_world (Some bob_ledger) ∅))
    ∧ ledger_rows df1 = ledger_rows df0 ++ map check_view two_checks.
Proof.
  apply (log_checks_append two_checks _ bob_ledger); [reflexivity | reflexivity |].
  apply not_elem_of_empty.
Defined.

Lemma log_check_write_fails_witness :
  ∃ w',
    log_check "Ann" "Check-Out" "2024-01-01 17:00:00"
      (ledger_world (Some bob_ledger) {[JSON_FILE]}) = (Return false, w')
    ∧ fs w' = fs (ledger_world (Some bob_ledger) {[JSON_FILE]})
    ∧ notices w' = notices (ledger_world (Some bob_ledger) {[JSON_FILE]}) ++
        [(error, Error_saving_JSON OSError);
         (error, Failed_to_record "Check-Out" "Ann")].
Proof.
  eapply log_check_write_fails; [reflexivity|]. simpl. by apply elem_of_singleton_2.
Defined.

Lemma log_check_starts_ledger_witness :
  ∃ w',
    log_check "Ann" "Check-In" "2024-01-01 08:00:00"
      (ledger_world (Some (Garbage "{oops")) ∅) = (Return true, w')
    ∧ ledger_file w'
      = Some (JsonDoc (JArr [JObj [("Name", JStr "Ann"); ("Type", JStr "Check-In");
                                   ("Time", JStr "2024-01-01 08:00:00")]])).
Proof.
  apply log_check_starts_ledger; [|apply not_elem_of_empty].
  right. by exists "{oops".
Defined.


Lemma recognize_face_name_truthy_witness :
  Py.truthy_opt (Some "alice") = true.
Proof.
  apply (recognize_face_name_truthy alice_or_bob [7%N] (store_world three_faces ∅)).
  reflexivity.
Defined.




Lemma add_face_camera_fails_witness :
  ∃ w' t,
    add_face "dave" true NoFrame (store_world three_faces ∅) = (Return tt, w')
    ∧ fs w' = fs (store_world three_faces ∅)
    ∧ camera_opened w' = S (camera_opened (store_world three_faces ∅))
    ∧ capture_face (session_state w') = Some false
    ∧ notices w' = notices (store_world three_faces ∅) ++ [(error, t)].
Proof.
  apply add_face_camera_fails; [vm_compute; discriminate | by right].
Defined.

Lemma add_face_resets_capture_witness :
  ∃ w',
    add_face "dave" true (Frame [5%N]) (store_world three_faces ∅) = (Return tt, w')
    ∧ capture_face (session_state w') = Some false.
Proof. apply add_face_resets_capture. simpl. discriminate. Defined.

(** In a directory that lists its newest entry first: alice is there
    already, dave is new and heads the list. *)
Lemma registration_counts_witness :
  (face_count
     (fs (add_face (OS := newest_first) "alice" true (Frame [5%N])
            (store_world three_faces ∅)).2)
   = face_count (fs (store_world three_faces ∅))
   ∧ registered_users
       (fs (add_face (OS := newest_first) "alice" true (Frame [5%N])
              (store_world three_faces ∅)).2)
     = registered_users (fs (store_world three_faces ∅)))
  ∧ (face_count
       (fs (add_face (OS := newest_first) "dave" true (Frame [5%N])
              (store_world three_faces ∅)).2)
     = S (face_count (fs (store_world three_faces ∅)))
     ∧ registered_users
         (fs (add_face (OS := newest_first) "dave" true (Frame [5%N])
                (store_world three_faces ∅)).2)
       ≡ₚ registered_users (fs (store_world three_faces ∅)) ++ [Py.strip "dave"]).
Proof.
  split.
  - apply (proj1 (registration_counts (OS := newest_first) "alice" [5%N]
                    (store_world three_faces ∅)
                    three_faces eq_refl eq_refl eq_refl eq_refl)).
    apply (bool_decide_unpack _). vm_compute. exact I.
  - apply (proj2 (registration_counts (OS := newest_first) "dave" [5%N]
                    (store_world three_faces ∅)
                    three_faces eq_refl eq_refl eq_refl eq_refl)).
    apply (proj1 (bool_decide_eq_false _)). vm_compute. reflexivity.
Defined.

Example registered_users_newest_first :
  registered_users (fs (store_world three_faces ∅)) = ["carol"; "alice"; "bob"]
  ∧ registered_users
      (fs (add_face (OS := newest_first) "dave" true (Frame [5%N])
             (store_world three_faces ∅)).2)
    = ["dave"; "carol"; "alice"; "bob"]
  ∧ registered_users
      (fs (add_face "dave" true (Frame [5%N]) (store_world three_faces ∅)).2)
    = ["carol"; "alice"; "bob"; "dave"].
Proof. vm_compute. split; [|split]; reflexivity. Qed.

Lemma webcam_no_registered_faces_witness :
  webcam_verification alice_or_bob "Check-In" (Some Capture_Frame) (Frame [9%N])
    "2024-01-01 09:05:00" (store_world [("notes.txt", Garbage "todo")] ∅)
  = (Return tt,
     add_notice (warning, No_registered_faces_found)
       (store_world [("notes.txt", Garbage "todo")] ∅)).
Proof. apply webcam_no_registered_faces. reflexivity. Defined.

Lemma webcam_capture_witness :
  ∃ w',
    webcam_verification alice_or_bob "Check-In" (Some Capture_Frame) (Frame [9%N])
      "2024-01-01 09:05:00" (store_world three_faces ∅)
      = (Return tt, w')
    ∧ verification (session_state w') !! session_key "Check-In"
      = Some {| frame := Some [9%N]; verification_done := false;
                last_capture_time := Some "2024-01-01 09:05:00" |}
    ∧ camera_opened w' = S (camera_opened (store_world three_faces ∅))
    ∧ fs w' = fs (store_world three_faces ∅).
Proof. apply webcam_capture. vm_compute. discriminate. Defined.

Lemma webcam_capture_fails_witness :
  ∃ w' t,
    webcam_verification alice_or_bob "Check-In" (Some Capture_Frame) NoFrame
      "2024-01-01 09:05:00" (session_world "Check-In" captured ∅)
      = (Return tt, w')
    ∧ verification (session_state w') !! session_key "Check-In"
      = Some (default new_session
                (verification (session_state (session_world "Check-In" captured ∅))
                   !! session_key "Check-In"))
    ∧ camera_opened w' = S (camera_opened (session_world "Check-In" captured ∅))
    ∧ fs w' = fs (session_world "Check-In" captured ∅)
    ∧ notices w' = notices (session_world "Check-In" captured ∅) ++ [(error, t)].
Proof.
  apply webcam_capture_fails; [vm_compute; discriminate | by right].
Defined.

Lemma webcam_start_new_witness :
  ∃ w',
    webcam_verification alice_or_bob "Check-In" (Some Start_New) NotOpened
      "2024-01-01 09:05:00" (session_world "Check-In" verified ∅)
      = (Raise RerunException, w')
    ∧ verification (session_state w') !! session_key "Check-In" = Some new_session
    ∧ camera_opened w' = camera_opened (session_world "Check-In" verified ∅)
    ∧ fs w' = fs (session_world "Check-In" verified ∅).
Proof.
  apply (webcam_start_new alice_or_bob "Check-In" NotOpened "2024-01-01 09:05:00"
           (session_world "Check-In" verified ∅) verified [9%N]).
  - reflexivity.
  - reflexivity.
  - reflexivity.
  - vm_compute. discriminate.
Defined.

Lemma webcam_start_new_ignored_witness :
  ∃ w',
    webcam_verification alice_or_bob "Check-In" (Some Start_New) NotOpened
      "2024-01-01 09:05:00" (session_world "Check-In" captured ∅)
      = (Return tt, w')
    ∧ session_state w' = session_state (session_world "Check-In" captured ∅)
    ∧ camera_opened w' = camera_opened (session_world "Check-In" captured ∅)
    ∧ fs w' = fs (session_world "Check-In" captured ∅).
Proof.
  apply (webcam_start_new_ignored alice_or_bob "Check-In" NotOpened
           "2024-01-01 09:05:00" (session_world "Check-In" captured ∅) captured).
  - reflexivity.
  - by right.
  - vm_compute. discriminate.
Defined.

Lemma webcam_verify_no_match_witness :
  ∃ w',
    webcam_verification nobody "Check-In" (Some Verify_and) NotOpened
      "2024-01-01 09:05:00" (session_world "Check-In" captured ∅)
      = (Return tt, w')
    ∧ session_state w' = session_state (session_world "Check-In" captured ∅)
    ∧ ledger_file w' = ledger_file (session_world "Check-In" captured ∅)
    ∧ camera_opened w' = camera_opened (session_world "Check-In" captured ∅)
    ∧ (error, Face_not_recognized) ∈ notices w'.
Proof.
  apply (webcam_verify_no_match nobody "Check-In" NotOpened "2024-01-01 09:05:00"
           (session_world "Check-In" captured ∅) captured [9%N]).
  - reflexivity.
  - reflexivity.
  - vm_compute. discriminate.
  - reflexivity.
Defined.

Lemma webcam_verify_logs_witness :
  ∃ w' df0 df1,
    webcam_verification alice_or_bob "Check-In" (Some Verify_and) NotOpened
      "2024-01-01 09:05:00" (full_world "Check-In" captured (Some bob_ledger) ∅)
      = (Return tt, w')
    ∧ verification (session_state w') !! session_key "Check-In"
      = Some {| frame := Some [9%N]; verification_done := true;
                last_capture_time := last_capture_time captured |}
    ∧ load_attendance_data (full_world "Check-In" captured (Some bob_ledger) ∅)
      = (Return df0, full_world "Check-In" captured (Some bob_ledger) ∅)
    ∧ load_attendance_data w' = (Return df1, w')
    ∧ ledger_rows df1
      = ledger_rows df0 ++ [check_view ("alice", "Check-In", "2024-01-01 09:05:00")].
Proof.
  apply (webcam_verify_logs alice_or_bob "Check-In" NotOpened "2024-01-01 09:05:00"
           (full_world "Check-In" captured (Some bob_ledger) ∅) captured [9%N]
           "alice" bob_ledger).
  - reflexivity.
  - reflexivity.
  - reflexivity.
  - reflexivity.
  - reflexivity.
  - simpl. set_solver.
Defined.

Lemma webcam_verify_ledger_unreadable_witness :
  ∃ w',
    webcam_verification alice_or_bob "Check-In" (Some Verify_and) NotOpened
      "2024-01-01 09:05:00" (full_world "Check-In" captured (Some bare_record) ∅)
      = (Return tt, w')
    ∧ session_state w'
      = session_state (full_world "Check-In" captured (Some bare_record) ∅)
    ∧ ledger_file w'
      = ledger_file (full_world "Check-In" captured (Some bare_record) ∅)
    ∧ (error,
       Verification_failed
         (ValueError "If using all scalar values, you must pass an index"))
      ∈ notices w'.
Proof.
  apply (webcam_verify_ledger_unreadable alice_or_bob "Check-In" NotOpened
           "2024-01-01 09:05:00"
           (full_world "Check-In" captured (Some bare_record) ∅) captured [9%N]
           "alice").
  - reflexivity.
  - reflexivity.
  - reflexivity.
  - reflexivity.
Defined.

Lemma webcam_sessions_independent_witness :
  verification
    (session_state
       (webcam_verification alice_or_bob "Check-Out" (Some Capture_Frame)
          (Frame [4%N]) "2024-01-01 17:00:00"
          (session_world "Check-In" captured ∅)).2)
    !! session_key "Check-In"
  = verification (session_state (session_world "Check-In" captured ∅))
    !! session_key "Check-In".
Proof. apply webcam_sessions_independent. vm_compute. discriminate. Defined.

(** "Verify" where a temp_img is in the way that cannot be removed: the
    OSError of [os.remove] is caught and shown, and the run returns. *)
Lemma webcam_raises_only_rerun_witness :
  (webcam_verification (OS := kept_candidate) alice_or_bob "Check-In"
     (Some Verify_and) NotOpened "2024-01-01 09:05:00"
     (full_world "Check-In" captured (Some bob_ledger) ∅)).1 = Return tt
  ∨ (webcam_verification (OS := kept_candidate) alice_or_bob "Check-In"
       (Some Verify_and) NotOpened "2024-01-01 09:05:00"
       (full_world "Check-In" captured (Some bob_ledger) ∅)).1
    = Raise RerunException.
Proof.
  apply (webcam_raises_only_rerun (OS := kept_candidate)).
  vm_compute. discriminate.
Defined.

Example verify_shows_remove_error :
  notices
    (webcam_verification (OS := kept_candidate) alice_or_bob "Check-In"
       (Some Verify_and) NotOpened "2024-01-01 09:05:00"
       (full_world "Check-In" captured (Some bob_ledger) ∅)).2
  = [(info, Frame_captured_at "2024-01-01 09:00:00");
     (error, Verification_failed OSError)].
Proof. vm_compute. reflexivity. Qed.

Lemma display_no_records_witness :
  display_attendance_log "2024-01-01" (ledger_world (Some (Garbage "{oops")) ∅)
  = (Return No_attendance_records, ledger_world (Some (Garbage "{oops")) ∅).
Proof. apply display_no_records. right. left. by exists "{oops". Defined.

Lemma display_metrics_bounded_witness :
  ledger_world (Some bob_ledger) ∅ = ledger_world (Some bob_ledger) ∅
  ∧ load_attendance_data (ledger_world (Some bob_ledger) ∅)
    = (Return
         {| columns := ["Time"; "Name"; "Type"];
            rows := [[Str "2024-01-01 09:00:00"; Str "Bob"; Str "Check-In"]] |},
       ledger_world (Some bob_ledger) ∅)
  ∧ (0 < 1 ∧ 1 ≤ 1 ∧ 1 ≤ 1)%nat
  ∧ JArr [JObj [("Time", JStr "2024-01-01 09:00:00"); ("Name", JStr "Bob");
                ("Type", JStr "Check-In")]]
    = JArr (map json_of_dict
              (to_dict_records
                 {| columns := ["Time"; "Name"; "Type"];
                    rows := [[Str "2024-01-01 09:00:00"; Str "Bob";
                              Str "Check-In"]] |})).
Proof.
  apply (display_metrics_bounded "2024-01-01" (ledger_world (Some bob_ledger) ∅)).
  reflexivity.
Defined.

Lemma display_after_check_witness :
  ∃ df0 people table download,
    load_attendance_data (ledger_world (Some bob_ledger) ∅)
      = (Return df0, ledger_world (Some bob_ledger) ∅)
    ∧ display_attendance_log "2024-01-01"
        (log_check "alice" "Check-Out" "2024-01-01 17:00:00"
           (ledger_world (Some bob_ledger) ∅)).2
      = (Return
           (Attendance_log
              (S (length (rows df0)))
              people
              (length (List.filter (fun s => Py.startswith s "2024-01-01")
                         (strings_of (column "Time" df0)))
               + (if Py.startswith "2024-01-01 17:00:00" "2024-01-01"
                  then 1 else 0))%nat
              table download),
         (log_check "alice" "Check-Out" "2024-01-01 17:00:00"
            (ledger_world (Some bob_ledger) ∅)).2).
Proof.
  apply (display_after_check "2024-01-01" "alice" "Check-Out" "2024-01-01 17:00:00"
           (ledger_world (Some bob_ledger) ∅) bob_ledger).
  - reflexivity.
  - reflexivity.
  - simpl. set_solver.
Defined.
